(** * Mobile-money CAP simulator: 2PC transfers, partitions and consistency strategies

    A shallow embedding of the distributed-transaction engine of the
    simulator (models/, config/, simulation/, services/, strategies/) and of
    its collectors of metrics (analysis/), together with the properties of
    its specification and further properties of the code.

    Conventions of the embedding.
    - Python objects that are shared and mutated (the nodes, the network
      simulator, the class-level configuration dictionaries, the services)
      live in one [World]; a node is addressed by a reference, so that the
      same node object may appear in several argument positions.
    - Every method is a computation in the monad [M S]: it threads the state
      [S] owned by the object, an [Oracle] for everything the environment
      decides (wall clock, pseudo-random draws, uuids, string hashes), and it
      may end in a Python exception.  State changes made before an exception
      is raised are kept, as in Python.
    - Amounts are whole FCFA (every call site and the seed data use Python
      ints, which are unbounded): they are elements of [Z].  Instants,
      latencies and probabilities are rationals, compared exactly, as floats
      are.  The sum and the quotient behind the average latency of
      [NetworkSimulator.get_statistics] round in binary64, so that the
      average of the floats may leave the interval they span: these two
      operations are parameters of its model, of which nothing is assumed.
      A rate, the quotient of two counters times 100, is kept exact; what
      is stated of it is that it lies between 0 and 100, which rounding to
      the nearest float preserves.
    - [print] is not modelled; [time.sleep] only lets wall-clock time pass,
      and every reading of the clock is an arbitrary value of the oracle. *)

From stdpp Require Import gmap strings list fin_maps functions pretty.
From Stdlib Require Import QArith Qminmax Lqa.

Open Scope string_scope.

(** ** Python values that flow through dictionaries *)

Inductive scalar :=
  | SNone
  | SBool (b : bool)
  | SInt (z : Z)
  | SFloat (q : Q)
  | SStr (s : string).

(** [a < b] on floats, as a boolean. *)
Definition Qltb (a b : Q) : bool :=
  (Qnum a * Zpos (Qden b) <? Qnum b * Zpos (Qden a))%Z.

(** [int(x)] of a float: truncation toward zero. *)
Definition int_of_float (x : Q) : Z := Z.quot (Qnum x) (Zpos (Qden x)).

(** ** Exceptions and the environment *)

Inductive exn :=
  | TimeoutError (msg : string)
  | TypeError (msg : string)
  | KeyError (msg : string).

(** [isinstance(e, TimeoutError)] *)
Definition is_TimeoutError (e : exn) : bool :=
  match e with TimeoutError _ => true | _ => false end.

(** [str(e)] *)
Definition exn_str (e : exn) : string :=
  match e with TimeoutError m | TypeError m | KeyError m => m end.

Record Oracle := mkOracle {
  clock : nat → Q;       (* successive readings of time.time() / datetime.now() *)
  random : nat → Q;      (* successive results of random.random() *)
  uuid4 : nat → string;  (* successive values of uuid.uuid4().hex[:8] *)
  hash : string → Z      (* hash() on str *)
}.

Inductive Outcome (A : Type) :=
  | Returned (a : A)
  | Raised (e : exn).
Arguments Returned {A} a.
Arguments Raised {A} e.

(** A computation over the state [S] of the object it belongs to. *)
Definition M (S A : Type) : Type := Oracle → S → Outcome A * Oracle * S.

Section monad.
Context {S : Type}.

#[export] Instance M_ret : MRet (M S) := λ A a o s, (Returned a, o, s).

#[export] Instance M_bind : MBind (M S) := λ A B f m o s,
  match m o s with
  | (Returned a, o', s') => f a o' s'
  | (Raised e, o', s') => (Raised e, o', s')
  end.

Definition get : M S S := λ o s, (Returned s, o, s).
Definition gets {A} (f : S → A) : M S A := λ o s, (Returned (f s), o, s).
Definition put (s : S) : M S unit := λ o _, (Returned tt, o, s).
Definition modify (f : S → S) : M S unit := λ o s, (Returned tt, o, f s).
Definition raise {A} (e : exn) : M S A := λ o s, (Raised e, o, s).

(** [try: body except Exception as e: handler(e)] *)
Definition try_except {A} (body : M S A) (handler : exn → M S A) : M S A :=
  λ o s,
    match body o s with
    | (Raised e, o', s') => handler e o' s'
    | r => r
    end.

(** [time.time()], also [datetime.now()]: the next reading of the clock. *)
Definition time_time : M S Q := λ o s,
  (Returned (clock o 0),
   mkOracle (λ n, clock o (Datatypes.S n)) (random o) (uuid4 o) (hash o), s).

(** [random.random()] *)
Definition random_random : M S Q := λ o s,
  (Returned (random o 0),
   mkOracle (clock o) (λ n, random o (Datatypes.S n)) (uuid4 o) (hash o), s).

(** [random.uniform(a, b)] is [a + (b-a) * random()]. *)
Definition random_uniform (a b : Q) : M S Q :=
  r ← random_random; mret (a + (b - a) * r)%Q.

(** [uuid.uuid4().hex[:8]] *)
Definition uuid4_hex8 : M S string := λ o s,
  (Returned (uuid4 o 0),
   mkOracle (clock o) (random o) (λ n, uuid4 o (Datatypes.S n)) (hash o), s).

(** [hash(s)] *)
Definition py_hash (x : string) : M S Z := λ o s, (Returned (hash o x), o, s).

(** [time.sleep(secs)]: nothing but the passing of time. *)
Definition time_sleep (secs : Q) : M S unit := mret tt.
End monad.

(** Run a computation of a component inside the state that contains it. *)
Definition zoom {S T A} (proj : T → S) (inj : S → T → T) (m : M S A) : M T A :=
  λ o t, match m o (proj t) with (r, o', s') => (r, o', inj s' t) end.

(** ** models/transaction.py *)

Inductive TransactionType := TRANSFER | PAYMENT | DEPOSIT | WITHDRAWAL.
Inductive TransactionStatus := PENDING | PREPARED | COMMITTED | ABORTED | FAILED.

#[export] Instance TransactionStatus_eq_dec : EqDecision TransactionStatus.
Proof. solve_decision. Defined.

(** The dictionaries kept in a node's history: the keys written by
    [Transaction.to_dict], plus the two keys stamped by
    [Node.add_transaction].  Seed entries come from a JSON file, hence the
    optional users ([tx.get('from_user')]). *)
Record TxDict := mkTxDict {
  d_transaction_id : string;
  d_type : TransactionType;
  d_from_user : option string;
  d_to_user : option string;
  d_amount : Z;
  d_currency : string;
  d_status : TransactionStatus;
  d_created_at : Q;
  d_completed_at : option Q;
  d_error_message : option string;
  d_metadata : gmap string scalar;
  d_node_id : option string;
  d_timestamp : option Q
}.

Module Transaction.
Record t := mk {
  transaction_id : string;
  type : TransactionType;
  from_user : string;
  to_user : string;
  amount : Z;
  currency : string;
  status : TransactionStatus;
  created_at : Q;
  completed_at : option Q;
  error_message : option string;
  metadata : gmap string scalar
}.

(** The dataclass constructor with its defaults and [__post_init__]. *)
Definition new {S} (transaction_id : string) (type : TransactionType)
    (from_user to_user : string) (amount : Z)
    (metadata : option (gmap string scalar)) : M S t :=
  now ← time_time;
  mret (mk transaction_id type from_user to_user amount "XOF" PENDING
           now None None (default ∅ metadata)).

Definition to_dict (self : t) : TxDict :=
  mkTxDict (transaction_id self) (type self) (Some (from_user self))
           (Some (to_user self)) (amount self) (currency self) (status self)
           (created_at self) (completed_at self) (error_message self)
           (metadata self) None None.

Definition set_status (v : TransactionStatus) (x : t) : t :=
  mk (transaction_id x) (type x) (from_user x) (to_user x) (amount x)
     (currency x) v (created_at x) (completed_at x) (error_message x)
     (metadata x).
Definition set_completed_at (v : option Q) (x : t) : t :=
  mk (transaction_id x) (type x) (from_user x) (to_user x) (amount x)
     (currency x) (status x) (created_at x) v (error_message x) (metadata x).
Definition set_error_message (v : option string) (x : t) : t :=
  mk (transaction_id x) (type x) (from_user x) (to_user x) (amount x)
     (currency x) (status x) (created_at x) (completed_at x) v (metadata x).
Definition set_metadata (v : gmap string scalar) (x : t) : t :=
  mk (transaction_id x) (type x) (from_user x) (to_user x) (amount x)
     (currency x) (status x) (created_at x) (completed_at x)
     (error_message x) v.

Definition mark_prepared : M t unit :=
  modify (set_status PREPARED).

Definition mark_committed : M t unit :=
  modify (set_status COMMITTED);;
  now ← time_time;
  modify (set_completed_at (Some now)).

Definition mark_aborted (reason : string) : M t unit :=
  modify (set_status ABORTED);;
  modify (set_error_message (Some reason));;
  now ← time_time;
  modify (set_completed_at (Some now)).

Definition mark_failed (error : string) : M t unit :=
  modify (set_status FAILED);;
  modify (set_error_message (Some error));;
  now ← time_time;
  modify (set_completed_at (Some now)).
End Transaction.

(** ** models/node.py *)

Inductive NodeRole := MASTER | REPLICA_RW | REPLICA_RO | REPLICA_ANALYTICS.
Inductive NodeState := HEALTHY | DEGRADED | ISOLATED | DOWN.

#[export] Instance NodeRole_eq_dec : EqDecision NodeRole.
Proof. solve_decision. Defined.
#[export] Instance NodeState_eq_dec : EqDecision NodeState.
Proof. solve_decision. Defined.

(** What a cache slot holds: a balance under a ["balance:<user>"] key, a
    list of history entries under a ["history:<user>"] key. *)
Inductive cached :=
  | CachedBalance (b : Z)
  | CachedHistory (txs : list TxDict).

Module Node.
(** The metric fields [error_count] and [total_latency] and the descriptive
    [location] are never written after construction and are left out. *)
Record t := mk {
  id : string;
  name : string;
  role : NodeRole;
  state : NodeState;
  accounts : gmap string Z;              (* user_id -> balance *)
  transactions : list TxDict;
  cache : gmap string (cached * Q);      (* key -> (value, expiry_time) *)
  last_heartbeat : Q;
  request_count : nat;
  can_reach : gmap string bool           (* node_id -> reachable *)
}.

Definition set_state (v : NodeState) (n : t) : t :=
  mk (id n) (name n) (role n) v (accounts n) (transactions n) (cache n)
     (last_heartbeat n) (request_count n) (can_reach n).
Definition set_accounts (v : gmap string Z) (n : t) : t :=
  mk (id n) (name n) (role n) (state n) v (transactions n) (cache n)
     (last_heartbeat n) (request_count n) (can_reach n).
Definition set_transactions (v : list TxDict) (n : t) : t :=
  mk (id n) (name n) (role n) (state n) (accounts n) v (cache n)
     (last_heartbeat n) (request_count n) (can_reach n).
Definition set_cache (v : gmap string (cached * Q)) (n : t) : t :=
  mk (id n) (name n) (role n) (state n) (accounts n) (transactions n) v
     (last_heartbeat n) (request_count n) (can_reach n).
Definition set_last_heartbeat (v : Q) (n : t) : t :=
  mk (id n) (name n) (role n) (state n) (accounts n) (transactions n)
     (cache n) v (request_count n) (can_reach n).
Definition set_request_count (v : nat) (n : t) : t :=
  mk (id n) (name n) (role n) (state n) (accounts n) (transactions n)
     (cache n) (last_heartbeat n) v (can_reach n).
Definition set_can_reach (v : gmap string bool) (n : t) : t :=
  mk (id n) (name n) (role n) (state n) (accounts n) (transactions n)
     (cache n) (last_heartbeat n) (request_count n) v.

Definition new {S} (node_id name : string) (role : NodeRole) : M S t :=
  now ← time_time;
  mret (mk node_id name role HEALTHY ∅ [] ∅ now 0 ∅).

Definition is_master (self : t) : bool :=
  bool_decide (role self = MASTER).

Definition can_write (self : t) : bool :=
  bool_decide (role self ∈ [MASTER; REPLICA_RW]).

Definition can_reach_master (self master_node : t) : bool :=
  if is_master self then true
  else default true (can_reach self !! id master_node).

Definition update_heartbeat : M t unit :=
  now ← time_time;
  modify (set_last_heartbeat now).

Definition is_healthy : M t bool :=
  now ← time_time;
  self ← get;
  if Qltb 3 (now - last_heartbeat self)
  then modify (set_state ISOLATED);; mret false
  else mret (bool_decide (state self = HEALTHY)).

Definition _get_from_cache (key : string) : M t (option cached) :=
  self ← get;
  match cache self !! key with
  | Some (value, expiry) =>
      now ← time_time;
      if Qltb now expiry then mret (Some value)
      else (* cache expired *)
        modify (set_cache (delete key (cache self)));;
        mret None
  | None => mret None
  end.

Definition _set_cache (key : string) (value : cached) (ttl : Q) : M t unit :=
  now ← time_time;
  let expiry := (now + ttl)%Q in
  modify (λ self, set_cache (<[key := (value, expiry)]> (cache self)) self).

Definition _invalidate_cache (key : string) : M t unit :=
  modify (λ self, set_cache (delete key (cache self)) self).

(** A slot under a balance key is only ever written by the AP balance
    read, with a balance; a history list found there is a type error. *)
Definition get_balance (user_id : string) (from_cache : bool)
    : M t (option Z) :=
  modify (λ self, set_request_count (Datatypes.S (request_count self)) self);;
  hit ← (if from_cache
         then _get_from_cache ("balance:" +:+ user_id)
         else mret None);
  match hit with
  | Some (CachedBalance b) => mret (Some b)
  | Some (CachedHistory _) => raise (TypeError "balance slot holds a list")
  | None =>
      (* otherwise read the database *)
      gets (λ self, accounts self !! user_id)
  end.

Definition set_balance (user_id : string) (balance : Z) : M t unit :=
  modify (λ self, set_accounts (<[user_id := balance]> (accounts self)) self);;
  _invalidate_cache ("balance:" +:+ user_id).

Definition add_transaction (transaction : TxDict) : M t unit :=
  now ← time_time;
  modify (λ self,
    set_transactions
      (transactions self ++
       [mkTxDict (d_transaction_id transaction) (d_type transaction)
          (d_from_user transaction) (d_to_user transaction)
          (d_amount transaction) (d_currency transaction)
          (d_status transaction) (d_created_at transaction)
          (d_completed_at transaction) (d_error_message transaction)
          (d_metadata transaction) (Some (id self)) (Some now)])
      self).

Definition get_transactions (user_id : string) (from_cache : bool)
    : M t (list TxDict) :=
  modify (λ self, set_request_count (Datatypes.S (request_count self)) self);;
  hit ← (if from_cache
         then _get_from_cache ("history:" +:+ user_id)
         else mret None);
  match hit with
  | Some (CachedHistory txs) => mret txs
  | Some (CachedBalance _) => raise (TypeError "history slot holds a number")
  | None =>
      gets (λ self,
        filter (λ tx, d_from_user tx = Some user_id ∨ d_to_user tx = Some user_id)
               (transactions self))
  end.
End Node.

(** ** config/network_config.py *)

(** A configured latency in milliseconds; [Infinite] is [float('inf')]. *)
Inductive latency := Finite (ms : Q) | Infinite.

(** The keys of [NetworkConfig.LATENCIES] and [NetworkConfig.PACKET_LOSS]. *)
Inductive Mode := normal | congested | partitioned.

#[export] Instance Mode_eq_dec : EqDecision Mode.
Proof. solve_decision. Defined.

Module NetworkConfig.
(** [LATENCIES] as the class statement leaves it.  Its three inner
    dictionaries are mutable objects: they live in the state [Net] below,
    and this is their initial content. *)
Definition LATENCIES (m : Mode) : gmap (string * string) latency :=
  match m with
  | normal =>
      {[ ("DAKAR", "SAINT_LOUIS") := Finite 50;
         ("DAKAR", "ZIGUINCHOR") := Finite 150;
         ("SAINT_LOUIS", "ZIGUINCHOR") := Finite 200 ]}
  | congested =>
      {[ ("DAKAR", "SAINT_LOUIS") := Finite 200;
         ("DAKAR", "ZIGUINCHOR") := Finite 600;
         ("SAINT_LOUIS", "ZIGUINCHOR") := Finite 800 ]}
  | partitioned =>
      {[ ("DAKAR", "ZIGUINCHOR") := Infinite;
         ("DAKAR", "SAINT_LOUIS") := Finite 50;
         ("SAINT_LOUIS", "ZIGUINCHOR") := Infinite ]}
  end.

(** Packet loss rate, in percent. *)
Definition PACKET_LOSS (m : Mode) : Q :=
  match m with
  | normal => 1 # 10
  | congested => 5
  | partitioned => 100
  end.

(** Timeouts in milliseconds. *)
Definition TIMEOUTS_transfer : Q := 5000.
Definition TIMEOUTS_payment : Q := 10000.
Definition TIMEOUTS_balance : Q := 2000.
Definition TIMEOUTS_history : Q := 3000.
Definition TIMEOUTS_heartbeat : Q := 1000.

(** Cache time-to-live in seconds. *)
Definition CACHE_TTL_balance : Q := 60.
Definition CACHE_TTL_history : Q := 300.
Definition CACHE_TTL_profile : Q := 3600.
End NetworkConfig.

(** ** simulation/network_simulator.py *)

Record LogEntry := mkLogEntry {
  log_timestamp : Q;
  log_from : string;
  log_to : string;
  log_type : string;
  log_success : bool;
  log_latency_ms : Q;
  log_error : option string
}.

(** The simulated reply of [send_message]. *)
Record Response (P : Type) := mkResponse {
  resp_status : string;
  resp_latency_ms : Q;
  resp_payload : P
}.
Arguments mkResponse {P} _ _ _.

Module NetworkSimulator.
(** [latencies] is not a copy: it is the dictionary object
    [NetworkConfig.LATENCIES[mode]] itself, so it is recorded as the key of
    the dictionary it points to. *)
Record t := mk {
  mode : Mode;
  latencies : Mode;
  packet_loss : Q;
  communication_log : list LogEntry
}.

(** The simulator together with the configuration dictionaries it shares
    with the class [NetworkConfig]. *)
Record Net := mkNet {
  LATENCIES : Mode → gmap (string * string) latency;
  self : t
}.

Definition set_self (v : t) (s : Net) : Net := mkNet (LATENCIES s) v.
Definition set_LATENCIES (v : Mode → gmap (string * string) latency)
    (s : Net) : Net := mkNet v (self s).

(** [self.latencies], dereferenced. *)
Definition latencies_dict (s : Net) : gmap (string * string) latency :=
  LATENCIES s (latencies (self s)).

(** [self.latencies[key] = v] *)
Definition latencies_setitem (key : string * string) (v : latency) : M Net unit :=
  modify (λ s,
    set_LATENCIES
      (<[latencies (self s) := <[key := v]> (latencies_dict s)]> (LATENCIES s)) s).

Definition new (network_mode : Mode) : t :=
  mk network_mode network_mode (NetworkConfig.PACKET_LOSS network_mode) [].

Definition set_mode (mode : Mode) : M Net unit :=
  modify (λ s,
    set_self (mk mode mode (NetworkConfig.PACKET_LOSS mode)
                 (communication_log (self s))) s).

(** [max(0, base_latency * factor)] on floats, [base_latency] being
    possibly infinite ([inf * x] is [inf] for a positive [x]; for other
    [x] it is [nan] or [-inf], and [max(0, _)] of these is [0]). *)
Definition scale_clamp (base_latency : latency) (factor : Q) : latency :=
  match base_latency with
  | Finite b => Finite (Qmax 0 (b * factor))
  | Infinite => if Qltb 0 factor then Infinite else Finite 0
  end.

Definition _get_latency (from_node to_node : string) : M Net latency :=
  if bool_decide (from_node = to_node) then mret (Finite 0)
  else
    let key1 := (from_node, to_node) in
    let key2 := (to_node, from_node) in
    lat ← gets latencies_dict;
    let base_latency :=
      default (default (Finite 100) (lat !! key2)) (lat !! key1) in
    jitter ← random_uniform (- (2 # 10)) (2 # 10);
    mret (scale_clamp base_latency (1 + jitter)).

Definition _is_packet_lost : M Net bool :=
  r ← random_random;
  loss ← gets (λ s, packet_loss (self s));
  mret (Qltb (r * 100) loss).

Definition _log_communication (from_node to_node message_type : string)
    (success : bool) (latency_ms : Q) (error : option string) : M Net unit :=
  now ← time_time;
  let log_entry :=
    mkLogEntry now from_node to_node message_type success latency_ms error in
  modify (λ s,
    set_self (mk (mode (self s)) (latencies (self s)) (packet_loss (self s))
                 (communication_log (self s) ++ [log_entry])) s).

Definition send_message {P} (from_node to_node message_type : string)
    (payload : P) : M Net (option (Response P)) :=
  start_time ← time_time;
  latency_ms ← _get_latency from_node to_node;
  lost ← _is_packet_lost;
  if (lost : bool) then
    _log_communication from_node to_node message_type false 0
                       (Some "Packet lost");;
    mret None
  else
    match latency_ms with
    | Finite ms => time_sleep (ms / 1000)
    | Infinite => (* OverflowError *) time_sleep (1 # 1000)
    end;;
    now ← time_time;
    let actual_latency := ((now - start_time) * 1000)%Q in
    _log_communication from_node to_node message_type true actual_latency
                       None;;
    mret (Some (mkResponse "success" actual_latency payload)).

Definition simulate_partition (node1 node2 : string) : M Net unit :=
  let key1 := (node1, node2) in
  let key2 := (node2, node1) in
  latencies_setitem key1 Infinite;;
  latencies_setitem key2 Infinite.

Definition heal_partition (node1 node2 : string) : M Net unit :=
  (* back to the normal latencies *)
  let normal_latencies := λ s : Net, LATENCIES s normal in
  let key1 := (node1, node2) in
  let key2 := (node2, node1) in
  s ← get;
  match normal_latencies s !! key1 with
  | Some v => latencies_setitem key1 v
  | None => mret tt
  end;;
  s ← get;
  match normal_latencies s !! key2 with
  | Some v => latencies_setitem key2 v
  | None => mret tt
  end.
End NetworkSimulator.

(** ** The objects of one simulation run *)

(** A reference to a [Node] object. *)
Definition ref := nat.

(** What flows out of the services: result dictionaries. *)
Inductive value :=
  | V (s : scalar)
  | VStrList (l : list string)
  | VTxList (l : list TxDict).
Coercion V : scalar >-> value.

Abbreviation Result := (gmap string value).

(** [x] where a balance or [None] is stored in a result. *)
Definition of_balance (x : option Z) : value :=
  match x with Some b => SInt b | None => SNone end.

Record TransferServiceState := mkTransferService {
  pending_transactions : gmap string Transaction.t;
  committed_transactions : gmap string Transaction.t;
  aborted_transactions : gmap string Transaction.t
}.

Record BalanceServiceState := mkBalanceService {
  query_count : nat;
  cache_hits : nat;
  cache_misses : nat
}.

Record HistoryServiceState := mkHistoryService {
  history_query_count : nat
}.

Record PaymentServiceState := mkPaymentService {
  payment_count : nat;
  success_count : nat;
  failed_count : nat
}.

Record PartitionSimulatorState := mkPartitionSimulator {
  nodes : gmap string ref;              (* node.id -> node *)
  partition_active : bool;
  partition_start_time : option Q
}.

(** All services and the partition simulator are wired to the same
    [NetworkSimulator] object, [net]. *)
Record World := mkWorld {
  heap : ref → Node.t;
  net : NetworkSimulator.Net;
  transfer : TransferServiceState;
  balance : BalanceServiceState;
  history : HistoryServiceState;
  payment : PaymentServiceState;
  partition : PartitionSimulatorState
}.

Definition set_heap (v : ref → Node.t) (w : World) : World :=
  mkWorld v (net w) (transfer w) (balance w) (history w) (payment w) (partition w).
Definition set_net (v : NetworkSimulator.Net) (w : World) : World :=
  mkWorld (heap w) v (transfer w) (balance w) (history w) (payment w) (partition w).
Definition set_transfer (v : TransferServiceState) (w : World) : World :=
  mkWorld (heap w) (net w) v (balance w) (history w) (payment w) (partition w).
Definition set_balance (v : BalanceServiceState) (w : World) : World :=
  mkWorld (heap w) (net w) (transfer w) v (history w) (payment w) (partition w).
Definition set_history (v : HistoryServiceState) (w : World) : World :=
  mkWorld (heap w) (net w) (transfer w) (balance w) v (payment w) (partition w).
Definition set_payment (v : PaymentServiceState) (w : World) : World :=
  mkWorld (heap w) (net w) (transfer w) (balance w) (history w) v (partition w).
Definition set_partition (v : PartitionSimulatorState) (w : World) : World :=
  mkWorld (heap w) (net w) (transfer w) (balance w) (history w) (payment w) v.

(** A method call [node.m(...)] on the node object behind a reference. *)
Definition on_node {A} (node : ref) (m : M Node.t A) : M World A :=
  zoom (λ w, heap w node) (λ n w, set_heap (<[node := n]> (heap w)) w) m.

(** A method call [self.network.m(...)]. *)
Definition on_network {A} (m : M NetworkSimulator.Net A) : M World A :=
  zoom net set_net m.

(** The activation of a service method that owns a local [Transaction]
    object: the world, and the transaction being processed. *)
Record Frame := mkFrame {
  world : World;
  the_transaction : Transaction.t   (* the local variable [transaction] *)
}.

Definition in_world {A} (m : M World A) : M Frame A :=
  zoom world (λ w f, mkFrame w (the_transaction f)) m.

Definition on_transaction {A} (m : M Transaction.t A) : M Frame A :=
  zoom the_transaction (λ t f, mkFrame (world f) t) m.

(** Run a method body with its local transaction.  The local object is
    dropped when the method returns; [traced] hands it out next to the
    returned value, so that its final state can be spoken about. *)
Definition traced {A} (t : Transaction.t) (body : M Frame A)
    : M World (A * Transaction.t) :=
  λ o w,
    match body o (mkFrame w t) with
    | (Returned a, o', f) => (Returned (a, the_transaction f), o', world f)
    | (Raised e, o', f) => (Raised e, o', world f)
    end.

Definition with_transaction {A} (t : Transaction.t) (body : M Frame A) : M World A :=
  r ← traced t body; mret r.1.

(** [x - y] and [x + y] where [x] may be [None]. *)
Definition py_sub {S} (x : option Z) (y : Z) : M S Z :=
  match x with
  | Some a => mret (a - y)%Z
  | None => raise (TypeError "unsupported operand type(s) for -: 'NoneType' and 'int'")
  end.

Definition py_add {S} (x : option Z) (y : Z) : M S Z :=
  match x with
  | Some a => mret (a + y)%Z
  | None => raise (TypeError "unsupported operand type(s) for +: 'NoneType' and 'int'")
  end.

(** [x >= y] where [x] may be [None]. *)
Definition py_ge {S} (x : option Z) (y : Z) : M S bool :=
  match x with
  | Some a => mret (bool_decide (y ≤ a)%Z)
  | None => raise (TypeError "'>=' not supported between instances of 'NoneType' and 'int'")
  end.

(** [x or y] on optional numbers: [x] unless it is falsy ([None] or [0]). *)
Definition py_or (x y : option Z) : option Z :=
  match x with
  | Some a => if bool_decide (a = 0%Z) then y else Some a
  | None => y
  end.

(** [a / b * 100] on two counters, as a float. *)
Definition percent (a b : nat) : Q :=
  (inject_Z (Z.of_nat a) / inject_Z (Z.of_nat b) * 100)%Q.

(** ** services/transfer_service.py *)

Inductive Vote := YES | NO.

#[export] Instance Vote_eq_dec : EqDecision Vote.
Proof. solve_decision. Defined.

Module TransferService.

Definition _pre_checks (master_node : ref) : M Frame bool :=
  transaction ← gets the_transaction;
  (* sufficient balance *)
  balance ← in_world (on_node master_node
               (Node.get_balance (Transaction.from_user transaction) false));
  match balance with
  | None => mret false
  | Some balance =>
      if bool_decide (balance < Transaction.amount transaction)%Z then mret false
      else
        (* the recipient exists *)
        to_balance ← in_world (on_node master_node
                        (Node.get_balance (Transaction.to_user transaction) false));
        match to_balance with
        | None => mret false
        | Some _ => mret true
        end
  end.

(** Can a node take part in PREPARE? *)
Definition _can_node_prepare (node : ref) : M Frame bool :=
  transaction ← gets the_transaction;
  (* the node must be healthy *)
  healthy ← in_world (on_node node Node.is_healthy);
  if negb healthy then mret false
  else
    n ← gets (λ f, heap (world f) node);
    (* the master checks the balance *)
    if Node.is_master n then
      balance ← in_world (on_node node
                   (Node.get_balance (Transaction.from_user transaction) false));
      py_ge balance (Transaction.amount transaction)
    else
      (* replicas can always prepare *)
      mret true.

(** One turn of the [for node in participants] loop of the prepare phase,
    after its timeout check: send PREPARE to [node] and work out the
    assignment [votes[node.id] = ...]. *)
Definition _prepare_vote (master_node node : ref) : M Frame (string * Vote) :=
  tx_id ← gets (λ f, Transaction.transaction_id (the_transaction f));
  master_id ← gets (λ f, Node.id (heap (world f) master_node));
  node_id ← gets (λ f, Node.id (heap (world f) node));
  response ← in_world (on_network
    (NetworkSimulator.send_message master_id node_id "prepare"
       ({[ "transaction_id" := SStr tx_id ]} : gmap string scalar)));
  match response with
  | None =>
      (* communication failed *)
      mret (node_id, NO)
  | Some _ =>
      (* can the node take part? *)
      can_prepare ← _can_node_prepare node;
      mret (node_id, if can_prepare : bool then YES else NO)
  end.

(** The [for node in participants] loop, threading the [votes]
    dictionary. *)
Fixpoint _prepare_loop (timeout start_time : Q) (master_node : ref)
    (participants : list ref) (votes : gmap string Vote)
    : M Frame (gmap string Vote) :=
  match participants with
  | [] => mret votes
  | node :: rest =>
      now ← time_time;
      if Qltb timeout (now - start_time)
      then raise (TimeoutError "Prepare phase timeout")
      else
        v ← _prepare_vote master_node node;
        _prepare_loop timeout start_time master_node rest (<[v.1 := v.2]> votes)
  end.

(** The prepare phase up to the point where all votes are in. *)
Definition _prepare_votes (master_node : ref) (replica_nodes : list ref)
    : M Frame (gmap string Vote) :=
  let timeout := (NetworkConfig.TIMEOUTS_transfer / 1000)%Q in
  start_time ← time_time;
  (* the participants *)
  let participants := ([master_node] ++ replica_nodes)%list in
  _prepare_loop timeout start_time master_node participants ∅.

Definition _prepare_phase (master_node : ref) (replica_nodes : list ref)
    : M Frame bool :=
  votes ← _prepare_votes master_node replica_nodes;
  (* check the votes *)
  let all_yes := bool_decide (map_Forall (λ _ vote, vote = YES) votes) in
  if all_yes then
    on_transaction Transaction.mark_prepared;;
    mret true
  else mret false.

(** The block under [if response:] in the replication loop of the commit
    phase: apply the transfer on the replica [node].  [from_balance] and
    [to_balance] are the master's balances read before its own commit. *)
Definition _commit_on_replica (node : ref) (from_balance to_balance : option Z)
    : M Frame unit :=
  transaction ← gets the_transaction;
  b1 ← in_world (on_node node
          (Node.get_balance (Transaction.from_user transaction) false));
  let from_bal := py_or b1 from_balance in
  b2 ← in_world (on_node node
          (Node.get_balance (Transaction.to_user transaction) false));
  let to_bal := py_or b2 to_balance in
  v1 ← py_sub from_bal (Transaction.amount transaction);
  in_world (on_node node
    (Node.set_balance (Transaction.from_user transaction) v1));;
  v2 ← py_add to_bal (Transaction.amount transaction);
  in_world (on_node node
    (Node.set_balance (Transaction.to_user transaction) v2));;
  in_world (on_node node
    (Node.add_transaction (Transaction.to_dict transaction))).

(** The replication loop of the commit phase. *)
Fixpoint _commit_loop (timeout start_time : Q) (master_node : ref)
    (from_balance to_balance : option Z) (replica_nodes : list ref)
    : M Frame bool :=
  match replica_nodes with
  | [] => mret true
  | node :: rest =>
      now ← time_time;
      if Qltb timeout (now - start_time)
      then mret true (* the master has committed already *)
      else
        transaction ← gets the_transaction;
        master_id ← gets (λ f, Node.id (heap (world f) master_node));
        node_id ← gets (λ f, Node.id (heap (world f) node));
        response ← in_world (on_network
          (NetworkSimulator.send_message master_id node_id "commit"
             ({[ "transaction_id" := SStr (Transaction.transaction_id transaction);
                 "from_user" := SStr (Transaction.from_user transaction);
                 "to_user" := SStr (Transaction.to_user transaction);
                 "amount" := SInt (Transaction.amount transaction) ]}
              : gmap string scalar)));
        match response with
        | Some _ => _commit_on_replica node from_balance to_balance
        | None => mret tt
        end;;
        _commit_loop timeout start_time master_node from_balance to_balance rest
  end.

Definition _commit_phase (master_node : ref) (replica_nodes : list ref)
    : M Frame bool :=
  let timeout := (NetworkConfig.TIMEOUTS_transfer / 1000)%Q in
  start_time ← time_time;
  transaction ← gets the_transaction;
  (* the changes are made on the master first *)
  from_balance ← in_world (on_node master_node
                    (Node.get_balance (Transaction.from_user transaction) false));
  to_balance ← in_world (on_node master_node
                  (Node.get_balance (Transaction.to_user transaction) false));
  v1 ← py_sub from_balance (Transaction.amount transaction);
  in_world (on_node master_node
    (Node.set_balance (Transaction.from_user transaction) v1));;
  v2 ← py_add to_balance (Transaction.amount transaction);
  in_world (on_node master_node
    (Node.set_balance (Transaction.to_user transaction) v2));;
  in_world (on_node master_node
    (Node.add_transaction (Transaction.to_dict transaction)));;
  (* replicate to the replicas *)
  _commit_loop timeout start_time master_node from_balance to_balance
               replica_nodes.

Definition _abort_transaction (reason : string) : M Frame Result :=
  on_transaction (Transaction.mark_aborted reason);;
  transaction ← gets the_transaction;
  in_world (modify (λ w,
    set_transfer
      (mkTransferService
         (pending_transactions (transfer w))
         (committed_transactions (transfer w))
         (<[Transaction.transaction_id transaction := transaction]>
            (aborted_transactions (transfer w)))) w));;
  mret ({[ "success" := V (SBool false);
           "transaction_id" := V (SStr (Transaction.transaction_id transaction));
           "error" := V (SStr reason) ]} : Result).

(** The [try] block of [transfer]. *)
Definition transfer_try (tx_id from_user to_user : string)
    (master_node : ref) (replica_nodes : list ref) (start_time : Q)
    : M Frame Result :=
  (* phase 0: preliminary checks *)
  ok ← _pre_checks master_node;
  if negb ok then _abort_transaction "Pre-checks failed"
  else
    (* phase 1: PREPARE *)
    ok ← _prepare_phase master_node replica_nodes;
    if negb ok then _abort_transaction "Prepare phase failed"
    else
      (* phase 2: COMMIT *)
      ok ← _commit_phase master_node replica_nodes;
      if negb ok then _abort_transaction "Commit phase failed"
      else
        (* success *)
        now ← time_time;
        let latency := ((now - start_time) * 1000)%Q in
        on_transaction Transaction.mark_committed;;
        transaction ← gets the_transaction;
        in_world (modify (λ w,
          set_transfer
            (mkTransferService
               (pending_transactions (transfer w))
               (<[tx_id := transaction]> (committed_transactions (transfer w)))
               (aborted_transactions (transfer w))) w));;
        new_balance_from ← in_world (on_node master_node
                              (Node.get_balance from_user false));
        new_balance_to ← in_world (on_node master_node
                            (Node.get_balance to_user false));
        mret ({[ "success" := V (SBool true);
                 "transaction_id" := V (SStr tx_id);
                 "latency_ms" := V (SFloat latency);
                 "new_balance_from" := of_balance new_balance_from;
                 "new_balance_to" := of_balance new_balance_to ]} : Result).

(** Its [except] clauses. *)
Definition transfer_except (e : exn) : M Frame Result :=
  if is_TimeoutError e
  then _abort_transaction ("Timeout: " +:+ exn_str e)
  else _abort_transaction ("Error: " +:+ exn_str e).

Definition transfer (from_user to_user : string) (amount : Z)
    (master_node : ref) (replica_nodes : list ref) (strategy : string)
    : M World Result :=
  (* create the transaction *)
  hex ← uuid4_hex8;
  let tx_id := "TX_" +:+ hex in
  transaction ← Transaction.new tx_id TRANSFER from_user to_user amount None;
  with_transaction transaction (
    start_time ← time_time;
    try_except
      (transfer_try tx_id from_user to_user master_node replica_nodes start_time)
      transfer_except).
End TransferService.

(** ** services/payment_service.py *)

(** The dictionary returned by the provider stub. *)
Record ProviderResponse := mkProviderResponse {
  pr_success : bool;
  pr_receipt_id : option string;
  pr_error : option string;
  pr_latency_ms : Q
}.

Module PaymentService.

Definition incr_payment_count : M World unit :=
  modify (λ w, set_payment
    (mkPaymentService (Datatypes.S (payment_count (payment w)))
       (success_count (payment w)) (failed_count (payment w))) w).
Definition incr_success_count : M World unit :=
  modify (λ w, set_payment
    (mkPaymentService (payment_count (payment w))
       (Datatypes.S (success_count (payment w))) (failed_count (payment w))) w).
Definition incr_failed_count : M World unit :=
  modify (λ w, set_payment
    (mkPaymentService (payment_count (payment w))
       (success_count (payment w)) (Datatypes.S (failed_count (payment w)))) w).

Definition _fail_payment (reason : string) (start_time : Q) : M Frame Result :=
  now ← time_time;
  let latency := ((now - start_time) * 1000)%Q in
  on_transaction (Transaction.mark_failed reason);;
  in_world incr_failed_count;;
  transaction ← gets the_transaction;
  mret ({[ "success" := V (SBool false);
           "transaction_id" := V (SStr (Transaction.transaction_id transaction));
           "error" := V (SStr reason);
           "latency_ms" := V (SFloat latency) ]} : Result).

(** The stub of the external provider: 2 to 3 seconds, 95% success. *)
Definition _call_provider_api : M Frame ProviderResponse :=
  transaction ← gets the_transaction;
  h ← py_hash (Transaction.transaction_id transaction);
  let api_latency := (2 + (1 * inject_Z (h mod 10) / 10))%Q in
  time_sleep api_latency;;
  r ← random_random;
  let success := Qltb (5 # 100) r in
  if success then
    hex ← uuid4_hex8;
    mret (mkProviderResponse true (Some ("RCPT_" +:+ hex)) None
            (api_latency * 1000))
  else
    mret (mkProviderResponse false None (Some "Provider timeout")
            (api_latency * 1000)).

(** The [for node in replica_nodes] loop of the strict payment. *)
Fixpoint _replicate_loop (master_node : ref) (replica_nodes : list ref)
    : M Frame unit :=
  match replica_nodes with
  | [] => mret tt
  | node :: rest =>
      transaction ← gets the_transaction;
      master_id ← gets (λ f, Node.id (heap (world f) master_node));
      node_id ← gets (λ f, Node.id (heap (world f) node));
      response ← in_world (on_network
        (NetworkSimulator.send_message master_id node_id "payment_replicate"
           (Transaction.to_dict transaction)));
      match response with
      | Some _ =>
          b ← in_world (on_node node
                 (Node.get_balance (Transaction.from_user transaction) false));
          v ← py_sub b (Transaction.amount transaction);
          in_world (on_node node
            (Node.set_balance (Transaction.from_user transaction) v));;
          in_world (on_node node
            (Node.add_transaction (Transaction.to_dict transaction)))
      | None => mret tt
      end;;
      _replicate_loop master_node rest
  end.

(** Strict CP: everything must succeed. *)
Definition _pay_bill_cp_strict (master_node : ref) (replica_nodes : list ref)
    (start_time : Q) : M Frame Result :=
  transaction ← gets the_transaction;
  (* debit the user *)
  balance ← in_world (on_node master_node
               (Node.get_balance (Transaction.from_user transaction) false));
  match balance with
  | None =>
      (* [balance - transaction.amount] *)
      raise (TypeError "unsupported operand type(s) for -: 'NoneType' and 'int'")
  | Some balance =>
      in_world (on_node master_node
        (Node.set_balance (Transaction.from_user transaction)
           (balance - Transaction.amount transaction)));;
      (* notify the provider *)
      provider_response ← _call_provider_api;
      if negb (pr_success provider_response) then
        (* ROLLBACK *)
        in_world (on_node master_node
          (Node.set_balance (Transaction.from_user transaction) balance));;
        _fail_payment "Provider API failed" start_time
      else
        (* log the transaction *)
        in_world (on_node master_node
          (Node.add_transaction (Transaction.to_dict transaction)));;
        (* replication *)
        _replicate_loop master_node replica_nodes;;
        now ← time_time;
        let latency := ((now - start_time) * 1000)%Q in
        on_transaction Transaction.mark_committed;;
        in_world incr_success_count;;
        new_balance ← in_world (on_node master_node
                         (Node.get_balance (Transaction.from_user transaction) false));
        mret ({[ "success" := V (SBool true);
                 "transaction_id" := V (SStr (Transaction.transaction_id transaction));
                 "receipt_id" := V (from_option SStr SNone (pr_receipt_id provider_response));
                 "latency_ms" := V (SFloat latency);
                 "new_balance" := of_balance new_balance ]} : Result)
  end.

(** Adaptive: queue when the amount is small. *)
Definition _pay_bill_adaptive (master_node : ref) (replica_nodes : list ref)
    (start_time : Q) : M Frame Result :=
  transaction ← gets the_transaction;
  if bool_decide (Transaction.amount transaction < 5000)%Z then
    (* debit at once *)
    balance ← in_world (on_node master_node
                 (Node.get_balance (Transaction.from_user transaction) false));
    debited ← py_sub balance (Transaction.amount transaction);
    in_world (on_node master_node
      (Node.set_balance (Transaction.from_user transaction) debited));;
    now ← time_time;
    let latency := ((now - start_time) * 1000)%Q in
    on_transaction (modify (λ t,
      Transaction.set_metadata
        (<["queued" := SBool true]> (Transaction.metadata t)) t));;
    on_transaction Transaction.mark_committed;;
    in_world incr_success_count;;
    new_balance ← in_world (on_node master_node
                     (Node.get_balance (Transaction.from_user transaction) false));
    mret ({[ "success" := V (SBool true);
             "transaction_id" := V (SStr (Transaction.transaction_id transaction));
             "status" := V (SStr "pending");
             "message" := V (SStr "Paiement en cours de traitement (2-5 minutes)");
             "latency_ms" := V (SFloat latency);
             "new_balance" := of_balance new_balance ]} : Result)
  else
    (* large amount: strict CP *)
    _pay_bill_cp_strict master_node replica_nodes start_time.

(** [pay_bill], handing out the local transaction object as well. *)
Definition pay_bill_traced (user_id provider : string) (amount : Z)
    (master_node : ref) (replica_nodes : list ref) (strategy : string)
    : M World (Result * Transaction.t) :=
  incr_payment_count;;
  hex ← uuid4_hex8;
  let tx_id := "PAY_" +:+ hex in
  transaction ← Transaction.new tx_id PAYMENT user_id provider amount
                  (Some {[ "provider" := SStr provider ]});
  traced transaction (
    start_time ← time_time;
    try_except (
      (* check the balance *)
      balance ← in_world (on_node master_node (Node.get_balance user_id false));
      if match balance with
         | None => true
         | Some balance => bool_decide (balance < amount)%Z
         end
      then _fail_payment "Insufficient balance" start_time
      else if bool_decide (strategy = "CP")
      then _pay_bill_cp_strict master_node replica_nodes start_time
      else _pay_bill_adaptive master_node replica_nodes start_time)
    (λ e, _fail_payment (exn_str e) start_time)).

Definition pay_bill (user_id provider : string) (amount : Z)
    (master_node : ref) (replica_nodes : list ref) (strategy : string)
    : M World Result :=
  r ← pay_bill_traced user_id provider amount master_node replica_nodes strategy;
  mret r.1.

Definition get_statistics : M World Result :=
  self ← gets payment;
  let success_rate : scalar :=
    if bool_decide (0 < payment_count self)%nat
    then SFloat (percent (success_count self) (payment_count self))
    else SInt 0 in
  mret ({[ "total_payments" := V (SInt (Z.of_nat (payment_count self)));
           "successful" := V (SInt (Z.of_nat (success_count self)));
           "failed" := V (SInt (Z.of_nat (failed_count self)));
           "success_rate" := V success_rate ]} : Result).
End PaymentService.

(** ** services/balance_service.py *)

Module BalanceService.

Definition incr_query_count : M World unit :=
  modify (λ w, set_balance
    (mkBalanceService (Datatypes.S (query_count (balance w)))
       (cache_hits (balance w)) (cache_misses (balance w))) w).
Definition incr_cache_hits : M World unit :=
  modify (λ w, set_balance
    (mkBalanceService (query_count (balance w))
       (Datatypes.S (cache_hits (balance w))) (cache_misses (balance w))) w).
Definition incr_cache_misses : M World unit :=
  modify (λ w, set_balance
    (mkBalanceService (query_count (balance w))
       (cache_hits (balance w)) (Datatypes.S (cache_misses (balance w)))) w).

(** AP: availability first. *)
Definition _get_balance_ap (user_id : string) (node : ref) (start_time : Q)
    : M World Result :=
  (* try the cache *)
  balance ← on_node node (Node.get_balance user_id true);
  match balance with
  | Some balance =>
      incr_cache_hits;;
      now ← time_time;
      let latency := ((now - start_time) * 1000)%Q in
      mret ({[ "success" := V (SBool true);
               "balance" := V (SInt balance);
               "source" := V (SStr "cache");
               "latency_ms" := V (SFloat latency);
               "freshness" := V (SStr "cached") ]} : Result)
  | None =>
      incr_cache_misses;;
      (* read the local replica *)
      time_sleep (5 # 100);;
      balance ← on_node node (Node.get_balance user_id false);
      match balance with
      | Some balance =>
          now ← time_time;
          let latency := ((now - start_time) * 1000)%Q in
          (* cache it for next time *)
          on_node node
            (Node._set_cache ("balance:" +:+ user_id) (CachedBalance balance)
               NetworkConfig.CACHE_TTL_balance);;
          mret ({[ "success" := V (SBool true);
                   "balance" := V (SInt balance);
                   "source" := V (SStr "replica_local");
                   "latency_ms" := V (SFloat latency);
                   "freshness" := V (SStr "recent");
                   "warning" := V (SStr "Données peuvent avoir quelques secondes de retard") ]}
                : Result)
      | None =>
          (* total failure *)
          now ← time_time;
          let latency := ((now - start_time) * 1000)%Q in
          mret ({[ "success" := V (SBool false);
                   "error" := V (SStr "Account not found");
                   "latency_ms" := V (SFloat latency) ]} : Result)
      end
  end.

(** CP: consistency first. *)
Definition _get_balance_cp (user_id : string) (node : ref)
    (master_node : option ref) (start_time : Q) : M World Result :=
  match master_node with
  | None =>
      mret ({[ "success" := V (SBool false);
               "error" := V (SStr "Master node required for CP strategy") ]}
            : Result)
  | Some master_node =>
      (* check the connectivity to the master *)
      w ← get;
      if negb (Node.can_reach_master (heap w node) (heap w master_node)) then
        now ← time_time;
        let latency := ((now - start_time) * 1000)%Q in
        mret ({[ "success" := V (SBool false);
                 "error" := V (SStr "Service temporarily unavailable");
                 "reason" := V (SStr "Cannot reach master node");
                 "latency_ms" := V (SFloat latency) ]} : Result)
      else
        response ← on_network
          (NetworkSimulator.send_message (Node.id (heap w node))
             (Node.id (heap w master_node)) "balance_query"
             ({[ "user_id" := SStr user_id ]} : gmap string scalar));
        match response with
        | None =>
            now ← time_time;
            let latency := ((now - start_time) * 1000)%Q in
            mret ({[ "success" := V (SBool false);
                     "error" := V (SStr "Service temporarily unavailable");
                     "latency_ms" := V (SFloat latency) ]} : Result)
        | Some _ =>
            (* read from the master *)
            time_sleep (5 # 100);;
            balance ← on_node master_node (Node.get_balance user_id false);
            now ← time_time;
            let latency := ((now - start_time) * 1000)%Q in
            match balance with
            | Some balance =>
                mret ({[ "success" := V (SBool true);
                         "balance" := V (SInt balance);
                         "source" := V (SStr "master");
                         "latency_ms" := V (SFloat latency);
                         "freshness" := V (SStr "guaranteed_accurate") ]} : Result)
            | None =>
                mret ({[ "success" := V (SBool false);
                         "error" := V (SStr "Account not found");
                         "latency_ms" := V (SFloat latency) ]} : Result)
            end
        end
  end.

Definition get_balance (user_id : string) (node : ref)
    (master_node : option ref) (strategy : string) : M World Result :=
  incr_query_count;;
  start_time ← time_time;
  if bool_decide (strategy = "AP")
  then _get_balance_ap user_id node start_time
  else _get_balance_cp user_id node master_node start_time.

Definition get_statistics : M World Result :=
  self ← gets balance;
  let cache_hit_rate : scalar :=
    if bool_decide (0 < query_count self)%nat
    then SFloat (percent (cache_hits self) (query_count self))
    else SInt 0 in
  mret ({[ "total_queries" := V (SInt (Z.of_nat (query_count self)));
           "cache_hits" := V (SInt (Z.of_nat (cache_hits self)));
           "cache_misses" := V (SInt (Z.of_nat (cache_misses self)));
           "cache_hit_rate" := V cache_hit_rate ]} : Result).
End BalanceService.

(** ** services/history_service.py *)

Module HistoryService.

Definition get_history (user_id : string) (node : ref) (limit : nat)
    : M World Result :=
  modify (λ w, set_history
    (mkHistoryService (Datatypes.S (history_query_count (history w)))) w);;
  start_time ← time_time;
  (* step 1: try the cache *)
  cached_history ← on_node node (Node._get_from_cache ("history:" +:+ user_id));
  match cached_history with
  | Some (CachedHistory cached_history) =>
      now ← time_time;
      let latency := ((now - start_time) * 1000)%Q in
      mret ({[ "success" := V (SBool true);
               "transactions" := VTxList (take limit cached_history);
               "count" := V (SInt (Z.of_nat (length cached_history)));
               "source" := V (SStr "cache");
               "latency_ms" := V (SFloat latency) ]} : Result)
  | Some (CachedBalance _) =>
      now ← time_time;
      (* [len(cached_history)] *)
      raise (TypeError "object of type 'float' has no len()")
  | None =>
      (* step 2: read the local replica *)
      time_sleep (15 # 100);;
      transactions ← on_node node (Node.get_transactions user_id false);
      now ← time_time;
      let latency := ((now - start_time) * 1000)%Q in
      match transactions with
      | _ :: _ =>
          (* cache them *)
          on_node node
            (Node._set_cache ("history:" +:+ user_id) (CachedHistory transactions)
               NetworkConfig.CACHE_TTL_history);;
          mret ({[ "success" := V (SBool true);
                   "transactions" := VTxList (take limit transactions);
                   "count" := V (SInt (Z.of_nat (length transactions)));
                   "source" := V (SStr "replica_local");
                   "latency_ms" := V (SFloat latency);
                   "warning" := V (SStr "Les transactions très récentes peuvent ne pas apparaître") ]}
                : Result)
      | [] =>
          mret ({[ "success" := V (SBool true);
                   "transactions" := VTxList [];
                   "count" := V (SInt 0);
                   "source" := V (SStr "replica_local");
                   "latency_ms" := V (SFloat latency) ]} : Result)
      end
  end.
End HistoryService.

(** ** strategies/pure_cp_strategy.py *)

Module PureCPStrategy.

Definition execute_transfer (from_user to_user : string) (amount : Z)
    (node master_node : ref) (replica_nodes : list ref) : M World Result :=
  w ← get;
  (* check the connectivity to the master *)
  if negb (Node.can_reach_master (heap w node) (heap w master_node)) then
    mret ({[ "success" := V (SBool false);
             "error" := V (SStr "Service temporarily unavailable");
             "reason" := V (SStr "Cannot reach master node (network partition)");
             "strategy" := V (SStr "CP_STRICT") ]} : Result)
  else
    (* normal transfer (strict CP) *)
    TransferService.transfer from_user to_user amount master_node
      replica_nodes "CP".

Definition execute_balance_query (user_id : string) (node master_node : ref)
    : M World Result :=
  w ← get;
  if negb (Node.can_reach_master (heap w node) (heap w master_node)) then
    mret ({[ "success" := V (SBool false);
             "error" := V (SStr "Service temporarily unavailable");
             "reason" := V (SStr "Cannot reach master node");
             "strategy" := V (SStr "CP_STRICT") ]} : Result)
  else
    (* read from the master only (CP) *)
    BalanceService.get_balance user_id node (Some master_node) "CP".

Definition execute_history_query (user_id : string) (node master_node : ref)
    : M World Result :=
  w ← get;
  if negb (Node.can_reach_master (heap w node) (heap w master_node)) then
    mret ({[ "success" := V (SBool false);
             "error" := V (SStr "Service temporarily unavailable");
             "reason" := V (SStr "Cannot reach master node");
             "strategy" := V (SStr "CP_STRICT") ]} : Result)
  else
    (* in pure CP even the history comes from the master *)
    HistoryService.get_history user_id master_node 50.

Definition execute_payment (user_id provider : string) (amount : Z)
    (node master_node : ref) (replica_nodes : list ref) : M World Result :=
  w ← get;
  if negb (Node.can_reach_master (heap w node) (heap w master_node)) then
    mret ({[ "success" := V (SBool false);
             "error" := V (SStr "Service temporarily unavailable");
             "reason" := V (SStr "Cannot reach master node");
             "strategy" := V (SStr "CP_STRICT") ]} : Result)
  else
    PaymentService.pay_bill user_id provider amount master_node
      replica_nodes "CP".
End PureCPStrategy.

(** ** strategies/adaptive_strategy.py *)

Module AdaptiveStrategy.

Definition execute_transfer (from_user to_user : string) (amount : Z)
    (node master_node : ref) (replica_nodes : list ref) : M World Result :=
  w ← get;
  if negb (Node.can_reach_master (heap w node) (heap w master_node)) then
    mret ({[ "success" := V (SBool false);
             "error" := V (SStr "Transferts temporairement indisponibles");
             "reason" := V (SStr "Problème de connexion réseau détecté");
             "message" := V (SStr
               ("Pour votre sécurité, les transferts sont temporairement suspendus." +:+ "
" +:+ "Vous pouvez toujours consulter votre solde et historique." +:+ "
" +:+ "Réessayez dans quelques minutes."));
             "available_actions" := VStrList ["consulter_solde"; "voir_historique"];
             "strategy" := V (SStr "ADAPTIVE_CP") ]} : Result)
  else
    TransferService.transfer from_user to_user amount master_node
      replica_nodes "CP".

Definition execute_balance_query (user_id : string) (node master_node : ref)
    (context : string) : M World Result :=
  if bool_decide (context = "pre_transfer") then
    (* before a transfer: exactness is needed (CP) *)
    w ← get;
    if negb (Node.can_reach_master (heap w node) (heap w master_node)) then
      mret ({[ "success" := V (SBool false);
               "error" := V (SStr "Cannot verify balance");
               "strategy" := V (SStr "ADAPTIVE_CP") ]} : Result)
    else
      BalanceService.get_balance user_id node (Some master_node) "CP"
  else
    (* plain display: AP (cache / local replica) *)
    result ← BalanceService.get_balance user_id node (Some master_node) "AP";
    w ← get;
    if negb (Node.can_reach_master (heap w node) (heap w master_node)) then
      let result : Result :=
        <["warning" := V (SStr
           ("Données locales affichées. " +:+
            "Peuvent avoir quelques minutes de retard."))]> result in
      let result : Result := <["partition_mode" := V (SBool true)]> result in
      mret result
    else mret result.

Definition execute_history_query (user_id : string) (node master_node : ref)
    : M World Result :=
  (* read the local replica (AP) *)
  result ← HistoryService.get_history user_id node 50;
  w ← get;
  if negb (Node.can_reach_master (heap w node) (heap w master_node)) then
    let result : Result :=
      <["warning" := V (SStr
         "Mode dégradé: transactions récentes peuvent ne pas apparaître")]> result in
    let result : Result := <["partition_mode" := V (SBool true)]> result in
    mret result
  else mret result.

Definition execute_payment (user_id provider : string) (amount : Z)
    (node master_node : ref) (replica_nodes : list ref) : M World Result :=
  w ← get;
  if negb (Node.can_reach_master (heap w node) (heap w master_node)) then
    if bool_decide (amount < 5000)%Z then
      (* small amount: local queue (AP) *)
      now ← time_time;
      mret ({[ "success" := V (SBool true);
               "transaction_id" := V (SStr ("queue_" +:+ pretty (int_of_float now)));
               "status" := V (SStr "queued");
               "message" := V (SStr
                 ("Paiement de " +:+ pretty amount +:+ " FCFA mis en file d'attente"));
               "warning" := V (SStr "Traitement différé jusqu'à reconnexion réseau");
               "partition_mode" := V (SBool true);
               "strategy" := V (SStr "ADAPTIVE_AP_QUEUE") ]} : Result)
    else
      (* large amount: impossible without the master *)
      mret ({[ "success" := V (SBool false);
               "error" := V (SStr "Paiements gros montants temporairement indisponibles");
               "reason" := V (SStr "Problème de connexion réseau");
               "message" := V (SStr
                 ("Les paiements >=5000 FCFA nécessitent une connexion sécurisée." +:+ "
" +:+ "Vous pouvez effectuer des paiements plus petits en attendant."));
               "strategy" := V (SStr "ADAPTIVE") ]} : Result)
  else
    (* adaptive strategy, the master being available *)
    PaymentService.pay_bill user_id provider amount master_node
      replica_nodes "ADAPTIVE".
End AdaptiveStrategy.

(** ** simulation/partition_simulator.py *)

Module PartitionSimulator.

(** [self.nodes[node_id]] *)
Definition nodes_getitem (node_id : string) : M World ref :=
  w ← get;
  match nodes (partition w) !! node_id with
  | Some r => mret r
  | None => raise (KeyError node_id)
  end.

(** [node.can_reach[peer] = v] *)
Definition can_reach_setitem (node : ref) (peer : string) (v : bool)
    : M World unit :=
  on_node node (modify (λ n,
    Node.set_can_reach (<[peer := v]> (Node.can_reach n)) n)).

Definition new (nodes : list ref) : M World unit :=
  modify (λ w,
    set_partition
      (mkPartitionSimulator
         (list_to_map (reverse ((λ r, (Node.id (heap w r), r)) <$> nodes)))
         false None) w).

Definition create_partition (node1_id node2_id : string) : M World unit :=
  (* change the network *)
  on_network (NetworkSimulator.simulate_partition node1_id node2_id);;
  (* update the states of the nodes *)
  node1 ← nodes_getitem node1_id;
  node2 ← nodes_getitem node2_id;
  can_reach_setitem node1 node2_id false;;
  can_reach_setitem node2 node1_id false;;
  on_node node1 (modify (Node.set_state ISOLATED));;
  on_node node2 (modify (Node.set_state ISOLATED));;
  now ← time_time;
  modify (λ w,
    set_partition (mkPartitionSimulator (nodes (partition w)) true (Some now)) w).

(** Synchronise the data after a partition: simulated by a delay. *)
Definition _synchronize_nodes (node1 node2 : ref) : M World unit :=
  time_sleep (1 # 2).

Definition heal_partition (node1_id node2_id : string) : M World unit :=
  (* restore the network *)
  on_network (NetworkSimulator.heal_partition node1_id node2_id);;
  (* update the states *)
  node1 ← nodes_getitem node1_id;
  node2 ← nodes_getitem node2_id;
  can_reach_setitem node1 node2_id true;;
  can_reach_setitem node2 node1_id true;;
  on_node node1 (modify (Node.set_state HEALTHY));;
  on_node node2 (modify (Node.set_state HEALTHY));;
  modify (λ w,
    set_partition
      (mkPartitionSimulator (nodes (partition w)) false
         (partition_start_time (partition w))) w);;
  start ← gets (λ w, partition_start_time (partition w));
  match start with
  | Some t => if Qeq_bool t 0 then mret 0%Q
              else now ← time_time; mret (now - t)%Q
  | None => mret 0%Q
  end;;
  (* simulate the synchronisation *)
  _synchronize_nodes node1 node2.
End PartitionSimulator.

(** ** simulation/network_simulator.py: the statistics of the log

    [NetworkSimulator.get_statistics]; it is stated here, after the result
    dictionaries it returns. *)

(** [sum(l)] on floats adds from the left, starting from 0, and every
    addition rounds: [float_add] is that rounded addition. *)
Definition py_sum (float_add : Q → Q → Q) (l : list Q) : Q :=
  foldl float_add 0%Q l.

(** [max(l)] and [min(l)] on floats only compare; they keep the first of
    several equal extrema. *)
Definition py_max (x : Q) (l : list Q) : Q :=
  foldl (λ m y, if Qltb m y then y else m) x l.
Definition py_min (x : Q) (l : list Q) : Q :=
  foldl (λ m y, if Qltb y m then y else m) x l.

Module NetworkSimulatorStatistics.
Import NetworkSimulator.

Section floats.
(** The addition and the division of binary64 floats, rounding included. *)
Variables float_add float_div : Q → Q → Q.

Definition get_statistics : M Net Result :=
  log ← gets (λ s, communication_log (self s));
  match log with
  | [] => mret (∅ : Result)
  | _ :: _ =>
      let total := length log in
      let successful := length (filter (λ e, log_success e = true) log) in
      let failed := (Z.of_nat total - Z.of_nat successful)%Z in
      let latencies :=
        log_latency_ms <$> filter (λ e, log_success e = true) log in
      let avg_latency : scalar :=
        match latencies with
        | [] => SInt 0
        | _ :: _ =>
            SFloat (float_div (py_sum float_add latencies)
                      (inject_Z (Z.of_nat (length latencies))))
        end in
      let max_latency : scalar :=
        match latencies with [] => SInt 0 | x :: l => SFloat (py_max x l) end in
      let min_latency : scalar :=
        match latencies with [] => SInt 0 | x :: l => SFloat (py_min x l) end in
      mret ({[ "total_messages" := V (SInt (Z.of_nat total));
               "successful" := V (SInt (Z.of_nat successful));
               "failed" := V (SInt failed);
               "success_rate" :=
                 V (if bool_decide (0 < total)%nat
                    then SFloat (percent successful total) else SInt 0);
               "avg_latency_ms" := V avg_latency;
               "min_latency_ms" := V min_latency;
               "max_latency_ms" := V max_latency ]} : Result)
  end.
End floats.
End NetworkSimulatorStatistics.

(** ** analysis/metrics_collector.py *)

(** [sub in s] on strings. *)
Fixpoint py_in (sub s : string) : bool :=
  String.prefix sub s ||
  match s with
  | EmptyString => false
  | String _ s' => py_in sub s'
  end.

(** The truth value of what a result dictionary holds. *)
Definition truthy (v : value) : bool :=
  match v with
  | V SNone => false
  | V (SBool b) => b
  | V (SInt z) => negb (z =? 0)%Z
  | V (SFloat q) => negb (Qeq_bool q 0)
  | V (SStr s) => negb (String.eqb s "")
  | VStrList l => match l with [] => false | _ => true end
  | VTxList l => match l with [] => false | _ => true end
  end.

(** [r.get('success')], as a truth value. *)
Definition succeeded (r : Result) : bool :=
  from_option truthy false (r !! "success").

Module MetricsCollector.
Record t := mk {
  strategy_name : string;
  metrics : gmap string (gmap string (list Result))
}.

Definition new (strategy_name : string) : t :=
  let phases : gmap string (list Result) :=
    {[ "before" := []; "during" := []; "after" := [] ]} in
  mk strategy_name
     {[ "transfer" := phases; "balance" := phases;
        "history" := phases; "payment" := phases ]}.

Definition _normalize_phase (phase : string) : string :=
  if py_in "before" phase then "before"
  else if py_in "during" phase then "during"
  else if py_in "after" phase then "after"
  else "before".

(** [self.metrics[operation][phase]] *)
Definition metrics_getitem (operation phase : string) : M t (list Result) :=
  self ← get;
  match metrics self !! operation with
  | None => raise (KeyError operation)
  | Some phases =>
      match phases !! phase with
      | None => raise (KeyError phase)
      | Some results => mret results
      end
  end.

(** [self.metrics[operation][self._normalize_phase(phase)].append(result)],
    the body shared by the four [record_*] methods. *)
Definition record (operation : string) (result : Result) (phase : string)
    : M t unit :=
  let phase := _normalize_phase phase in
  results ← metrics_getitem operation phase;
  modify (λ self,
    mk (strategy_name self)
       (<[operation :=
            <[phase := (results ++ [result])%list]>
              (default ∅ (metrics self !! operation))]> (metrics self))).

Definition record_transfer := record "transfer".
Definition record_balance_query := record "balance".
Definition record_history_query := record "history".
Definition record_payment := record "payment".

Definition get_availability (operation phase : string) : M t Q :=
  results ← metrics_getitem operation phase;
  match results with
  | [] => mret 0%Q
  | _ :: _ =>
      let success := length (filter (λ r, succeeded r = true) results) in
      mret (percent success (length results))
  end.
End MetricsCollector.

(** ** config/network_config.py: the load profile *)

Module LoadProfile.
(** Transactions per second, by hour. *)
Definition HOURLY_LOAD : gmap Z Z :=
  list_to_map
    [ (0, 10); (1, 8); (2, 5); (3, 5); (4, 5); (5, 8); (6, 50); (7, 200);
      (8, 500); (9, 800); (10, 600); (11, 700); (12, 900); (13, 800);
      (14, 600); (15, 700); (16, 800); (17, 1000); (18, 5000); (19, 4000);
      (20, 2000); (21, 800); (22, 400); (23, 100) ]%Z.

(** Network latency in milliseconds, by hour. *)
Definition HOURLY_LATENCY : gmap Z Z :=
  list_to_map
    [ (0, 20); (2, 15); (8, 50); (12, 100); (18, 800); (20, 200); (23, 30) ]%Z.

Definition get_load (hour : Z) : Z := default 100%Z (HOURLY_LOAD !! hour).
Definition get_latency (hour : Z) : Z := default 50%Z (HOURLY_LATENCY !! hour).
End LoadProfile.

(** ** simulation/daily_load_simulator.py *)

(** A number found in a result dictionary ([bool] is a subtype of [int]). *)
Definition num_of (v : value) : option Q :=
  match v with
  | V (SInt z) => Some (inject_Z z)
  | V (SFloat q) => Some q
  | V (SBool b) => Some (if b then 1 else 0)%Q
  | _ => None
  end.

(** The dictionary [hour_results] of [simulate_24h]. *)
Record HourResult := mkHourResult {
  hr_hour : nat;
  hr_expected_load : Z;
  hr_network_latency : Z;
  hr_transactions : list Result;
  hr_success_count : nat;
  hr_failure_count : nat;
  hr_total_latency : Q;
  hr_success_rate : scalar;
  hr_avg_latency : scalar
}.

Module DailyLoadSimulator.
(** Both are called with an hour by [simulate_24h] and [get_cap_position];
    without one they would ask the system for the current hour. *)
Definition get_current_load (hour : Z) : Z := LoadProfile.get_load hour.
Definition get_current_latency (hour : Z) : Z := LoadProfile.get_latency hour.

Section simulate.
Context {S : Type} (transaction_executor : nat → nat → M S Result).

(** The [for i in range(transactions_per_sample)] loop on the counters of
    [hour_results]. *)
Fixpoint sample_loop (hour : nat) (indices : list nat) (hour_results : HourResult)
    : M S HourResult :=
  match indices with
  | [] => mret hour_results
  | i :: rest =>
      result ← transaction_executor hour i;
      let hr := hour_results in
      let transactions := (hr_transactions hr ++ [result])%list in
      if succeeded result then
        match num_of (default (V (SInt 0)) (result !! "latency_ms")) with
        | Some latency =>
            sample_loop hour rest
              (mkHourResult (hr_hour hr) (hr_expected_load hr)
                 (hr_network_latency hr) transactions
                 (Datatypes.S (hr_success_count hr)) (hr_failure_count hr)
                 (hr_total_latency hr + latency) (hr_success_rate hr)
                 (hr_avg_latency hr))
        | None => raise (TypeError "unsupported operand type(s) for +=")
        end
      else
        sample_loop hour rest
          (mkHourResult (hr_hour hr) (hr_expected_load hr)
             (hr_network_latency hr) transactions
             (hr_success_count hr) (Datatypes.S (hr_failure_count hr))
             (hr_total_latency hr) (hr_success_rate hr) (hr_avg_latency hr))
  end.

(** One turn of the [for hour in range(24)] loop. *)
Definition simulate_hour (transactions_per_sample : nat) (hour : nat)
    : M S HourResult :=
  let load := get_current_load (Z.of_nat hour) in
  let latency := get_current_latency (Z.of_nat hour) in
  hr ← sample_loop hour (seq 0 transactions_per_sample)
          (mkHourResult hour load latency [] 0 0 0 (SInt 0) (SInt 0));
  (* the metrics of the hour *)
  let total := (hr_success_count hr + hr_failure_count hr)%nat in
  let success_rate :=
    if bool_decide (0 < total)%nat
    then SFloat (percent (hr_success_count hr) total) else SInt 0 in
  let avg_latency :=
    if bool_decide (0 < hr_success_count hr)%nat
    then SFloat (hr_total_latency hr
                 / inject_Z (Z.of_nat (hr_success_count hr)))
    else SInt 0 in
  mret (mkHourResult (hr_hour hr) (hr_expected_load hr) (hr_network_latency hr)
          (hr_transactions hr) (hr_success_count hr) (hr_failure_count hr)
          (hr_total_latency hr) success_rate avg_latency).

Fixpoint hours_loop (transactions_per_sample : nat) (hours : list nat)
    (hourly_metrics : list HourResult) : M S (list HourResult) :=
  match hours with
  | [] => mret hourly_metrics
  | hour :: rest =>
      hour_results ← simulate_hour transactions_per_sample hour;
      hours_loop transactions_per_sample rest
        (hourly_metrics ++ [hour_results])%list
  end.

Definition simulate_24h (transactions_per_sample : nat)
    : M S (list HourResult) :=
  hours_loop transactions_per_sample (seq 0 24) [].
End simulate.

Definition get_cap_position (hour : Z) : string :=
  let load := get_current_load hour in
  let latency := get_current_latency hour in
  if bool_decide (2 ≤ hour ≤ 5)%Z then "CA"
  else if bool_decide (17 ≤ hour ≤ 19)%Z then "AP"
  else "CP".
End DailyLoadSimulator.

(** * Vocabulary of the properties *)

(** ** Runs

    The three components of the run of a computation, a field of a returned
    result dictionary, and whether [send_message] handed back a response. *)

Definition outcome {S A} (r : Outcome A * Oracle * S) : Outcome A := r.1.1.
Definition oracle_after {S A} (r : Outcome A * Oracle * S) : Oracle := r.1.2.
Definition state_after {S A} (r : Outcome A * Oracle * S) : S := r.2.

Definition field (k : string) (r : Outcome Result) : option value :=
  match r with Returned d => d !! k | Raised _ => None end.

Definition delivered {P} (r : Outcome (option (Response P))) : bool :=
  match r with Returned (Some _) => true | _ => false end.

(** ** Frame relations *)

(** [preserves R m]: whatever [m] does (return or raise), the state it
    leaves is related by [R] to the state it started from. *)
Definition preserves {S A} (R : relation S) (m : M S A) : Prop :=
  ∀ o s, R s (m o s).2.

(** The balance map of a node is the same after as before. *)
Definition accounts_kept : relation Node.t :=
  λ n n', Node.accounts n' = Node.accounts n.

(** No balance map of any node has changed. *)
Definition balances_kept : relation World :=
  λ w w', ∀ r, Node.accounts (heap w' r) = Node.accounts (heap w r).

Definition frame_balances_kept : relation Frame :=
  λ f f', balances_kept (world f) (world f').

(** The balance map of one given node is the same after as before. *)
Definition node_accounts_kept (node : ref) : relation Frame :=
  λ f f', Node.accounts (heap (world f') node) = Node.accounts (heap (world f) node).

(** The parties and the amount of the transaction being processed are the
    same after as before. *)
Definition parties_kept : relation Frame :=
  λ f f',
    Transaction.from_user (the_transaction f')
      = Transaction.from_user (the_transaction f) ∧
    Transaction.to_user (the_transaction f')
      = Transaction.to_user (the_transaction f) ∧
    Transaction.amount (the_transaction f')
      = Transaction.amount (the_transaction f).

(** No node has changed its identifier. *)
Definition id_kept : relation Node.t := λ n n', Node.id n' = Node.id n.

Definition ids_kept : relation Frame :=
  λ f f', ∀ r, Node.id (heap (world f') r) = Node.id (heap (world f) r).

(** The identifiers of a list of participants. *)
Definition participant_ids (f : Frame) (participants : list ref) : list string :=
  (λ r, Node.id (heap (world f) r)) <$> participants.

(** ** Points of the services *)

(** The environment and the frame in which [TransferService.transfer]
    enters its [try] block: one uuid and two readings of the clock have been
    consumed (for [Transaction.created_at] and [start_time]). *)
Definition transfer_entry (from_user to_user : string) (amount : Z)
    (o : Oracle) (w : World) : Oracle * Frame :=
  (mkOracle (λ n, clock o (2 + n)) (random o) (λ n, uuid4 o (S n)) (hash o),
   mkFrame w (Transaction.mk ("TX_" +:+ uuid4 o 0) TRANSFER from_user to_user
                amount "XOF" PENDING (clock o 0) None None ∅)).

(** The environment and the frame in which [PaymentService.pay_bill]
    enters its [try] block. *)
Definition pay_bill_entry (user_id provider : string) (amount : Z)
    (o : Oracle) (w : World) : Oracle * Frame :=
  (mkOracle (λ n, clock o (2 + n)) (random o) (λ n, uuid4 o (S n)) (hash o),
   mkFrame
     (set_payment
        (mkPaymentService (S (payment_count (payment w)))
           (success_count (payment w)) (failed_count (payment w))) w)
     (Transaction.mk ("PAY_" +:+ uuid4 o 0) PAYMENT user_id provider amount
        "XOF" PENDING (clock o 0) None None {[ "provider" := SStr provider ]})).

(** The first thing [_prepare_vote] does: the delivery of the PREPARE
    message from the master to [node]. *)
Definition prepare_delivery (master_node node : ref) (o : Oracle) (f : Frame)
    : Outcome (option (Response (gmap string scalar))) * Oracle * Frame :=
  in_world (on_network
    (NetworkSimulator.send_message
       (Node.id (heap (world f) master_node)) (Node.id (heap (world f) node))
       "prepare"
       ({[ "transaction_id" :=
             SStr (Transaction.transaction_id (the_transaction f)) ]}
        : gmap string scalar))) o f.

(** Whether a participant votes NO in the loop of the prepare phase: the
    loop reaches the turn of some participant, no earlier turn having timed
    out or raised, and that turn files a NO. *)
Fixpoint casts_no (timeout start_time : Q) (master_node : ref)
    (participants : list ref) (o : Oracle) (f : Frame) : bool :=
  match participants with
  | [] => false
  | node :: rest =>
      match time_time o f with
      | (Returned now, o1, f1) =>
          if Qltb timeout (now - start_time) then false
          else
            match TransferService._prepare_vote master_node node o1 f1 with
            | (Returned (_, vote), o2, f2) =>
                bool_decide (vote = NO)
                || casts_no timeout start_time master_node rest o2 f2
            | (Raised _, _, _) => false
            end
      | (Raised _, _, _) => false
      end
  end.

(** The same for the prepare phase as a whole, whose participants are the
    master followed by the replicas. *)
Definition a_participant_votes_no (master_node : ref)
    (replica_nodes : list ref) (o : Oracle) (f : Frame) : bool :=
  match time_time o f with
  | (Returned start_time, o1, f1) =>
      casts_no (NetworkConfig.TIMEOUTS_transfer / 1000) start_time master_node
        (master_node :: replica_nodes) o1 f1
  | (Raised _, _, _) => false
  end.

(** What [node.is_healthy()] answers when the clock reads [now]. *)
Definition healthy_at (now : Q) (n : Node.t) : bool :=
  negb (Qltb 3 (now - Node.last_heartbeat n))
  && bool_decide (Node.state n = HEALTHY).

(** The world after [create_partition(a, b)] followed by
    [heal_partition(a, b)]. *)
Definition partition_then_heal (a b : string) (o : Oracle) (w : World) : World :=
  state_after
    ((PartitionSimulator.create_partition a b;;
      PartitionSimulator.heal_partition a b) o w).

(** What [_get_latency] answers in a world. *)
Definition latency_between (from_node to_node : string) (o : Oracle)
    (w : World) : Outcome latency :=
  outcome (NetworkSimulator._get_latency from_node to_node o (net w)).

(** ** Sentences of the specification *)

(** A strict-CP denial: the call returns at once, with a failure whose
    reason is that the master cannot be reached, in the environment and the
    world it was started in. *)
Definition cp_denial (o : Oracle) (w : World)
    (r : Outcome Result * Oracle * World) : Prop :=
  ∃ res reason,
    r = (Returned res, o, w) ∧
    res !! "success" = Some (V (SBool false)) ∧
    res !! "error" = Some (V (SStr "Service temporarily unavailable")) ∧
    res !! "reason" = Some (V (SStr reason)) ∧
    String.prefix "Cannot reach master" reason = true.

(** The sentence on replicas in the prepare phase: a replica to which the
    PREPARE message was delivered votes YES. *)
Definition replica_always_votes_yes : Prop :=
  ∀ (master_node node : ref) (o : Oracle) (f : Frame),
    Node.is_master (heap (world f) node) = false →
    delivered (outcome (prepare_delivery master_node node o f)) = true →
    outcome (TransferService._prepare_vote master_node node o f)
      = Returned (Node.id (heap (world f) node), YES).

(** The sentence on atomicity, for any participants: when the pre-checks
    of a transfer pass and a participant votes NO during the prepare phase,
    no balance of any node changes. *)
Definition no_vote_freezes_balances : Prop :=
  ∀ (from_user to_user : string) (amount : Z) (master_node : ref)
    (replica_nodes : list ref) (strategy : string) (o : Oracle) (w : World),
    let entry := transfer_entry from_user to_user amount o w in
    let checks := TransferService._pre_checks master_node entry.1 entry.2 in
    outcome checks = Returned true →
    a_participant_votes_no master_node replica_nodes
      (oracle_after checks) (state_after checks) = true →
    balances_kept w
      (state_after (TransferService.transfer from_user to_user amount
                      master_node replica_nodes strategy o w)).

(** ** A concrete deployment

    The three nodes of [initialize_nodes] with two seeded accounts, the
    services wired to one network simulator, and four environments: a
    quiet one, in which no packet is lost and the provider answers, a lossy
    one, in which every packet is lost and the provider fails, a flaky one,
    in which the first packet alone is lost, and a late one, which is the
    quiet one a hundred seconds later. *)

Module Demo.
Definition seed_accounts : gmap string Z :=
  {[ "user_001" := 10000%Z; "user_002" := 5000%Z ]}.

Definition all_reachable : gmap string bool :=
  {[ "DAKAR" := true; "SAINT_LOUIS" := true; "ZIGUINCHOR" := true ]}.

Definition node (node_id name : string) (role : NodeRole) : Node.t :=
  Node.mk node_id name role HEALTHY seed_accounts [] ∅ 0 0 all_reachable.

Definition dakar : ref := 0%nat.
Definition saint_louis : ref := 1%nat.
Definition ziguinchor : ref := 2%nat.

Definition heap0 (r : ref) : Node.t :=
  match r with
  | 0%nat => node "DAKAR" "Dakar" MASTER
  | 1%nat => node "SAINT_LOUIS" "Saint-Louis" REPLICA_RW
  | _ => node "ZIGUINCHOR" "Ziguinchor" REPLICA_ANALYTICS
  end.

Definition net0 (mode : Mode) : NetworkSimulator.Net :=
  NetworkSimulator.mkNet NetworkConfig.LATENCIES (NetworkSimulator.new mode).

Definition world_in (mode : Mode) : World :=
  mkWorld heap0 (net0 mode)
    (mkTransferService ∅ ∅ ∅) (mkBalanceService 0 0 0) (mkHistoryService 0)
    (mkPaymentService 0 0 0)
    (mkPartitionSimulator
       {[ "DAKAR" := dakar; "SAINT_LOUIS" := saint_louis;
          "ZIGUINCHOR" := ziguinchor ]} false None).

(** The deployment of the simulation driver: the network in normal mode. *)
Definition world0 : World := world_in normal.

(** One millisecond between two readings of the clock. *)
Definition tick (n : nat) : Q := inject_Z (Z.of_nat n) / 1000.

Definition quiet : Oracle :=
  mkOracle tick (λ _, 1 # 2) (λ _, "0a1b2c3d") (λ _, 0%Z).

Definition lossy : Oracle :=
  mkOracle tick (λ _, 0) (λ _, "0a1b2c3d") (λ _, 0%Z).

Definition flaky : Oracle :=
  mkOracle tick (λ n, match n with O => 0 | _ => 1 # 2 end)
    (λ _, "0a1b2c3d") (λ _, 0%Z).

Definition late : Oracle :=
  mkOracle (λ n, 100 + tick n)%Q (λ _, 1 # 2) (λ _, "0a1b2c3d") (λ _, 0%Z).

(** The world after a partition between Dakar and Ziguinchor. *)
Definition partitioned_world : World :=
  state_after
    (PartitionSimulator.create_partition "DAKAR" "ZIGUINCHOR" quiet world0).

(** A transfer of 2000 from user_001 to user_002 being processed while
    Dakar and Ziguinchor are partitioned. *)
Definition partitioned_frame : Frame :=
  mkFrame partitioned_world
    (Transaction.mk "TX_0a1b2c3d" TRANSFER "user_001" "user_002" 2000 "XOF"
       PENDING 0 None None ∅).

(** The same transfer with every node reachable and healthy. *)
Definition healthy_frame : Frame :=
  mkFrame world0 (the_transaction partitioned_frame).

(** Saint-Louis holds a cached balance of 9000 for user_001 that expired at
    instant 10, while its balance map says 10000. *)
Definition stale_world : World :=
  set_heap
    (<[saint_louis :=
         Node.set_cache
           {[ "balance:user_001" := (CachedBalance 9000, 10%Q) ]}
           (heap0 saint_louis)]> heap0)
    world0.

(** Saint-Louis lags behind: it holds a balance of 0 for user_002, for
    whom the master holds 5000. *)
Definition lagging_world : World :=
  set_heap
    (<[saint_louis :=
         Node.set_accounts
           {[ "user_001" := 10000%Z; "user_002" := 0%Z ]}
           (heap0 saint_louis)]> heap0)
    world0.
End Demo.

(** ** Vocabulary of the further properties *)

(** The filter of [Node.get_transactions]: the entries a user takes part
    in. *)
Definition involves (user_id : string) (tx : TxDict) : Prop :=
  d_from_user tx = Some user_id ∨ d_to_user tx = Some user_id.

#[export] Instance involves_dec user_id tx : Decision (involves user_id tx).
Proof. unfold involves. apply _. Defined.

(** The draw of [random.random()] that [send_message] compares with the
    packet-loss rate: the first one when a node writes to itself, the second
    one otherwise, the first one having gone into the jitter. *)
Definition loss_draw (from_node to_node : string) (o : Oracle) : Q :=
  random o (if bool_decide (from_node = to_node) then 0 else 1)%nat.

(** An environment in which the network of a world loses no packet. *)
Definition never_lost (o : Oracle) (w : World) : Prop :=
  ∀ k, Qltb (random o k * 100)
         (NetworkSimulator.packet_loss (NetworkSimulator.self (net w))) = false.

(** The books of the transfer and payment services and the identifier of
    the transaction being processed are the same after as before. *)
Definition books_kept : relation Frame :=
  λ f f',
    transfer (world f') = transfer (world f) ∧
    payment (world f') = payment (world f) ∧
    Transaction.transaction_id (the_transaction f')
      = Transaction.transaction_id (the_transaction f).

(** No node has changed its state. *)
Definition state_kept : relation Node.t := λ n n', Node.state n' = Node.state n.

Definition states_kept : relation Frame :=
  λ f f', ∀ r, Node.state (heap (world f') r) = Node.state (heap (world f) r).

(** A transfer has been filed: its result carries the identifier, and the
    record, completed, is in the ledger that matches the result, the other
    ledgers being untouched. *)
Definition filed (tx_id : string) (before : TransferServiceState)
    (res : Result) (after : TransferServiceState) : Prop :=
  ∃ tx,
    res !! "transaction_id" = Some (V (SStr tx_id)) ∧
    Transaction.transaction_id tx = tx_id ∧
    is_Some (Transaction.completed_at tx) ∧
    pending_transactions after = pending_transactions before ∧
    ((res !! "success" = Some (V (SBool true)) ∧
      Transaction.status tx = COMMITTED ∧
      committed_transactions after
        = <[tx_id := tx]> (committed_transactions before) ∧
      aborted_transactions after = aborted_transactions before)
     ∨
     (res !! "success" = Some (V (SBool false)) ∧
      Transaction.status tx = ABORTED ∧
      (∃ reason, res !! "error" = Some (V (SStr reason)) ∧
                 Transaction.error_message tx = Some reason) ∧
      aborted_transactions after
        = <[tx_id := tx]> (aborted_transactions before) ∧
      committed_transactions after = committed_transactions before)).

(** A payment has been settled: it went into exactly one of the two
    counters, the one that matches its result and the status of its
    record. *)
Definition settled (before : PaymentServiceState) (res : Result)
    (tx : Transaction.t) (after : PaymentServiceState) : Prop :=
  (res !! "success" = Some (V (SBool true)) ∧
   Transaction.status tx = COMMITTED ∧
   success_count after = S (success_count before) ∧
   failed_count after = failed_count before)
  ∨
  (res !! "success" = Some (V (SBool false)) ∧
   Transaction.status tx = FAILED ∧
   (∃ reason, res !! "error" = Some (V (SStr reason)) ∧
              Transaction.error_message tx = Some reason) ∧
   failed_count after = S (failed_count before) ∧
   success_count after = success_count before).

(** The same inside [pay_bill], where the payment has been counted
    already. *)
Definition counted (before : PaymentServiceState) (res : Result)
    (tx : Transaction.t) (after : PaymentServiceState) : Prop :=
  payment_count after = payment_count before ∧ settled before res tx after.

Definition counted_or_raised (f : Frame)
    (r : Outcome Result * Oracle * Frame) : Prop :=
  match r with
  | (Returned res, _, f') =>
      counted (payment (world f)) res (the_transaction f') (payment (world f'))
  | (Raised _, _, f') => payment (world f') = payment (world f)
  end.

(** The counters of the services add up. *)
Definition payment_books_ok (s : PaymentServiceState) : Prop :=
  (success_count s + failed_count s = payment_count s)%nat.

Definition balance_books_ok (s : BalanceServiceState) : Prop :=
  (cache_hits s + cache_misses s ≤ query_count s)%nat.

(** The tables of a collector all exist, as [__init__] builds them. *)
Definition tables_exist (c : MetricsCollector.t) : Prop :=
  ∀ operation phase,
    operation ∈ ["transfer"; "balance"; "history"; "payment"] →
    phase ∈ ["before"; "during"; "after"] →
    ∃ phases results,
      MetricsCollector.metrics c !! operation = Some phases ∧
      phases !! phase = Some results.

(** An executor that returns a result, with a numeric latency when it
    reports a success. *)
Definition answers {S} (transaction_executor : nat → nat → M S Result) : Prop :=
  ∀ hour i o s,
    ∃ res o' s',
      transaction_executor hour i o s = (Returned res, o', s') ∧
      (succeeded res = true →
       is_Some (num_of (default (V (SInt 0)) (res !! "latency_ms")))).

(** What [simulate_24h] reports for an hour. *)
Definition hour_report_ok (transactions_per_sample hour : nat)
    (hr : HourResult) : Prop :=
  hr_hour hr = hour ∧
  hr_expected_load hr = LoadProfile.get_load (Z.of_nat hour) ∧
  hr_network_latency hr = LoadProfile.get_latency (Z.of_nat hour) ∧
  length (hr_transactions hr) = transactions_per_sample ∧
  hr_success_count hr
    = length (filter (λ r, succeeded r = true) (hr_transactions hr)) ∧
  (hr_success_count hr + hr_failure_count hr = transactions_per_sample)%nat ∧
  match hr_success_rate hr with
  | SFloat rate => (0 < transactions_per_sample)%nat ∧
                   (0 <= rate)%Q ∧ (rate <= 100)%Q
  | SInt z => z = 0%Z ∧ transactions_per_sample = 0%nat
  | _ => False
  end.

(** ** Further situations of the deployment *)

Module Scenario.
(** Saint-Louis has not received the account of user_001 yet. *)
Definition sparse_world : World :=
  set_heap
    (<[Demo.saint_louis :=
         Node.set_accounts {[ "user_002" := 5000%Z ]}
           (Demo.heap0 Demo.saint_louis)]> Demo.heap0)
    Demo.world0.

(** A settled transfer of 500 from user_001 to user_002. *)
Definition settled_transfer : TxDict :=
  mkTxDict "TX_5eed0001" TRANSFER (Some "user_001") (Some "user_002") 500
    "XOF" COMMITTED 0 (Some 0%Q) None ∅ (Some "SAINT_LOUIS") (Some 0%Q).

(** A later one of 700, not yet stored anywhere. *)
Definition fresh_transfer : TxDict :=
  mkTxDict "TX_5eed0002" TRANSFER (Some "user_001") (Some "user_002") 700
    "XOF" COMMITTED 0 (Some 0%Q) None ∅ None None.

(** Saint-Louis holds the settled transfer in its history. *)
Definition busy_world : World :=
  set_heap
    (<[Demo.saint_louis :=
         Node.set_transactions [settled_transfer]
           (Demo.heap0 Demo.saint_louis)]> Demo.heap0)
    Demo.world0.

(** Ten seconds pass between two readings of the clock. *)
Definition slow : Oracle :=
  mkOracle (λ n, inject_Z (10 * Z.of_nat n)) (λ _, 1 # 2) (λ _, "0a1b2c3d")
    (λ _, 0%Z).

(** The quiet environment with a clock that runs faster and faster, and in
    which the second draw loses a packet. *)
Definition uneven : Oracle :=
  mkOracle (λ n, inject_Z (Z.of_nat (n * n)) / 1000)
    (λ n, match n with 1%nat => 0 | _ => 1 # 2 end)
    (λ _, "0a1b2c3d") (λ _, 0%Z).

(** The network of the deployment after three messages from Dakar to
    Saint-Louis: the first one was lost, the other two took 5 and 11
    milliseconds. *)
Definition worn_net : NetworkSimulator.Net :=
  state_after
    ((NetworkSimulator.send_message "DAKAR" "SAINT_LOUIS" "heartbeat" tt;;
      NetworkSimulator.send_message "DAKAR" "SAINT_LOUIS" "heartbeat" tt;;
      NetworkSimulator.send_message "DAKAR" "SAINT_LOUIS" "heartbeat" tt)
       uneven (Demo.net0 normal)).

(** An executor whose every transaction succeeds in five milliseconds. *)
Definition steady (hour i : nat) : M unit Result :=
  mret ({[ "success" := V (SBool true); "latency_ms" := V (SFloat 5) ]} : Result).
End Scenario.

(** * Reasoning about computations *)

(** ** Frame relations *)

Create HintDb frame discriminated.

Section preserves.
Context {S : Type} (R : relation S) `{!PreOrder R}.

Lemma preserves_mret {A} (a : A) : preserves R (mret a).
Proof. intros o s. reflexivity. Qed.

Lemma preserves_bind {A B} (m : M S A) (f : A → M S B) :
  preserves R m → (∀ a, preserves R (f a)) → preserves R (m ≫= f).
Proof.
  intros Hm Hf o s. unfold mbind, M_bind.
  specialize (Hm o s). destruct (m o s) as [[[a|e] o1] s1]; simpl in *.
  - etrans; [exact Hm | apply Hf].
  - exact Hm.
Qed.

Lemma preserves_get : preserves R get.
Proof. intros o s. reflexivity. Qed.

Lemma preserves_gets {A} (f : S → A) : preserves R (gets f).
Proof. intros o s. reflexivity. Qed.

Lemma preserves_raise {A} (e : exn) : preserves R (raise (A:=A) e).
Proof. intros o s. reflexivity. Qed.

Lemma preserves_modify (f : S → S) :
  (∀ s, R s (f s)) → preserves R (modify f).
Proof. intros Hf o s. apply Hf. Qed.

Lemma preserves_try_except {A} (body : M S A) (handler : exn → M S A) :
  preserves R body → (∀ e, preserves R (handler e)) →
  preserves R (try_except body handler).
Proof.
  intros Hb Hh o s. unfold try_except.
  specialize (Hb o s). destruct (body o s) as [[[a|e] o1] s1]; simpl in *.
  - exact Hb.
  - etrans; [exact Hb | apply Hh].
Qed.

Lemma preserves_time_time : preserves R time_time.
Proof. intros o s. reflexivity. Qed.

Lemma preserves_random_random : preserves R random_random.
Proof. intros o s. reflexivity. Qed.

Lemma preserves_random_uniform a b : preserves R (random_uniform a b).
Proof.
  apply preserves_bind; [apply preserves_random_random|].
  intros r. apply preserves_mret.
Qed.

Lemma preserves_uuid4_hex8 : preserves R uuid4_hex8.
Proof. intros o s. reflexivity. Qed.

Lemma preserves_py_hash x : preserves R (py_hash x).
Proof. intros o s. reflexivity. Qed.

Lemma preserves_time_sleep q : preserves R (time_sleep q).
Proof. intros o s. reflexivity. Qed.

Lemma preserves_py_sub x y : preserves R (py_sub x y).
Proof. destruct x; [apply preserves_mret | apply preserves_raise]. Qed.

Lemma preserves_py_add x y : preserves R (py_add x y).
Proof. destruct x; [apply preserves_mret | apply preserves_raise]. Qed.

Lemma preserves_py_ge x y : preserves R (py_ge x y).
Proof. destruct x; [apply preserves_mret | apply preserves_raise]. Qed.
End preserves.

Lemma preserves_zoom {S T A} (RS : relation S) (RT : relation T)
    (proj : T → S) (inj : S → T → T) (m : M S A) :
  preserves RS m →
  (∀ t s', RS (proj t) s' → RT t (inj s' t)) →
  preserves RT (zoom proj inj m).
Proof.
  intros Hm Hlift o t. unfold zoom.
  specialize (Hm o (proj t)). destruct (m o (proj t)) as [[r o1] s1].
  simpl in *. by apply Hlift.
Qed.

#[export] Hint Resolve preserves_mret preserves_get preserves_gets
  preserves_raise preserves_time_time preserves_random_random
  preserves_random_uniform preserves_uuid4_hex8 preserves_py_hash
  preserves_time_sleep preserves_py_sub preserves_py_add preserves_py_ge
  : frame.

#[export] Hint Extern 1 (PreOrder _) => typeclasses eauto : frame.

(** Break a computation down along its binds and case distinctions, and
    close the leaves from the hint base. *)
Ltac frame_step :=
  lazymatch goal with
  | |- preserves _ (_ ≫= _) =>
      apply preserves_bind; [typeclasses eauto | | intros ?]
  | |- preserves _ (try_except _ _) =>
      apply preserves_try_except; [typeclasses eauto | | intros ?]
  | |- preserves _ (if ?b then _ else _) => destruct b
  | |- preserves _ (match ?x with _ => _ end) => destruct x
  | |- preserves _ (let _ := _ in _) => cbv zeta
  end.

Ltac frame := repeat frame_step; eauto with frame.

(** ** Balance-neutral computations *)

#[export] Instance accounts_kept_preorder : PreOrder accounts_kept.
Proof.
  split; [by intros n | intros n1 n2 n3 H12 H23].
  unfold accounts_kept in *. congruence.
Qed.

#[export] Instance balances_kept_preorder : PreOrder balances_kept.
Proof.
  split; [by intros w r | intros w1 w2 w3 H12 H23 r].
  by rewrite H23, H12.
Qed.

#[export] Instance frame_balances_kept_preorder : PreOrder frame_balances_kept.
Proof.
  split; [by intros f r | intros f1 f2 f3 H12 H23 r].
  unfold frame_balances_kept, balances_kept in *. by rewrite H23, H12.
Qed.

Lemma on_node_balances_kept {A} (node : ref) (m : M Node.t A) :
  preserves accounts_kept m → preserves balances_kept (on_node node m).
Proof.
  intros Hm. eapply preserves_zoom; [exact Hm|].
  intros w n' Hn r. simpl.
  destruct (decide (node = r)) as [->|Hne].
  - by rewrite fn_lookup_insert.
  - by rewrite fn_lookup_insert_ne.
Qed.

Lemma on_network_balances_kept {A} (m : M NetworkSimulator.Net A) :
  preserves balances_kept (on_network m).
Proof.
  intros o w. unfold on_network, zoom.
  destruct (m o (net w)) as [[r o1] s1]. by intros r'.
Qed.

Lemma in_world_balances_kept {A} (m : M World A) :
  preserves balances_kept m → preserves frame_balances_kept (in_world m).
Proof.
  intros Hm. eapply preserves_zoom; [exact Hm|]. by intros f w' Hw.
Qed.

Lemma on_transaction_balances_kept {A} (m : M Transaction.t A) :
  preserves frame_balances_kept (on_transaction m).
Proof.
  intros o f. unfold on_transaction, zoom.
  destruct (m o (the_transaction f)) as [[r o1] t1]. by intros r'.
Qed.

Lemma modify_services_balances_kept (g : World → World) :
  (∀ w, heap (g w) = heap w) → preserves balances_kept (modify g).
Proof. intros Hg o w r. simpl. by rewrite Hg. Qed.

Lemma is_healthy_accounts_kept : preserves accounts_kept Node.is_healthy.
Proof.
  unfold Node.is_healthy. frame.
  all: by apply preserves_modify.
Qed.

Lemma _get_from_cache_accounts_kept key :
  preserves accounts_kept (Node._get_from_cache key).
Proof.
  unfold Node._get_from_cache. frame.
  all: by apply preserves_modify.
Qed.

Lemma get_balance_accounts_kept user_id from_cache :
  preserves accounts_kept (Node.get_balance user_id from_cache).
Proof.
  unfold Node.get_balance. frame.
  all: first [by apply preserves_modify | apply _get_from_cache_accounts_kept].
Qed.

#[export] Hint Resolve on_node_balances_kept on_network_balances_kept
  in_world_balances_kept on_transaction_balances_kept
  is_healthy_accounts_kept get_balance_accounts_kept : frame.

Lemma _pre_checks_balances_kept master_node :
  preserves frame_balances_kept (TransferService._pre_checks master_node).
Proof. unfold TransferService._pre_checks. frame. Qed.

Lemma _can_node_prepare_balances_kept node :
  preserves frame_balances_kept (TransferService._can_node_prepare node).
Proof. unfold TransferService._can_node_prepare. frame. Qed.

#[export] Hint Resolve _can_node_prepare_balances_kept : frame.

Lemma _prepare_vote_balances_kept master_node node :
  preserves frame_balances_kept (TransferService._prepare_vote master_node node).
Proof. unfold TransferService._prepare_vote. frame. Qed.

#[export] Hint Resolve _prepare_vote_balances_kept : frame.

Lemma _prepare_loop_balances_kept timeout start_time master_node participants votes :
  preserves frame_balances_kept
    (TransferService._prepare_loop timeout start_time master_node participants votes).
Proof.
  revert votes. induction participants as [|node rest IH]; intros votes; simpl.
  - frame.
  - frame.
Qed.

#[export] Hint Resolve _prepare_loop_balances_kept : frame.

Lemma _prepare_votes_balances_kept master_node replica_nodes :
  preserves frame_balances_kept
    (TransferService._prepare_votes master_node replica_nodes).
Proof. unfold TransferService._prepare_votes. frame. Qed.

Lemma _abort_transaction_balances_kept reason :
  preserves frame_balances_kept (TransferService._abort_transaction reason).
Proof.
  unfold TransferService._abort_transaction. frame.
  apply in_world_balances_kept. by apply modify_services_balances_kept.
Qed.

(** ** Running computations *)

Lemma run_bind {S A B} (m : M S A) (f : A → M S B) o s :
  (m ≫= f) o s =
  match m o s with
  | (Returned a, o', s') => f a o' s'
  | (Raised e, o', s') => (Raised e, o', s')
  end.
Proof. reflexivity. Qed.

Lemma run_eta {S A} (r : Outcome A * Oracle * S) :
  r = (outcome r, oracle_after r, state_after r).
Proof. by destruct r as [[??]?]. Qed.

(** Symbolic execution: unfold the monad and the state accessors. *)
Ltac run :=
  cbv beta iota zeta delta
    [mbind M_bind mret M_ret gets get modify put raise try_except time_time
     random_random random_uniform uuid4_hex8 py_hash time_sleep zoom in_world
     on_node on_network on_transaction with_transaction traced fst snd
     outcome oracle_after state_after py_sub py_add py_ge].

Ltac simpl_state :=
  repeat first
    [ progress cbn [world the_transaction heap net set_heap set_net
        set_transfer set_balance set_history set_payment set_partition
        transfer balance history payment partition
        Node.id Node.name Node.role Node.state Node.accounts
        Node.transactions Node.cache Node.last_heartbeat Node.request_count
        Node.can_reach Node.set_state Node.set_accounts Node.set_transactions
        Node.set_cache Node.set_last_heartbeat Node.set_request_count
        Node.set_can_reach
        Transaction.transaction_id Transaction.type Transaction.from_user
        Transaction.to_user Transaction.amount Transaction.currency
        Transaction.status Transaction.created_at Transaction.completed_at
        Transaction.error_message Transaction.metadata Transaction.set_status
        Transaction.set_completed_at Transaction.set_error_message
        Transaction.set_metadata
        nodes partition_active partition_start_time
        pending_transactions committed_transactions aborted_transactions
        query_count cache_hits cache_misses history_query_count
        payment_count success_count failed_count
        NetworkSimulator.LATENCIES NetworkSimulator.self
        NetworkSimulator.set_LATENCIES NetworkSimulator.set_self
        NetworkSimulator.mode NetworkSimulator.latencies
        NetworkSimulator.packet_loss NetworkSimulator.communication_log
        clock random uuid4 hash negb]
    | rewrite fn_lookup_insert ].

(** ** 2PC: aborts are balance-neutral *)

Lemma transfer_run from_user to_user amount master_node replica_nodes strategy o w :
  TransferService.transfer from_user to_user amount master_node replica_nodes
    strategy o w =
  let entry := transfer_entry from_user to_user amount o w in
  match try_except
          (TransferService.transfer_try ("TX_" +:+ uuid4 o 0) from_user to_user
             master_node replica_nodes (clock o 1))
          TransferService.transfer_except entry.1 entry.2 with
  | (Returned res, o', f') => (Returned res, o', world f')
  | (Raised e, o', f') => (Raised e, o', world f')
  end.
Proof.
  cbv beta iota zeta delta
    [TransferService.transfer with_transaction traced transfer_entry mbind
     M_bind mret M_ret uuid4_hex8 Transaction.new time_time fst snd default
     Nat.add].
  destruct (try_except _ _ _ _) as [[[res|e] o'] f']; reflexivity.
Qed.

Lemma _abort_transaction_returns reason o f :
  ∃ res o' f',
    TransferService._abort_transaction reason o f = (Returned res, o', f') ∧
    res !! "success" = Some (V (SBool false)).
Proof.
  eexists _, _, _. split; [reflexivity|].
  apply lookup_insert_eq.
Qed.

Lemma _abort_transaction_aborts reason o f :
  ∃ res o' f',
    TransferService._abort_transaction reason o f = (Returned res, o', f') ∧
    res !! "success" = Some (V (SBool false)) ∧
    frame_balances_kept f f'.
Proof.
  destruct (_abort_transaction_returns reason o f) as (res & o' & f' & Hrun & Hres).
  exists res, o', f'. split_and!; [done..|].
  pose proof (_abort_transaction_balances_kept reason o f) as Hk.
  by rewrite Hrun in Hk.
Qed.

(** ** Strategies under partition *)

(** C7 (StrictCP partition denial).  When the calling node cannot reach the
    master according to [can_reach_master], each of the four StrictCP
    operations returns a failure whose reason is that the master cannot be
    reached; the underlying service is not called: the world (nodes,
    network, service counters) and the environment are untouched. *)
Theorem strict_cp_partition_denial (node master_node : ref)
    (from_user to_user user_id provider : string) (amount : Z)
    (replica_nodes : list ref) (o : Oracle) (w : World) :
  Node.can_reach_master (heap w node) (heap w master_node) = false →
  cp_denial o w
    (PureCPStrategy.execute_transfer from_user to_user amount node
       master_node replica_nodes o w) ∧
  cp_denial o w
    (PureCPStrategy.execute_balance_query user_id node master_node o w) ∧
  cp_denial o w
    (PureCPStrategy.execute_history_query user_id node master_node o w) ∧
  cp_denial o w
    (PureCPStrategy.execute_payment user_id provider amount node master_node
       replica_nodes o w).
Proof.
  intros Hcut.
  unfold PureCPStrategy.execute_transfer, PureCPStrategy.execute_balance_query,
    PureCPStrategy.execute_history_query, PureCPStrategy.execute_payment.
  rewrite !run_bind. unfold get. rewrite Hcut. cbn [negb].
  split_and!; eexists _, _; (split; [reflexivity|]); split_and!; reflexivity.
Qed.

Lemma strict_cp_partition_denial_witness :
  cp_denial Demo.quiet Demo.partitioned_world
    (PureCPStrategy.execute_payment "user_001" "SENELEC" 6000 Demo.ziguinchor
       Demo.dakar [Demo.saint_louis; Demo.ziguinchor]
       Demo.quiet Demo.partitioned_world).
Proof.
  apply (strict_cp_partition_denial Demo.ziguinchor Demo.dakar
           "user_001" "user_002" "user_001" "SENELEC" 6000
           [Demo.saint_louis; Demo.ziguinchor] Demo.quiet
           Demo.partitioned_world).
  vm_compute. reflexivity.
Defined.

(** C8 (Adaptive payment under partition).  When the calling node cannot
    reach the master, an Adaptive payment of less than 5000 succeeds with
    status "queued" and [partition_mode] set, and a payment of 5000 or more
    fails. *)
Theorem adaptive_payment_under_partition (user_id provider : string)
    (amount : Z) (node master_node : ref) (replica_nodes : list ref)
    (o : Oracle) (w : World) :
  Node.can_reach_master (heap w node) (heap w master_node) = false →
  let res :=
    outcome (AdaptiveStrategy.execute_payment user_id provider amount node
               master_node replica_nodes o w) in
  ((amount < 5000)%Z →
   ∃ d, res = Returned d ∧
        d !! "success" = Some (V (SBool true)) ∧
        d !! "status" = Some (V (SStr "queued")) ∧
        d !! "partition_mode" = Some (V (SBool true))) ∧
  ((5000 ≤ amount)%Z →
   ∃ d, res = Returned d ∧ d !! "success" = Some (V (SBool false))).
Proof.
  intros Hcut res. subst res.
  unfold AdaptiveStrategy.execute_payment, outcome.
  rewrite run_bind. unfold get. rewrite Hcut. cbn [negb].
  split; intros Hamount.
  - rewrite bool_decide_eq_true_2 by done.
    eexists. split; [reflexivity|]. split_and!; reflexivity.
  - rewrite bool_decide_eq_false_2 by lia.
    eexists. split; [reflexivity|]. reflexivity.
Qed.

Lemma adaptive_payment_under_partition_witness :
  let res amount :=
    outcome (AdaptiveStrategy.execute_payment "user_003" "Orange" amount
               Demo.ziguinchor Demo.dakar [Demo.saint_louis; Demo.ziguinchor]
               Demo.quiet Demo.partitioned_world) in
  (∃ d, res 2000%Z = Returned d ∧
        d !! "success" = Some (V (SBool true)) ∧
        d !! "status" = Some (V (SStr "queued")) ∧
        d !! "partition_mode" = Some (V (SBool true))) ∧
  (∃ d, res 6000%Z = Returned d ∧ d !! "success" = Some (V (SBool false))).
Proof.
  split.
  - apply (adaptive_payment_under_partition "user_003" "Orange" 2000
             Demo.ziguinchor Demo.dakar [Demo.saint_louis; Demo.ziguinchor]
             Demo.quiet Demo.partitioned_world); [vm_compute; reflexivity | lia].
  - apply (adaptive_payment_under_partition "user_003" "Orange" 6000
             Demo.ziguinchor Demo.dakar [Demo.saint_louis; Demo.ziguinchor]
             Demo.quiet Demo.partitioned_world); [vm_compute; reflexivity | lia].
Defined.

(** C10 (frame of a partition-queued payment).  When the calling node
    cannot reach the master and the amount is below 5000, the queued result
    is produced without changing the world at all: no balance, history or
    cache of any node changes, no transaction is recorded by a service; the
    user is not debited. *)
Theorem queued_payment_mutates_nothing (user_id provider : string)
    (amount : Z) (node master_node : ref) (replica_nodes : list ref)
    (o : Oracle) (w : World) :
  Node.can_reach_master (heap w node) (heap w master_node) = false →
  (amount < 5000)%Z →
  let run := AdaptiveStrategy.execute_payment user_id provider amount node
               master_node replica_nodes o w in
  (∃ d, outcome run = Returned d ∧ d !! "status" = Some (V (SStr "queued"))) ∧
  state_after run = w ∧
  (∀ r, Node.accounts (heap (state_after run) r) = Node.accounts (heap w r) ∧
        Node.transactions (heap (state_after run) r) = Node.transactions (heap w r) ∧
        Node.cache (heap (state_after run) r) = Node.cache (heap w r)) ∧
  transfer (state_after run) = transfer w ∧
  payment (state_after run) = payment w.
Proof.
  intros Hcut Hamount run.
  assert (Hrun : state_after run = w).
  { subst run. unfold AdaptiveStrategy.execute_payment, state_after.
    rewrite run_bind. unfold get. rewrite Hcut. cbn [negb].
    by rewrite bool_decide_eq_true_2 by done. }
  split_and!.
  - subst run. unfold AdaptiveStrategy.execute_payment, outcome.
    rewrite run_bind. unfold get. rewrite Hcut. cbn [negb].
    rewrite bool_decide_eq_true_2 by done.
    eexists. split; reflexivity.
  - exact Hrun.
  - intros r. by rewrite Hrun.
  - by rewrite Hrun.
  - by rewrite Hrun.
Qed.

Lemma queued_payment_mutates_nothing_witness :
  state_after
    (AdaptiveStrategy.execute_payment "user_003" "Orange" 2000
       Demo.ziguinchor Demo.dakar [Demo.saint_louis; Demo.ziguinchor]
       Demo.quiet Demo.partitioned_world) = Demo.partitioned_world.
Proof.
  apply (queued_payment_mutates_nothing "user_003" "Orange" 2000
           Demo.ziguinchor Demo.dakar [Demo.saint_louis; Demo.ziguinchor]
           Demo.quiet Demo.partitioned_world); [vm_compute; reflexivity | lia].
Defined.

(** ** Bill payment: rollback on provider failure *)

(** The strict path, from wherever it is entered (strategy 'CP', or
    'ADAPTIVE' with a large amount): when the provider call fails, the debit
    is undone and the payment is reported and marked as failed. *)
Lemma strict_payment_rolls_back (master_node : ref)
    (replica_nodes : list ref) (start_time : Q) (o : Oracle) (f : Frame)
    (balance : Z) :
  let user := Transaction.from_user (the_transaction f) in
  Node.accounts (heap (world f) master_node) !! user = Some balance →
  (∃ response,
     outcome (PaymentService._call_provider_api o f) = Returned response ∧
     pr_success response = false) →
  let run :=
    PaymentService._pay_bill_cp_strict master_node replica_nodes start_time o f in
  (∃ d, outcome run = Returned d ∧
        d !! "success" = Some (V (SBool false)) ∧
        d !! "error" = Some (V (SStr "Provider API failed"))) ∧
  Transaction.status (the_transaction (state_after run)) = FAILED ∧
  Node.accounts (heap (world (state_after run)) master_node) !! user
    = Some balance ∧
  balances_kept (world f) (world (state_after run)).
Proof.
  intros user Hbal (response & Hcall & Hfail) run.
  assert (Hdraw : Qltb (5 # 100) (random o 0) = false).
  { revert Hcall Hfail. unfold PaymentService._call_provider_api. run.
    destruct (Qltb (5 # 100) (random o 0)); [|done].
    intros [= <-]. done. }
  subst run user.
  unfold PaymentService._pay_bill_cp_strict, PaymentService._call_provider_api,
    PaymentService._fail_payment, PaymentService.incr_failed_count,
    Node.get_balance, Node.set_balance, Node._invalidate_cache,
    Transaction.mark_failed.
  run. simpl_state. rewrite Hbal. run. rewrite Hdraw. run.
  cbn [negb pr_success]. run. simpl_state.
  split_and!.
  - eexists. split; [reflexivity|]. split; reflexivity.
  - reflexivity.
  - apply lookup_insert_eq.
  - intros r. simpl_state.
    destruct (decide (master_node = r)) as [<-|Hne].
    + simpl_state. rewrite insert_insert_eq. by apply insert_id.
    + by rewrite !fn_lookup_insert_ne.
Qed.


(** C6 (provider-failure rollback).  In a strict-mode bill payment that
    gets as far as the provider (the master holds a sufficient balance for
    the user), if the provider call fails then the result has
    [success = False], the transaction record is marked Failed, and the
    master's balance for the paying user is what it was before the payment
    started; indeed no balance of any node has changed. *)
Theorem pay_bill_provider_failure (user_id provider : string) (amount : Z)
    (master_node : ref) (replica_nodes : list ref) (o : Oracle) (w : World)
    (balance : Z) :
  Node.accounts (heap w master_node) !! user_id = Some balance →
  (amount ≤ balance)%Z →
  let entry := pay_bill_entry user_id provider amount o w in
  (∃ response,
     outcome (PaymentService._call_provider_api entry.1 entry.2)
       = Returned response ∧
     pr_success response = false) →
  let run :=
    PaymentService.pay_bill_traced user_id provider amount master_node
      replica_nodes "CP" o w in
  ∃ d transaction,
    outcome run = Returned (d, transaction) ∧
    d !! "success" = Some (V (SBool false)) ∧
    Transaction.status transaction = FAILED ∧
    Node.accounts (heap (state_after run) master_node) !! user_id
      = Some balance ∧
    balances_kept w (state_after run).
Proof.
  intros Hbal Hle entry (response & Hcall & Hfail) run.
  assert (Hdraw : Qltb (5 # 100) (random o 0) = false).
  { revert Hcall Hfail. unfold PaymentService._call_provider_api. run.
    subst entry. unfold pay_bill_entry. simpl_state.
    destruct (Qltb (5 # 100) (random o 0)); [|done].
    intros [= <-]. done. }
  subst run.
  unfold PaymentService.pay_bill_traced, PaymentService.incr_payment_count,
    Transaction.new, PaymentService._pay_bill_cp_strict,
    PaymentService._call_provider_api, PaymentService._fail_payment,
    PaymentService.incr_failed_count, Node.get_balance, Node.set_balance,
    Node._invalidate_cache, Transaction.mark_failed.
  run. simpl_state. rewrite Hbal.
  rewrite bool_decide_eq_false_2 by lia.
  rewrite bool_decide_eq_true_2 by done.
  run. simpl_state. rewrite Hbal. run. simpl_state. rewrite Hdraw. run.
  cbn [negb pr_success]. run. simpl_state.
  eexists _, _. split_and!.
  - reflexivity.
  - reflexivity.
  - reflexivity.
  - apply lookup_insert_eq.
  - intros r. simpl_state.
    destruct (decide (master_node = r)) as [<-|Hne].
    + simpl_state. rewrite insert_insert_eq. by apply insert_id.
    + by rewrite !fn_lookup_insert_ne.
Qed.

Lemma pay_bill_provider_failure_witness :
  let run :=
    PaymentService.pay_bill_traced "user_001" "SENELEC" 6000 Demo.dakar
      [Demo.saint_louis; Demo.ziguinchor] "CP" Demo.lossy Demo.world0 in
  ∃ d transaction,
    outcome run = Returned (d, transaction) ∧
    d !! "success" = Some (V (SBool false)) ∧
    Transaction.status transaction = FAILED ∧
    Node.accounts (heap (state_after run) Demo.dakar) !! "user_001"
      = Some 10000%Z ∧
    balances_kept Demo.world0 (state_after run).
Proof.
  apply (pay_bill_provider_failure "user_001" "SENELEC" 6000 Demo.dakar
           [Demo.saint_louis; Demo.ziguinchor] Demo.lossy Demo.world0 10000).
  - vm_compute. reflexivity.
  - lia.
  - exists (mkProviderResponse false None (Some "Provider timeout")
              ((2 + 1 * inject_Z (0 mod 10) / 10) * 1000)).
    split; vm_compute; reflexivity.
Defined.

(** ** Partition and healing *)

Lemma lookup_insert_Infinite (m : gmap (string * string) latency)
    (k k' : string * string) :
  m !! k = Some Infinite → <[k' := Infinite]> m !! k = Some Infinite.
Proof.
  intros Hk. destruct (decide (k' = k)) as [->|Hne].
  - apply lookup_insert_eq.
  - by rewrite lookup_insert_ne.
Qed.

(** In normal mode [self.latencies] is the very dictionary
    [NetworkConfig.LATENCIES['normal']]: the partition overwrites the
    configured values, and healing copies the overwritten values onto
    themselves. *)
Lemma heal_after_partition_in_normal_mode (a b : string) (o : Oracle)
    (s : NetworkSimulator.Net) :
  NetworkSimulator.latencies (NetworkSimulator.self s) = normal →
  let s' :=
    state_after
      ((NetworkSimulator.simulate_partition a b;;
        NetworkSimulator.heal_partition a b) o s) in
  NetworkSimulator.latencies_dict s' !! (a, b) = Some Infinite ∧
  NetworkSimulator.latencies_dict s' !! (b, a) = Some Infinite.
Proof.
  destruct s as [L [md lt pl log]]. cbn. intros ->.
  unfold NetworkSimulator.simulate_partition, NetworkSimulator.heal_partition,
    NetworkSimulator.latencies_setitem, NetworkSimulator.latencies_dict.
  run.
  cbn [NetworkSimulator.LATENCIES NetworkSimulator.self
       NetworkSimulator.set_LATENCIES NetworkSimulator.latencies].
  rewrite !fn_lookup_insert.
  set (m1 := <[(b, a) := Infinite]> (<[(a, b) := Infinite]> (L normal))).
  assert (H1 : m1 !! (a, b) = Some Infinite).
  { apply lookup_insert_Infinite, lookup_insert_eq. }
  assert (H1' : m1 !! (b, a) = Some Infinite) by apply lookup_insert_eq.
  rewrite H1.
  cbn [NetworkSimulator.LATENCIES NetworkSimulator.self
       NetworkSimulator.set_LATENCIES NetworkSimulator.latencies].
  rewrite !fn_lookup_insert.
  rewrite (lookup_insert_Infinite m1 (b, a) (a, b) H1').
  cbn [NetworkSimulator.LATENCIES NetworkSimulator.self
       NetworkSimulator.set_LATENCIES NetworkSimulator.latencies].
  rewrite !fn_lookup_insert.
  split.
  - by apply lookup_insert_Infinite, lookup_insert_eq.
  - apply lookup_insert_eq.
Qed.

Lemma network_heal_partition_returns (a b : string) o s :
  ∃ s', NetworkSimulator.heal_partition a b o s = (Returned tt, o, s').
Proof.
  unfold NetworkSimulator.heal_partition, NetworkSimulator.latencies_setitem.
  run. destruct (NetworkSimulator.LATENCIES s normal !! (a, b)); run.
  all: case_match; eauto.
Qed.

(** What healing does restore: mutual reachability and health. *)
Lemma heal_restores_reachability_and_health (a b : string) (r1 r2 : ref)
    (o : Oracle) (w : World) :
  nodes (partition w) !! a = Some r1 →
  nodes (partition w) !! b = Some r2 →
  let w' := state_after (PartitionSimulator.heal_partition a b o w) in
  Node.can_reach (heap w' r1) !! b = Some true ∧
  Node.can_reach (heap w' r2) !! a = Some true ∧
  Node.state (heap w' r1) = HEALTHY ∧
  Node.state (heap w' r2) = HEALTHY.
Proof.
  intros Ha Hb w'. subst w'.
  unfold PartitionSimulator.heal_partition, PartitionSimulator.nodes_getitem,
    PartitionSimulator.can_reach_setitem, PartitionSimulator._synchronize_nodes.
  run.
  destruct (network_heal_partition_returns a b o (net w)) as [n1 ->].
  simpl_state. rewrite Ha. run. simpl_state. rewrite Hb. run. simpl_state.
  assert (Hlook : ∀ (m : gmap string bool) x y,
            <[x:=true]> (<[y:=true]> m) !! y = Some true).
  { intros m x y. destruct (decide (x = y)) as [->|?].
    - apply lookup_insert_eq.
    - rewrite lookup_insert_ne by done. apply lookup_insert_eq. }
  destruct (partition_start_time (partition w)) as [t|];
    [destruct (Qeq_bool t 0)|]; run; simpl_state;
    (destruct (decide (r1 = r2)) as [->|Hne];
     [ simpl_state
     | repeat first [ rewrite fn_lookup_insert
                    | rewrite fn_lookup_insert_ne by done
                    | progress simpl_state ] ]);
    split_and!; try done; try apply lookup_insert_eq; try apply Hlook.
Qed.

(** C3 (healing round-trip), evaluated on the deployment of the simulation
    driver: a partition between Dakar and Ziguinchor, then its healing.
    Reachability and health come back.  The latency does not: with the
    network in normal mode both directions stay infinite, where the
    configuration said 150 ms; with the network in congested mode the
    direction Dakar-Ziguinchor is set to the normal value, and the direction
    Ziguinchor-Dakar stays infinite. *)
Theorem heal_partition_leaves_infinite_latency :
  let w := partition_then_heal "DAKAR" "ZIGUINCHOR" Demo.quiet Demo.world0 in
  let wc := partition_then_heal "DAKAR" "ZIGUINCHOR" Demo.quiet
              (Demo.world_in congested) in
  (* reachability and health are restored *)
  Node.can_reach (heap w Demo.dakar) !! "ZIGUINCHOR" = Some true ∧
  Node.can_reach (heap w Demo.ziguinchor) !! "DAKAR" = Some true ∧
  Node.state (heap w Demo.dakar) = HEALTHY ∧
  Node.state (heap w Demo.ziguinchor) = HEALTHY ∧
  (* the latency is not: normal mode *)
  NetworkConfig.LATENCIES normal !! ("DAKAR", "ZIGUINCHOR") = Some (Finite 150) ∧
  NetworkSimulator.latencies_dict (net w) !! ("DAKAR", "ZIGUINCHOR")
    = Some Infinite ∧
  NetworkSimulator.latencies_dict (net w) !! ("ZIGUINCHOR", "DAKAR")
    = Some Infinite ∧
  latency_between "DAKAR" "ZIGUINCHOR" Demo.quiet w = Returned Infinite ∧
  latency_between "ZIGUINCHOR" "DAKAR" Demo.quiet w = Returned Infinite ∧
  (* congested mode *)
  NetworkSimulator.latencies_dict (net wc) !! ("DAKAR", "ZIGUINCHOR")
    = Some (Finite 150) ∧
  NetworkSimulator.latencies_dict (net wc) !! ("ZIGUINCHOR", "DAKAR")
    = Some Infinite ∧
  latency_between "ZIGUINCHOR" "DAKAR" Demo.quiet wc = Returned Infinite.
Proof. vm_compute. repeat split; reflexivity. Qed.

(** ** Cached balance reads (AP) *)

(** The part of the claim that holds: a read before the expiry of a cached
    entry returns the cached value, tagged "cached", and leaves the entry. *)
Lemma ap_read_before_expiry (user_id : string) (node : ref)
    (master_node : option ref) (o : Oracle) (w : World) (v : Z) (expiry : Q) :
  Node.cache (heap w node) !! ("balance:" +:+ user_id)
    = Some (CachedBalance v, expiry) →
  Qltb (clock o 1) expiry = true →
  let run := BalanceService.get_balance user_id node master_node "AP" o w in
  (∃ d, outcome run = Returned d ∧
        d !! "success" = Some (V (SBool true)) ∧
        d !! "balance" = Some (V (SInt v)) ∧
        d !! "freshness" = Some (V (SStr "cached"))) ∧
  Node.cache (heap (state_after run) node) = Node.cache (heap w node).
Proof.
  intros Hslot Hfresh run. subst run.
  unfold BalanceService.get_balance, BalanceService.incr_query_count,
    BalanceService._get_balance_ap, BalanceService.incr_cache_hits,
    Node.get_balance, Node._get_from_cache.
  run. rewrite bool_decide_eq_true_2 by done. run.
  simpl_state. rewrite Hslot. run. simpl_state. rewrite Hfresh. run.
  simpl_state. split; [|done].
  eexists. split; [reflexivity|]. split_and!; reflexivity.
Qed.

(** After the expiry the entry is dropped, the balance map is read, and
    that is all: the answer is tagged as a cache hit and the cache is left
    without an entry for the user. *)
Lemma ap_read_after_expiry (user_id : string) (node : ref)
    (master_node : option ref) (o : Oracle) (w : World) (c : cached)
    (expiry : Q) (b : Z) :
  Node.cache (heap w node) !! ("balance:" +:+ user_id) = Some (c, expiry) →
  Qltb (clock o 1) expiry = false →
  Node.accounts (heap w node) !! user_id = Some b →
  let run := BalanceService.get_balance user_id node master_node "AP" o w in
  (∃ d, outcome run = Returned d ∧
        d !! "balance" = Some (V (SInt b)) ∧
        d !! "source" = Some (V (SStr "cache")) ∧
        d !! "freshness" = Some (V (SStr "cached"))) ∧
  Node.cache (heap (state_after run) node) !! ("balance:" +:+ user_id) = None.
Proof.
  intros Hslot Hstale Hacc run. subst run.
  unfold BalanceService.get_balance, BalanceService.incr_query_count,
    BalanceService._get_balance_ap, BalanceService.incr_cache_hits,
    Node.get_balance, Node._get_from_cache.
  run. rewrite bool_decide_eq_true_2 by done. run.
  simpl_state. rewrite Hslot. run. simpl_state. rewrite Hstale. run.
  simpl_state. rewrite Hacc. run. simpl_state.
  split; [|apply lookup_delete_eq].
  eexists. split; [reflexivity|]. split_and!; reflexivity.
Qed.

(** C9 (cache TTL for AP balance reads), evaluated on a read after expiry.
    The stale entry is dropped and the balance map is read, but the cache
    is not populated again, and the answer read from the balance map is
    tagged "cached". *)
Theorem ap_read_after_expiry_does_not_repopulate :
  let run := BalanceService.get_balance "user_001" Demo.saint_louis
               (Some Demo.dakar) "AP" Demo.late Demo.stale_world in
  field "success" (outcome run) = Some (V (SBool true)) ∧
  field "balance" (outcome run) = Some (V (SInt 10000)) ∧
  field "source" (outcome run) = Some (V (SStr "cache")) ∧
  field "freshness" (outcome run) = Some (V (SStr "cached")) ∧
  Node.cache (heap Demo.stale_world Demo.saint_louis) !! "balance:user_001"
    = Some (CachedBalance 9000, 10%Q) ∧
  Node.cache (heap (state_after run) Demo.saint_louis) !! "balance:user_001"
    = None.
Proof. vm_compute. repeat split; reflexivity. Qed.

(** ** The vote of a participant *)

Lemma is_healthy_healthy_at (o : Oracle) (n : Node.t) :
  outcome (Node.is_healthy o n) = Returned (healthy_at (clock o 0) n).
Proof.
  unfold Node.is_healthy, healthy_at. run.
  by destruct (Qltb 3 (clock o 0 - Node.last_heartbeat n)).
Qed.

Lemma send_message_returns {P} (from_node to_node message_type : string)
    (payload : P) (o : Oracle) (s : NetworkSimulator.Net) :
  ∃ r o' s',
    NetworkSimulator.send_message from_node to_node message_type payload o s
      = (Returned r, o', s').
Proof.
  unfold NetworkSimulator.send_message, NetworkSimulator._get_latency,
    NetworkSimulator._is_packet_lost, NetworkSimulator._log_communication.
  run.
  destruct (bool_decide (from_node = to_node)); run; simpl_state;
    (destruct (Qltb _ _); run; [eauto|]).
  - eauto.
  - destruct (NetworkSimulator.scale_clamp _ _); run; eauto.
Qed.

(** C4 (prepare vote rule), as the code has it.  For a participant whose
    eligibility check does not raise (a master-role participant has an
    account for the source user), one turn of the prepare loop records a
    vote for it, and:
    - the vote is NO exactly when the PREPARE message was not delivered, or
      the node is not healthy, or it has the master role and its balance for
      the source user is below the amount;
    - after a delivery, the vote is YES exactly when the node is healthy
      and, if it has the master role, its balance for the source user is at
      least the amount;
    - in particular a replica to which the message was delivered votes YES
      exactly when it is healthy.
    Healthy means what [is_healthy] answers at that instant: the last
    heartbeat is at most 3 seconds old and the state is Healthy. *)
Theorem prepare_vote_rule (master_node node : ref) (o : Oracle) (f : Frame) :
  let n := heap (world f) node in
  let transaction := the_transaction f in
  let delivery := prepare_delivery master_node node o f in
  let now := clock (oracle_after delivery) 0 in
  let sufficient :=
    ∃ b, Node.accounts n !! Transaction.from_user transaction = Some b ∧
         (Transaction.amount transaction ≤ b)%Z in
  (Node.is_master n = true →
   is_Some (Node.accounts n !! Transaction.from_user transaction)) →
  ∃ vote,
    outcome (TransferService._prepare_vote master_node node o f)
      = Returned (Node.id n, vote) ∧
    (vote = NO ↔
       delivered (outcome delivery) = false ∨
       healthy_at now n = false ∨
       (Node.is_master n = true ∧ ¬ sufficient)) ∧
    (delivered (outcome delivery) = true →
     (vote = YES ↔
        healthy_at now n = true ∧ (Node.is_master n = true → sufficient))) ∧
    (delivered (outcome delivery) = true → Node.is_master n = false →
     (vote = YES ↔ healthy_at now n = true)).
Proof.
  intros n transaction delivery now sufficient Hacc.
  subst delivery now. unfold prepare_delivery, TransferService._prepare_vote.
  run.
  destruct (send_message_returns
              (Node.id (heap (world f) master_node))
              (Node.id (heap (world f) node)) "prepare"
              ({[ "transaction_id" :=
                    SStr (Transaction.transaction_id (the_transaction f)) ]}
               : gmap string scalar) o (net (world f)))
    as (response & o1 & n1 & ->).
  destruct response as [response|]; run; simpl_state; cbn [delivered].
  2: { exists NO. split_and!; [done| |done..]. split; [by left|done]. }
  unfold TransferService._can_node_prepare, Node.is_healthy, Node.get_balance.
  run. simpl_state. fold n. unfold healthy_at.
  destruct (Qltb 3 (clock o1 0 - Node.last_heartbeat n)); run; simpl_state.
  { exists NO. split_and!; [done| | |].
    - split; [by right; left|done].
    - intros _. split; [done|]. by intros [? _].
    - intros _ _. done. }
  destruct (bool_decide (Node.state n = HEALTHY)); run; simpl_state.
  2: { exists NO. split_and!; [done| | |].
       - split; [by right; left|done].
       - intros _. split; [done|]. by intros [? _].
       - intros _ _. done. }
  fold n. destruct (Node.is_master n) eqn:Hmaster; run; simpl_state.
  2: { exists YES. split_and!; [done| | |].
       - split; [done|]. intros [?|[?|[? _]]]; done.
       - intros _. done.
       - intros _ _. done. }
  fold n. destruct (Hacc eq_refl) as [b Hb]. fold transaction. rewrite Hb.
  run. simpl_state. fold n.
  destruct (bool_decide_reflect (Transaction.amount transaction ≤ b)%Z)
    as [Hle|Hlt].
  - exists YES. split_and!; [done| | |].
    + split; [done|]. intros [?|[?|[_ Hnot]]]; [done..|].
      destruct Hnot. by exists b.
    + intros _. split; [|done]. intros _. split; [done|]. intros _.
      by exists b.
    + intros _ ?. done.
  - exists NO. split_and!; [done| | |].
    + split; [|done]. intros _. right; right. split; [done|].
      intros (b' & Hb' & Hle'). assert (b' = b) as -> by congruence. done.
    + intros _. split; [done|]. intros [_ Hsuff].
      destruct (Hsuff eq_refl) as (b' & Hb' & Hle').
      assert (b' = b) as -> by congruence. done.
    + intros _ ?. done.
Qed.

Lemma prepare_vote_rule_witness :
  ∃ vote,
    outcome (TransferService._prepare_vote Demo.dakar Demo.dakar Demo.quiet
               Demo.healthy_frame) = Returned ("DAKAR", vote) ∧
    vote = YES.
Proof.
  destruct (prepare_vote_rule Demo.dakar Demo.dakar Demo.quiet Demo.healthy_frame)
    as (vote & Hvote & _ & Hyes & _).
  - intros _. exists 10000%Z. vm_compute. reflexivity.
  - exists vote. split; [exact Hvote|].
    apply Hyes; [vm_compute; reflexivity|].
    split; [vm_compute; reflexivity|].
    intros _. exists 10000%Z. split; [vm_compute; reflexivity|].
    vm_compute. discriminate.
Defined.

(** The sentence on replicas fails on an isolated replica: after the
    partition of Dakar and Ziguinchor, the PREPARE message is delivered to
    Ziguinchor (no packet is lost), Ziguinchor is a replica, and its vote is
    NO because its state is Isolated. *)
Lemma isolated_replica_votes_no :
  Node.is_master (heap (world Demo.partitioned_frame) Demo.ziguinchor) = false ∧
  Node.state (heap (world Demo.partitioned_frame) Demo.ziguinchor) = ISOLATED ∧
  delivered (outcome (prepare_delivery Demo.dakar Demo.ziguinchor Demo.quiet
                        Demo.partitioned_frame)) = true ∧
  outcome (TransferService._prepare_vote Demo.dakar Demo.ziguinchor Demo.quiet
             Demo.partitioned_frame) = Returned ("ZIGUINCHOR", NO) ∧
  ¬ replica_always_votes_yes.
Proof.
  assert (Hvote :
    outcome (TransferService._prepare_vote Demo.dakar Demo.ziguinchor
               Demo.quiet Demo.partitioned_frame) = Returned ("ZIGUINCHOR", NO))
    by (vm_compute; reflexivity).
  split_and!; [vm_compute; reflexivity.. | exact Hvote |].
  intros Hclaim.
  specialize (Hclaim Demo.dakar Demo.ziguinchor Demo.quiet Demo.partitioned_frame).
  rewrite Hvote in Hclaim.
  discriminate Hclaim; vm_compute; reflexivity.
Qed.

(** ** 2PC: the commit phase *)

#[export] Instance node_accounts_kept_preorder node :
  PreOrder (node_accounts_kept node).
Proof.
  split; [by intros f | intros f1 f2 f3 H12 H23].
  unfold node_accounts_kept in *. congruence.
Qed.

Lemma on_other_node_accounts_kept {A} (node other : ref) (m : M Node.t A) :
  other ≠ node →
  preserves (node_accounts_kept node) (in_world (on_node other m)).
Proof.
  intros Hne o f. unfold in_world, on_node, zoom.
  destruct (m o (heap (world f) other)) as [[r o1] n1].
  unfold node_accounts_kept. simpl. by rewrite fn_lookup_insert_ne.
Qed.

Lemma on_network_node_accounts_kept {A} (node : ref)
    (m : M NetworkSimulator.Net A) :
  preserves (node_accounts_kept node) (in_world (on_network m)).
Proof.
  intros o f. unfold in_world, on_network, zoom.
  by destruct (m o (net (world f))) as [[r o1] n1].
Qed.

Lemma on_transaction_node_accounts_kept {A} (node : ref)
    (m : M Transaction.t A) :
  preserves (node_accounts_kept node) (on_transaction m).
Proof.
  intros o f. unfold on_transaction, zoom.
  by destruct (m o (the_transaction f)) as [[r o1] t1].
Qed.

#[export] Hint Resolve on_other_node_accounts_kept
  on_network_node_accounts_kept on_transaction_node_accounts_kept : frame.

Lemma _commit_on_replica_other_kept (master_node node : ref) from_balance to_balance :
  node ≠ master_node →
  preserves (node_accounts_kept master_node)
    (TransferService._commit_on_replica node from_balance to_balance).
Proof. intros Hne. unfold TransferService._commit_on_replica. frame. Qed.

Lemma _commit_loop_master_kept timeout start_time (master_node : ref)
    from_balance to_balance (replica_nodes : list ref) :
  master_node ∉ replica_nodes →
  preserves (node_accounts_kept master_node)
    (TransferService._commit_loop timeout start_time master_node from_balance
       to_balance replica_nodes).
Proof.
  induction replica_nodes as [|node rest IH]; intros Hnotin; simpl.
  - frame.
  - apply not_elem_of_cons in Hnotin as [Hne Hrest].
    frame. by apply _commit_on_replica_other_kept.
Qed.

Lemma _pre_checks_true (master_node : ref) o f o1 f1 :
  TransferService._pre_checks master_node o f = (Returned true, o1, f1) →
  let transaction := the_transaction f in
  let accounts := Node.accounts (heap (world f) master_node) in
  the_transaction f1 = transaction ∧
  ∃ bf bt,
    accounts !! Transaction.from_user transaction = Some bf ∧
    accounts !! Transaction.to_user transaction = Some bt ∧
    (Transaction.amount transaction ≤ bf)%Z.
Proof.
  unfold TransferService._pre_checks, Node.get_balance. run. simpl_state.
  destruct (Node.accounts (heap (world f) master_node)
              !! Transaction.from_user (the_transaction f)) as [bf|]; run;
    [|done].
  destruct (bool_decide_reflect (bf < Transaction.amount (the_transaction f))%Z);
    run; [done|]. simpl_state.
  destruct (Node.accounts (heap (world f) master_node)
              !! Transaction.to_user (the_transaction f)) as [bt|] eqn:Hto;
    run; [|done].
  intros [= <- <-]. simpl_state. split; [done|].
  exists bf, bt. split_and!; [done..|lia].
Qed.

#[export] Instance parties_kept_preorder : PreOrder parties_kept.
Proof.
  split; [by intros f | intros f1 f2 f3 (?&?&?) (?&?&?)].
  unfold parties_kept. split_and!; congruence.
Qed.

Lemma in_world_parties_kept {A} (m : M World A) :
  preserves parties_kept (in_world m).
Proof.
  intros o f. unfold in_world, zoom.
  by destruct (m o (world f)) as [[r o1] w1].
Qed.

Lemma mark_prepared_parties_kept :
  preserves parties_kept (on_transaction Transaction.mark_prepared).
Proof. by intros o f. Qed.

#[export] Hint Resolve in_world_parties_kept mark_prepared_parties_kept : frame.

Lemma _can_node_prepare_parties_kept node :
  preserves parties_kept (TransferService._can_node_prepare node).
Proof. unfold TransferService._can_node_prepare. frame. Qed.

#[export] Hint Resolve _can_node_prepare_parties_kept : frame.

Lemma _prepare_vote_parties_kept master_node node :
  preserves parties_kept (TransferService._prepare_vote master_node node).
Proof. unfold TransferService._prepare_vote. frame. Qed.

#[export] Hint Resolve _prepare_vote_parties_kept : frame.

Lemma _prepare_loop_parties_kept timeout start_time master_node participants votes :
  preserves parties_kept
    (TransferService._prepare_loop timeout start_time master_node participants votes).
Proof.
  revert votes. induction participants as [|node rest IH]; intros votes; simpl;
    frame.
Qed.

#[export] Hint Resolve _prepare_loop_parties_kept : frame.

Lemma _prepare_phase_parties_kept master_node replica_nodes :
  preserves parties_kept
    (TransferService._prepare_phase master_node replica_nodes).
Proof.
  unfold TransferService._prepare_phase, TransferService._prepare_votes. frame.
Qed.

Lemma _prepare_phase_balances_kept master_node replica_nodes :
  preserves frame_balances_kept
    (TransferService._prepare_phase master_node replica_nodes).
Proof.
  unfold TransferService._prepare_phase. frame.
  apply _prepare_votes_balances_kept.
Qed.

(** The commit phase on the master: debit, credit, and nothing else as long
    as the master is not also listed as a replica. *)
Lemma _commit_phase_master (master_node : ref) (replica_nodes : list ref)
    (o : Oracle) (f : Frame) (bf bt : Z) :
  let transaction := the_transaction f in
  let accounts := Node.accounts (heap (world f) master_node) in
  master_node ∉ replica_nodes →
  accounts !! Transaction.from_user transaction = Some bf →
  accounts !! Transaction.to_user transaction = Some bt →
  Node.accounts
    (heap (world (state_after
       (TransferService._commit_phase master_node replica_nodes o f)))
       master_node) =
  <[Transaction.to_user transaction := (bt + Transaction.amount transaction)%Z]>
    (<[Transaction.from_user transaction :=
         (bf - Transaction.amount transaction)%Z]> accounts).
Proof.
  intros transaction accounts Hnotin Hfrom Hto. subst transaction accounts.
  unfold TransferService._commit_phase, Node.get_balance, Node.set_balance,
    Node._invalidate_cache, Node.add_transaction.
  run. simpl_state. rewrite Hfrom. run. simpl_state. rewrite Hto. run.
  simpl_state.
  match goal with
  | |- context [TransferService._commit_loop ?t ?s ?m ?a ?b ?l ?o' ?f'] =>
      pose proof (_commit_loop_master_kept t s m a b l Hnotin o' f') as Hkept;
      destruct (TransferService._commit_loop t s m a b l o' f')
        as [[r o2] f2]
  end.
  unfold node_accounts_kept in Hkept. simpl in Hkept. simpl_state.
  rewrite Hkept. simpl_state. done.
Qed.

Lemma transfer_except_aborts (e : exn) o f :
  ∃ res o' f',
    TransferService.transfer_except e o f = (Returned res, o', f') ∧
    res !! "success" = Some (V (SBool false)).
Proof.
  unfold TransferService.transfer_except.
  destruct (is_TimeoutError e); apply _abort_transaction_returns.
Qed.

(** X13 (postcondition of a successful transfer).  What a successful
    transfer establishes when the two users are distinct
    and the master is not also listed among the replicas: the master's
    balance map is the old one with the source debited and the recipient
    credited, and the result carries the transaction id and the two new
    balances. *)
Lemma transfer_success_postcondition (from_user to_user : string) (amount : Z)
    (master_node : ref) (replica_nodes : list ref) (strategy : string)
    (o : Oracle) (w : World) (d : Result) :
  from_user ≠ to_user →
  master_node ∉ replica_nodes →
  let run := TransferService.transfer from_user to_user amount master_node
               replica_nodes strategy o w in
  outcome run = Returned d →
  d !! "success" = Some (V (SBool true)) →
  ∃ bf bt,
    Node.accounts (heap w master_node) !! from_user = Some bf ∧
    Node.accounts (heap w master_node) !! to_user = Some bt ∧
    Node.accounts (heap (state_after run) master_node) =
      <[to_user := (bt + amount)%Z]>
        (<[from_user := (bf - amount)%Z]> (Node.accounts (heap w master_node))) ∧
    d !! "transaction_id" = Some (V (SStr ("TX_" +:+ uuid4 o 0))) ∧
    d !! "new_balance_from" = Some (V (SInt (bf - amount))) ∧
    d !! "new_balance_to" = Some (V (SInt (bt + amount))).
Proof.
  intros Hdistinct Hnotin run. subst run.
  rewrite transfer_run. cbv zeta.
  set (entry := transfer_entry from_user to_user amount o w).
  unfold try_except, TransferService.transfer_try.
  rewrite run_bind.
  pose proof (_pre_checks_balances_kept master_node entry.1 entry.2) as Hk1.
  destruct (TransferService._pre_checks master_node entry.1 entry.2)
    as [[[ok|e] o1] f1] eqn:Hpre.
  2: { destruct (transfer_except_aborts e o1 f1) as (res & o' & f' & -> & Hres).
       unfold outcome. simpl. intros [= <-]. congruence. }
  destruct ok; cbn [negb].
  2: { destruct (_abort_transaction_returns "Pre-checks failed" o1 f1)
         as (res & o' & f' & -> & Hres).
       unfold outcome. simpl. intros [= <-]. congruence. }
  apply _pre_checks_true in Hpre as (Htx1 & bf & bt & Hfrom & Hto & Hle).
  rewrite run_bind.
  pose proof (_prepare_phase_balances_kept master_node replica_nodes o1 f1) as Hk2.
  pose proof (_prepare_phase_parties_kept master_node replica_nodes o1 f1) as Hp2.
  destruct (TransferService._prepare_phase master_node replica_nodes o1 f1)
    as [[[ok|e] o2] f2] eqn:Hprep.
  2: { destruct (transfer_except_aborts e o2 f2) as (res & o' & f' & -> & Hres).
       unfold outcome. simpl. intros [= <-]. congruence. }
  destruct ok; cbn [negb].
  2: { destruct (_abort_transaction_returns "Prepare phase failed" o2 f2)
         as (res & o' & f' & -> & Hres).
       unfold outcome. simpl. intros [= <-]. congruence. }
  rewrite run_bind.
  simpl in Hk1, Hk2, Hp2.
  assert (Hacc2 : Node.accounts (heap (world f2) master_node)
                  = Node.accounts (heap w master_node)).
  { rewrite (Hk2 master_node). apply (Hk1 master_node). }
  destruct Hp2 as (Hp_from & Hp_to & Hp_amount).
  rewrite Htx1 in Hp_from, Hp_to, Hp_amount. simpl in Hp_from, Hp_to, Hp_amount.
  simpl in Hfrom, Hto.
  pose proof (_commit_phase_master master_node replica_nodes o2 f2 bf bt Hnotin)
    as Hcommit.
  cbv zeta in Hcommit.
  rewrite Hp_from, Hp_to, Hp_amount, Hacc2 in Hcommit.
  specialize (Hcommit Hfrom Hto).
  destruct (TransferService._commit_phase master_node replica_nodes o2 f2)
    as [[[ok|e] o3] f3].
  2: { destruct (transfer_except_aborts e o3 f3) as (res & o' & f' & -> & Hres).
       unfold outcome. simpl. intros [= <-]. congruence. }
  destruct ok; cbn [negb].
  2: { destruct (_abort_transaction_returns "Commit phase failed" o3 f3)
         as (res & o' & f' & -> & Hres).
       unfold outcome. simpl. intros [= <-]. congruence. }
  unfold state_after in Hcommit. simpl in Hcommit.
  unfold Transaction.mark_committed, Node.get_balance.
  run. simpl_state. rewrite Hcommit.
  rewrite lookup_insert_ne by done. rewrite lookup_insert_eq.
  rewrite lookup_insert_eq.
  intros [= <-] _. exists bf, bt. split_and!; try done.
Qed.

(** C2 (successful transfer), evaluated on a transfer from a user to
    himself.  The transfer succeeds, and the master's balance of the user
    goes from 10000 to 13000: the source is not decreased by the amount. *)
Theorem self_transfer_credits_the_source :
  let run := TransferService.transfer "user_001" "user_001" 3000 Demo.dakar
               [Demo.saint_louis; Demo.ziguinchor] "CP" Demo.quiet
               Demo.world0 in
  Node.accounts (heap Demo.world0 Demo.dakar) !! "user_001" = Some 10000%Z ∧
  field "success" (outcome run) = Some (V (SBool true)) ∧
  field "new_balance_from" (outcome run) = Some (V (SInt 13000)) ∧
  field "new_balance_to" (outcome run) = Some (V (SInt 13000)) ∧
  Node.accounts (heap (state_after run) Demo.dakar) !! "user_001"
    = Some 13000%Z.
Proof. vm_compute. repeat split; reflexivity. Qed.

(** What the block applied on a replica does to its balance map: the base
    of each update is [py_or] of the replica's own balance and the master's
    pre-commit balance, both replica balances being read before either is
    written. *)
Lemma commit_on_replica_accounts (node : ref) (from_balance to_balance : option Z)
    (o : Oracle) (f : Frame) (from_bal to_bal : Z) :
  let transaction := the_transaction f in
  let accounts := Node.accounts (heap (world f) node) in
  py_or (accounts !! Transaction.from_user transaction) from_balance
    = Some from_bal →
  py_or (accounts !! Transaction.to_user transaction) to_balance
    = Some to_bal →
  let run := TransferService._commit_on_replica node from_balance to_balance o f in
  outcome run = Returned tt ∧
  Node.accounts (heap (world (state_after run)) node) =
    <[Transaction.to_user transaction :=
        (to_bal + Transaction.amount transaction)%Z]>
      (<[Transaction.from_user transaction :=
           (from_bal - Transaction.amount transaction)%Z]> accounts) ∧
  (∀ r, r ≠ node →
        Node.accounts (heap (world (state_after run)) r)
          = Node.accounts (heap (world f) r)).
Proof.
  intros transaction accounts Hfrom Hto run. subst run transaction accounts.
  unfold TransferService._commit_on_replica, Node.get_balance, Node.set_balance,
    Node._invalidate_cache, Node.add_transaction.
  run. simpl_state. rewrite Hfrom. run. simpl_state. rewrite Hto. run.
  simpl_state. split_and!; [done..|].
  intros r Hne. by rewrite !fn_lookup_insert_ne.
Qed.

(** C5 (replication base), evaluated on a replica that lags behind.  The
    replica holds 0 for the recipient and the master 5000; after a
    delivered commit of 3000 the replica holds 8000: the master's pre-commit
    balance served as the base, although the replica had a stored value. *)
Theorem replica_zero_balance_takes_master_base :
  let run := TransferService.transfer "user_001" "user_002" 3000 Demo.dakar
               [Demo.saint_louis; Demo.ziguinchor] "CP" Demo.quiet
               Demo.lagging_world in
  Node.accounts (heap Demo.lagging_world Demo.saint_louis) !! "user_002" = Some 0%Z ∧
  Node.accounts (heap Demo.lagging_world Demo.dakar) !! "user_002" = Some 5000%Z ∧
  field "success" (outcome run) = Some (V (SBool true)) ∧
  Node.accounts (heap (state_after run) Demo.saint_louis) !! "user_002"
    = Some 8000%Z ∧
  py_or (Some 0%Z) (Some 5000%Z) = Some 5000%Z.
Proof. vm_compute. repeat split; reflexivity. Qed.


(** ** The vote table *)

#[export] Instance id_kept_preorder : PreOrder id_kept.
Proof.
  split; [by intros n | intros n1 n2 n3 H12 H23].
  unfold id_kept in *. congruence.
Qed.

#[export] Instance ids_kept_preorder : PreOrder ids_kept.
Proof.
  split; [by intros f r | intros f1 f2 f3 H12 H23 r].
  by rewrite H23, H12.
Qed.

Lemma on_node_ids_kept {A} (node : ref) (m : M Node.t A) :
  preserves id_kept m → preserves ids_kept (in_world (on_node node m)).
Proof.
  intros Hm o f. unfold in_world, on_node, zoom.
  specialize (Hm o (heap (world f) node)).
  destruct (m o (heap (world f) node)) as [[r o1] n1]. simpl in *.
  intros r'. simpl. destruct (decide (node = r')) as [<-|Hne].
  - by rewrite fn_lookup_insert.
  - by rewrite fn_lookup_insert_ne.
Qed.

Lemma on_network_ids_kept {A} (m : M NetworkSimulator.Net A) :
  preserves ids_kept (in_world (on_network m)).
Proof.
  intros o f. unfold in_world, on_network, zoom.
  by destruct (m o (net (world f))) as [[r o1] n1].
Qed.

Lemma is_healthy_id_kept : preserves id_kept Node.is_healthy.
Proof. unfold Node.is_healthy. frame. all: by apply preserves_modify. Qed.

Lemma get_balance_id_kept user_id from_cache :
  preserves id_kept (Node.get_balance user_id from_cache).
Proof.
  unfold Node.get_balance, Node._get_from_cache. frame.
  all: by apply preserves_modify.
Qed.

#[export] Hint Resolve on_node_ids_kept on_network_ids_kept is_healthy_id_kept
  get_balance_id_kept : frame.

Lemma _prepare_vote_ids_kept master_node node :
  preserves ids_kept (TransferService._prepare_vote master_node node).
Proof.
  unfold TransferService._prepare_vote, TransferService._can_node_prepare. frame.
Qed.

(** The vote of a turn is filed under the identifier of its node. *)
Lemma _prepare_vote_key (master_node node : ref) o f k v o1 f1 :
  TransferService._prepare_vote master_node node o f = (Returned (k, v), o1, f1) →
  k = Node.id (heap (world f) node).
Proof.
  unfold TransferService._prepare_vote. run.
  destruct (NetworkSimulator.send_message _ _ _ _ _ _) as [[[[resp|]|e] o2] n2];
    run; [|by intros [= <- _ _ _]|done].
  destruct (TransferService._can_node_prepare _ _ _) as [[[b|e] o3] f3];
    run; [by intros [= <- _ _ _]|done].
Qed.

(** The loop only writes under the identifiers of the nodes it visits. *)
Lemma _prepare_loop_other_keys timeout start_time (master_node : ref)
    (participants : list ref) votes o f final o' f' (k : string) :
  TransferService._prepare_loop timeout start_time master_node participants
    votes o f = (Returned final, o', f') →
  k ∉ participant_ids f participants →
  final !! k = votes !! k.
Proof.
  revert votes o f.
  induction participants as [|node rest IH]; intros votes o f; simpl.
  - run. by intros [= <- _ _].
  - run. destruct (Qltb timeout (clock o 0 - start_time)); run; [done|].
    match goal with
    | |- context [TransferService._prepare_vote ?m ?n ?o1 ?f1] =>
        pose proof (_prepare_vote_ids_kept m n o1 f1) as Hids;
        destruct (TransferService._prepare_vote m n o1 f1)
          as [[[[k1 v1]|e] o2] f2] eqn:Hvote
    end; [|done].
    apply _prepare_vote_key in Hvote. simpl in Hids. simpl.
    intros Hloop Hnotin. apply not_elem_of_cons in Hnotin as [Hne Hrest].
    rewrite (IH _ _ _ Hloop).
    + rewrite lookup_insert_ne; [done|]. by rewrite Hvote.
    + unfold participant_ids in *.
      erewrite list_fmap_ext; [exact Hrest|]. intros i r _. apply Hids.
Qed.

(** With pairwise distinct identifiers, the vote of a participant stays in
    the table: if the turn of [node] files the vote [v] and no later
    participant bears the identifier of [node], the table returned by the
    loop holds [v] for [node]. *)
Lemma _prepare_loop_keeps_vote timeout start_time (master_node node : ref)
    (rest : list ref) votes o1 f1 k v o2 f2 final o3 f3 :
  TransferService._prepare_vote master_node node o1 f1
    = (Returned (k, v), o2, f2) →
  TransferService._prepare_loop timeout start_time master_node rest
    (<[k := v]> votes) o2 f2 = (Returned final, o3, f3) →
  Node.id (heap (world f1) node) ∉ participant_ids f1 rest →
  final !! Node.id (heap (world f1) node) = Some v.
Proof.
  intros Hvote Hloop Hnotin.
  pose proof (_prepare_vote_ids_kept master_node node o1 f1) as Hids.
  rewrite Hvote in Hids. simpl in Hids.
  apply _prepare_vote_key in Hvote as ->.
  rewrite (_prepare_loop_other_keys _ _ _ _ _ _ _ _ _ _ _ Hloop).
  - apply lookup_insert_eq.
  - unfold participant_ids in *.
    erewrite list_fmap_ext; [exact Hnotin|]. intros i r _. apply Hids.
Qed.

(** ** 2PC: a NO vote aborts the transfer *)

Lemma _pre_checks_ids_kept master_node :
  preserves ids_kept (TransferService._pre_checks master_node).
Proof. unfold TransferService._pre_checks. frame. Qed.

Lemma transfer_except_aborts_kept (e : exn) o f :
  ∃ res o' f',
    TransferService.transfer_except e o f = (Returned res, o', f') ∧
    res !! "success" = Some (V (SBool false)) ∧
    frame_balances_kept f f'.
Proof.
  unfold TransferService.transfer_except.
  destruct (is_TimeoutError e); apply _abort_transaction_aborts.
Qed.

(** With pairwise distinct identifiers, a NO filed by a turn of the loop is
    still in the table when the loop returns. *)
Lemma _prepare_loop_casts_no timeout start_time (master_node : ref)
    (participants : list ref) votes o f :
  NoDup (participant_ids f participants) →
  casts_no timeout start_time master_node participants o f = true →
  match outcome (TransferService._prepare_loop timeout start_time master_node
                   participants votes o f) with
  | Returned final => ∃ node_id, final !! node_id = Some NO
  | Raised _ => True
  end.
Proof.
  revert votes o f.
  induction participants as [|node rest IH]; intros votes o f; simpl; [done|].
  intros [Hnotin Hrest]%NoDup_cons. run.
  destruct (Qltb timeout (clock o 0 - start_time)); run; [done|].
  match goal with
  | |- context [TransferService._prepare_vote ?m ?n ?o1 ?f1] =>
      pose proof (_prepare_vote_ids_kept m n o1 f1) as Hids;
      destruct (TransferService._prepare_vote m n o1 f1)
        as [[[[k v]|e] o2] f2] eqn:Hvote
  end; [|done].
  simpl in Hids.
  assert (Hsame : participant_ids f2 rest = participant_ids f rest).
  { unfold participant_ids. apply list_fmap_ext. intros i r _. apply Hids. }
  intros [Hno|Hlater]%orb_true_iff.
  - apply bool_decide_eq_true in Hno as ->.
    destruct (TransferService._prepare_loop _ _ _ rest _ o2 f2)
      as [[[final|e] o3] f3] eqn:Hloop; [|done].
    exists (Node.id (heap (world f) node)).
    by eapply _prepare_loop_keeps_vote.
  - apply IH; [by rewrite Hsame|done].
Qed.

Lemma _prepare_votes_casts_no (master_node : ref) (replica_nodes : list ref)
    o f :
  NoDup (participant_ids f (master_node :: replica_nodes)) →
  a_participant_votes_no master_node replica_nodes o f = true →
  match outcome (TransferService._prepare_votes master_node replica_nodes
                   o f) with
  | Returned votes => ∃ node_id, votes !! node_id = Some NO
  | Raised _ => True
  end.
Proof.
  intros Hids Hno. unfold TransferService._prepare_votes. rewrite run_bind.
  unfold a_participant_votes_no in Hno. unfold time_time in *.
  by apply _prepare_loop_casts_no.
Qed.

(** C1 (2PC atomicity), with the side condition it needs.  Consider any
    call of [transfer], in any world and environment.  In each of these
    cases the call returns a result with [success = False], and the balance
    map of every node is what it was before the call:
    - the pre-checks fail;
    - the pre-checks pass, the participants (the master followed by the
      replicas) bear pairwise distinct identifiers, and a participant votes
      NO during the prepare phase, whatever the later turns do: vote YES or
      NO, time out, raise;
    - the pre-checks pass and the vote table the prepare phase ends with
      holds a NO;
    - the pre-checks pass and the prepare phase raises, by its timeout or
      otherwise.
    So every abort before the commit phase is balance-neutral. *)
Theorem transfer_abort_atomic (from_user to_user : string) (amount : Z)
    (master_node : ref) (replica_nodes : list ref) (strategy : string)
    (o : Oracle) (w : World) :
  let entry := transfer_entry from_user to_user amount o w in
  let checks := TransferService._pre_checks master_node entry.1 entry.2 in
  let prepare :=
    TransferService._prepare_votes master_node replica_nodes
      (oracle_after checks) (state_after checks) in
  outcome checks = Returned false ∨
  (outcome checks = Returned true ∧
   ((NoDup (participant_ids entry.2 (master_node :: replica_nodes)) ∧
     a_participant_votes_no master_node replica_nodes
       (oracle_after checks) (state_after checks) = true) ∨
    (∃ votes node_id,
       outcome prepare = Returned votes ∧ votes !! node_id = Some NO) ∨
    (∃ e, outcome prepare = Raised e))) →
  ∃ res o' w',
    TransferService.transfer from_user to_user amount master_node
      replica_nodes strategy o w = (Returned res, o', w') ∧
    res !! "success" = Some (V (SBool false)) ∧
    balances_kept w w'.
Proof.
  intros entry checks prepare Hcase.
  pose proof (_pre_checks_balances_kept master_node entry.1 entry.2) as Hk1.
  pose proof (_pre_checks_ids_kept master_node entry.1 entry.2) as Hi1.
  fold checks in Hk1, Hi1.
  rewrite transfer_run. fold entry. cbv zeta.
  unfold try_except, TransferService.transfer_try.
  rewrite run_bind. fold checks. rewrite (run_eta checks).
  destruct Hcase as [->|[-> Hprepare]]; cbn [negb].
  { destruct (_abort_transaction_aborts "Pre-checks failed"
                (oracle_after checks) (state_after checks))
      as (res & o' & f' & -> & Hres & Hk2).
    exists res, o', (world f'). split_and!; [done..|].
    change (frame_balances_kept entry.2 f'). by etrans. }
  pose proof (_prepare_votes_balances_kept master_node replica_nodes
    (oracle_after checks) (state_after checks)) as Hk2.
  fold prepare in Hk2.
  assert (Hfails :
    (∃ votes node_id,
       outcome prepare = Returned votes ∧ votes !! node_id = Some NO) ∨
    (∃ e, outcome prepare = Raised e)).
  { destruct Hprepare as [[Hids Hno]|Hfails]; [|done].
    pose proof (_prepare_votes_casts_no master_node replica_nodes
      (oracle_after checks) (state_after checks)) as Hcast.
    fold prepare in Hcast.
    destruct (outcome prepare) as [votes|e]; [left|right; by exists e].
    destruct Hcast as [node_id Hvote]; [|done|by exists votes, node_id].
    unfold participant_ids in *.
    erewrite list_fmap_ext; [exact Hids|]. intros i r _. apply Hi1. }
  unfold TransferService._prepare_phase.
  rewrite !run_bind. fold prepare. rewrite (run_eta prepare).
  destruct Hfails as [(votes & node_id & -> & Hno)|[e ->]].
  - rewrite bool_decide_eq_false_2; last first.
    { intros Hall. specialize (Hall node_id NO Hno). done. }
    cbv beta iota zeta delta [mret M_ret negb].
    destruct (_abort_transaction_aborts "Prepare phase failed"
                (oracle_after prepare) (state_after prepare))
      as (res & o' & f' & -> & Hres & Hk3).
    exists res, o', (world f'). split_and!; [done..|].
    change (frame_balances_kept entry.2 f'). etrans; [exact Hk1|]. by etrans.
  - destruct (transfer_except_aborts_kept e (oracle_after prepare)
                (state_after prepare))
      as (res & o' & f' & -> & Hres & Hk3).
    exists res, o', (world f'). split_and!; [done..|].
    change (frame_balances_kept entry.2 f'). etrans; [exact Hk1|]. by etrans.
Qed.

Lemma transfer_abort_atomic_witness :
  ∃ res o' w',
    TransferService.transfer "user_001" "user_002" 3000 Demo.dakar
      [Demo.saint_louis; Demo.ziguinchor] "CP" Demo.lossy Demo.world0
      = (Returned res, o', w') ∧
    res !! "success" = Some (V (SBool false)) ∧
    balances_kept Demo.world0 w'.
Proof.
  apply (transfer_abort_atomic "user_001" "user_002" 3000 Demo.dakar
           [Demo.saint_louis; Demo.ziguinchor] "CP" Demo.lossy Demo.world0).
  right. split; [vm_compute; reflexivity|].
  left. split; [|vm_compute; reflexivity].
  apply (bool_decide_unpack _). vm_compute. exact I.
Defined.

(** Without distinct identifiers the sentence fails: votes are filed under
    the identifier of the node, and a later vote under the same identifier
    replaces an earlier one.  Dakar is the master and is also listed as the
    one replica; the first PREPARE message is lost, so that the first turn
    files NO for DAKAR, the second one is delivered and files YES for DAKAR:
    the table is all YES, the transfer of 3000 commits, on the master and
    then on the replica, which is the master again, and the balance of
    user_001 on Dakar goes from 10000 to 4000. *)
Lemma overwritten_no_vote_commits :
  let entry :=
    transfer_entry "user_001" "user_002" 3000 Demo.flaky Demo.world0 in
  let checks := TransferService._pre_checks Demo.dakar entry.1 entry.2 in
  let prepare := TransferService._prepare_votes Demo.dakar [Demo.dakar]
                   (oracle_after checks) (state_after checks) in
  let run := TransferService.transfer "user_001" "user_002" 3000 Demo.dakar
               [Demo.dakar] "CP" Demo.flaky Demo.world0 in
  outcome checks = Returned true ∧
  a_participant_votes_no Demo.dakar [Demo.dakar]
    (oracle_after checks) (state_after checks) = true ∧
  outcome prepare = Returned {[ "DAKAR" := YES ]} ∧
  field "success" (outcome run) = Some (V (SBool true)) ∧
  Node.accounts (heap Demo.world0 Demo.dakar) !! "user_001" = Some 10000%Z ∧
  Node.accounts (heap (state_after run) Demo.dakar) !! "user_001"
    = Some 4000%Z ∧
  ¬ no_vote_freezes_balances.
Proof.
  intros entry checks prepare run.
  assert (Hchecks : outcome checks = Returned true) by (vm_compute; reflexivity).
  assert (Hno : a_participant_votes_no Demo.dakar [Demo.dakar]
                  (oracle_after checks) (state_after checks) = true)
    by (vm_compute; reflexivity).
  assert (Hafter : Node.accounts (heap (state_after run) Demo.dakar)
                     !! "user_001" = Some 4000%Z)
    by (vm_compute; reflexivity).
  split_and!; [done|done|vm_compute; reflexivity..|done|].
  intros Hclaim.
  specialize (Hclaim "user_001" "user_002" 3000%Z Demo.dakar [Demo.dakar] "CP"
                Demo.flaky Demo.world0 Hchecks Hno Demo.dakar).
  fold run in Hclaim. rewrite Hclaim in Hafter. vm_compute in Hafter.
  discriminate Hafter.
Qed.

(** * Further properties of the code

    Properties read off the methods that the sentences above leave out:
    the local store and cache of a node, the message layer, the partition
    simulator, the timeouts and the books of the transfer service, the
    payment paths, the two balance reads, the history, the adaptive
    strategy, and the collectors of metrics. *)

(** ** Percentages *)

Lemma percent_bounds (a b : nat) :
  (a ≤ b)%nat → (0 < b)%nat → (0 <= percent a b)%Q ∧ (percent a b <= 100)%Q.
Proof.
  intros Hab Hb. unfold percent.
  assert (H0 : (0 <= inject_Z (Z.of_nat a))%Q).
  { change 0%Q with (inject_Z 0). rewrite <- Zle_Qle. lia. }
  assert (H1 : (inject_Z (Z.of_nat a) <= inject_Z (Z.of_nat b))%Q).
  { rewrite <- Zle_Qle. lia. }
  assert (H2 : (0 < inject_Z (Z.of_nat b))%Q).
  { change 0%Q with (inject_Z 0). rewrite <- Zlt_Qlt. lia. }
  set (x := inject_Z (Z.of_nat a)) in *. set (y := inject_Z (Z.of_nat b)) in *.
  assert (Hq0 : (0 <= x / y)%Q).
  { apply Qle_shift_div_l; [done|]. by rewrite Qmult_0_l. }
  assert (Hq1 : (x / y <= 1)%Q).
  { apply Qle_shift_div_r; [done|]. by rewrite Qmult_1_l. }
  split; lra.
Qed.

(** ** The local store of a node *)

(** X1 (a write is read back).  After [set_balance(user, b)], a read of the
    balance of that user returns [b], with or without [from_cache] and
    whatever the cache held before: the write drops the cache entry of the
    user, so the read finds no entry and does not even consult the clock.
    The balances of the other users are untouched. *)
Lemma set_balance_then_get_balance (user_id : string) (b : Z)
    (from_cache : bool) (o : Oracle) (n : Node.t) :
  let run := (Node.set_balance user_id b;;
              Node.get_balance user_id from_cache) o n in
  outcome run = Returned (Some b) ∧
  oracle_after run = o ∧
  Node.cache (state_after run) = delete ("balance:" +:+ user_id) (Node.cache n) ∧
  (∀ other, other ≠ user_id →
     Node.accounts (state_after run) !! other = Node.accounts n !! other).
Proof.
  unfold Node.set_balance, Node.get_balance, Node._invalidate_cache,
    Node._get_from_cache.
  destruct from_cache; run; simpl_state.
  - rewrite lookup_delete_eq. run. simpl_state.
    rewrite lookup_insert_eq. destruct o. split_and!; try done.
    intros other Hne. by rewrite lookup_insert_ne.
  - rewrite lookup_insert_eq. destruct o. split_and!; try done.
    intros other Hne. by rewrite lookup_insert_ne.
Qed.

(** X2 (life of a cache entry).  An entry written by [_set_cache] at the
    instant [t] with a time-to-live [ttl] is returned by [_get_from_cache]
    exactly when the clock then reads strictly less than [t + ttl];
    otherwise the read returns [None] and removes the entry.  Other keys are
    untouched either way. *)
Lemma cache_entry_lives_until_expiry (key : string) (value : cached) (ttl : Q)
    (o : Oracle) (n : Node.t) :
  let run := (Node._set_cache key value ttl;; Node._get_from_cache key) o n in
  let expiry := (clock o 0 + ttl)%Q in
  let live := Qltb (clock o 1) expiry in
  outcome run = Returned (if live then Some value else None) ∧
  Node.cache (state_after run) !! key
    = (if live then Some (value, expiry) else None) ∧
  (∀ other, other ≠ key →
     Node.cache (state_after run) !! other = Node.cache n !! other).
Proof.
  unfold Node._set_cache, Node._get_from_cache. run. simpl_state.
  rewrite lookup_insert_eq. run. simpl_state.
  destruct (Qltb (clock o 1) (clock o 0 + ttl)); run; simpl_state.
  - rewrite lookup_insert_eq. split_and!; try done.
    intros other Hne. by rewrite lookup_insert_ne.
  - rewrite lookup_delete_eq. split_and!; try done.
    intros other Hne. rewrite lookup_delete_ne by done.
    by rewrite lookup_insert_ne.
Qed.

(** X3 (isolation is sticky).  Once [is_healthy] has seen a heartbeat older
    than three seconds it sets the state to Isolated, and a fresh heartbeat
    does not undo that: [update_heartbeat] only records the instant, so the
    next [is_healthy] still answers [False]. *)
Lemma stale_heartbeat_isolates_for_good (o : Oracle) (n : Node.t) :
  Qltb 3 (clock o 0 - Node.last_heartbeat n) = true →
  let run := (Node.is_healthy;; Node.update_heartbeat;; Node.is_healthy) o n in
  outcome run = Returned false ∧
  Node.state (state_after run) = ISOLATED ∧
  Node.last_heartbeat (state_after run) = clock o 1.
Proof.
  intros Hstale. unfold Node.is_healthy, Node.update_heartbeat.
  run. simpl_state. rewrite Hstale. run. simpl_state.
  destruct (Qltb 3 (clock o 2 - clock o 1)); run; simpl_state; done.
Qed.

Lemma stale_heartbeat_isolates_for_good_witness :
  let run := (Node.is_healthy;; Node.update_heartbeat;; Node.is_healthy)
               Demo.late (Demo.heap0 Demo.dakar) in
  outcome run = Returned false ∧
  Node.state (state_after run) = ISOLATED ∧
  Node.last_heartbeat (state_after run) = clock Demo.late 1.
Proof.
  apply (stale_heartbeat_isolates_for_good Demo.late (Demo.heap0 Demo.dakar)).
  vm_compute. reflexivity.
Defined.

(** X4 (the history is append-only).  [add_transaction] appends one entry,
    a copy of the given dictionary, each of its eleven fields as given,
    stamped with the identifier of the node and the instant; a database read
    of the history of a user right after returns what it returned before,
    followed by the new entry when the user is its sender or its
    recipient. *)
Lemma add_transaction_then_get_transactions (tx : TxDict) (user_id : string)
    (o : Oracle) (n : Node.t) :
  let mine := involves user_id in
  let run := (Node.add_transaction tx;; Node.get_transactions user_id false) o n in
  ∃ entry,
    outcome run = Returned (filter mine (Node.transactions n) ++ filter mine [entry])%list ∧
    Node.transactions (state_after run) = (Node.transactions n ++ [entry])%list ∧
    d_node_id entry = Some (Node.id n) ∧
    d_timestamp entry = Some (clock o 0) ∧
    d_transaction_id entry = d_transaction_id tx ∧
    d_type entry = d_type tx ∧
    d_from_user entry = d_from_user tx ∧
    d_to_user entry = d_to_user tx ∧
    d_amount entry = d_amount tx ∧
    d_currency entry = d_currency tx ∧
    d_status entry = d_status tx ∧
    d_created_at entry = d_created_at tx ∧
    d_completed_at entry = d_completed_at tx ∧
    d_error_message entry = d_error_message tx ∧
    d_metadata entry = d_metadata tx.
Proof.
  unfold Node.add_transaction, Node.get_transactions. run. simpl_state.
  eexists. split; [|split_and!; reflexivity].
  by rewrite filter_app.
Qed.

(** ** The message layer *)

(** X5 (delivery is decided by the loss draw alone).  [send_message] never
    raises.  It returns [None] exactly when the draw compared with the
    packet-loss rate falls below it; otherwise it returns a response with
    status "success", the payload it was given and the elapsed time.  The
    configured latency plays no part, not even an infinite one: a partition
    written into the latency table does not by itself stop a message. *)
Lemma send_message_delivery {P} (from_node to_node message_type : string)
    (payload : P) (o : Oracle) (s : NetworkSimulator.Net) :
  let run := NetworkSimulator.send_message from_node to_node message_type
               payload o s in
  let lost :=
    Qltb (loss_draw from_node to_node o * 100)
         (NetworkSimulator.packet_loss (NetworkSimulator.self s)) in
  outcome run =
    Returned (if lost then None
              else Some (mkResponse "success"
                           ((clock o 1 - clock o 0) * 1000)%Q payload)).
Proof.
  unfold NetworkSimulator.send_message, NetworkSimulator._get_latency,
    NetworkSimulator._is_packet_lost, NetworkSimulator._log_communication,
    loss_draw.
  run.
  destruct (bool_decide (from_node = to_node)); run; simpl_state;
    (destruct (Qltb _ _); run; [done|]).
  - done.
  - destruct (NetworkSimulator.scale_clamp _ _); run; done.
Qed.

(** X6 (one log entry per message).  Every call of [send_message] appends
    exactly one entry to the communication log; the entry names the sender,
    the recipient and the type, its success flag says whether a response was
    returned, and a loss is logged with latency 0 and the error
    "Packet lost".  The latency tables, the mode and the loss rate are
    untouched. *)
Lemma send_message_logs_one_entry {P} (from_node to_node message_type : string)
    (payload : P) (o : Oracle) (s : NetworkSimulator.Net) :
  let run := NetworkSimulator.send_message from_node to_node message_type
               payload o s in
  let s' := state_after run in
  ∃ entry,
    NetworkSimulator.communication_log (NetworkSimulator.self s')
      = (NetworkSimulator.communication_log (NetworkSimulator.self s) ++ [entry])%list ∧
    log_from entry = from_node ∧ log_to entry = to_node ∧
    log_type entry = message_type ∧
    log_success entry = delivered (outcome run) ∧
    log_error entry
      = (if delivered (outcome run) then None else Some "Packet lost") ∧
    (log_success entry = false → log_latency_ms entry = 0%Q) ∧
    NetworkSimulator.LATENCIES s' = NetworkSimulator.LATENCIES s ∧
    NetworkSimulator.mode (NetworkSimulator.self s')
      = NetworkSimulator.mode (NetworkSimulator.self s) ∧
    NetworkSimulator.latencies (NetworkSimulator.self s')
      = NetworkSimulator.latencies (NetworkSimulator.self s) ∧
    NetworkSimulator.packet_loss (NetworkSimulator.self s')
      = NetworkSimulator.packet_loss (NetworkSimulator.self s).
Proof.
  unfold NetworkSimulator.send_message, NetworkSimulator._get_latency,
    NetworkSimulator._is_packet_lost, NetworkSimulator._log_communication.
  run.
  destruct (bool_decide (from_node = to_node)); run; simpl_state;
    (destruct (Qltb _ _); run; simpl_state;
     [eexists; split_and!; try reflexivity; done|]).
  - eexists; split_and!; try reflexivity; done.
  - destruct (NetworkSimulator.scale_clamp _ _); run; simpl_state;
      eexists; split_and!; try reflexivity; done.
Qed.

Lemma _get_latency_same_node (a : string) (o : Oracle) (s : NetworkSimulator.Net) :
  NetworkSimulator._get_latency a a o s = (Returned (Finite 0), o, s).
Proof.
  unfold NetworkSimulator._get_latency.
  by rewrite bool_decide_eq_true_2.
Qed.

Lemma _get_latency_nonnegative (from_node to_node : string)
    (o : Oracle) (s : NetworkSimulator.Net) :
  match outcome (NetworkSimulator._get_latency from_node to_node o s) with
  | Returned (Finite ms) => (0 <= ms)%Q
  | Returned Infinite => True
  | Raised _ => False
  end.
Proof.
  unfold NetworkSimulator._get_latency.
  destruct (bool_decide (from_node = to_node)); run; [done|].
  destruct (default _ _) as [b|]; cbn [NetworkSimulator.scale_clamp].
  - apply Q.le_max_l.
  - by destruct (Qltb _ _).
Qed.

(** X7 (jitter of at most a fifth).  Between two distinct nodes whose link
    is configured with a finite, non-negative latency, [_get_latency]
    answers a latency between 80% and 120% of the configured one, for any
    draw of [random.random()] in the unit interval. *)
Lemma _get_latency_jitter (from_node to_node : string) (base : Q)
    (o : Oracle) (s : NetworkSimulator.Net) :
  from_node ≠ to_node →
  NetworkSimulator.latencies_dict s !! (from_node, to_node) = Some (Finite base) →
  (0 <= base)%Q →
  (0 <= random o 0)%Q → (random o 0 <= 1)%Q →
  ∃ ms,
    outcome (NetworkSimulator._get_latency from_node to_node o s)
      = Returned (Finite ms) ∧
    (base * (8 # 10) <= ms)%Q ∧ (ms <= base * (12 # 10))%Q.
Proof.
  intros Hne Hbase Hpos Hr0 Hr1.
  unfold NetworkSimulator._get_latency.
  rewrite bool_decide_eq_false_2 by done. run. rewrite Hbase.
  cbn [default NetworkSimulator.scale_clamp].
  eexists. split; [reflexivity|].
  set (r := random o 0) in *.
  set (factor := (1 + (- (2 # 10) + ((2 # 10) - - (2 # 10)) * r))%Q).
  assert (Hlo : (base * (8 # 10) <= base * factor)%Q) by (subst factor; nra).
  assert (Hhi : (base * factor <= base * (12 # 10))%Q) by (subst factor; nra).
  split.
  - eapply Qle_trans; [exact Hlo|]. apply Q.le_max_r.
  - apply Q.max_lub; [nra | exact Hhi].
Qed.

Lemma _get_latency_jitter_witness :
  ∃ ms,
    outcome (NetworkSimulator._get_latency "DAKAR" "SAINT_LOUIS" Demo.quiet
               (Demo.net0 normal)) = Returned (Finite ms) ∧
    (50 * (8 # 10) <= ms)%Q ∧ (ms <= 50 * (12 # 10))%Q.
Proof.
  apply (_get_latency_jitter "DAKAR" "SAINT_LOUIS" 50 Demo.quiet
           (Demo.net0 normal)).
  - done.
  - vm_compute. reflexivity.
  - vm_compute. discriminate.
  - vm_compute. discriminate.
  - vm_compute. discriminate.
Defined.



(** X9 (changing the mode does not heal).  A partition is written into the
    latency table of the mode that is current; leaving that mode with
    [set_mode] and coming back finds both directions still infinite.  The
    tables of the other modes are untouched, the loss rate is the one of the
    mode, and the log is kept. *)
Lemma partition_outlives_mode_switch (a b : string) (other : Mode)
    (o : Oracle) (s : NetworkSimulator.Net) :
  let current := NetworkSimulator.latencies (NetworkSimulator.self s) in
  let s' :=
    state_after
      ((NetworkSimulator.simulate_partition a b;;
        NetworkSimulator.set_mode other;;
        NetworkSimulator.set_mode current) o s) in
  NetworkSimulator.latencies_dict s' !! (a, b) = Some Infinite ∧
  NetworkSimulator.latencies_dict s' !! (b, a) = Some Infinite ∧
  (∀ m, m ≠ current →
     NetworkSimulator.LATENCIES s' m = NetworkSimulator.LATENCIES s m) ∧
  NetworkSimulator.packet_loss (NetworkSimulator.self s')
    = NetworkConfig.PACKET_LOSS current ∧
  NetworkSimulator.communication_log (NetworkSimulator.self s')
    = NetworkSimulator.communication_log (NetworkSimulator.self s).
Proof.
  destruct s as [L [md lt pl log]].
  unfold NetworkSimulator.simulate_partition, NetworkSimulator.set_mode,
    NetworkSimulator.latencies_setitem, NetworkSimulator.latencies_dict.
  run. simpl_state. split_and!; try done.
  - apply lookup_insert_Infinite, lookup_insert_eq.
  - apply lookup_insert_eq.
  - intros m Hne. by rewrite !fn_lookup_insert_ne.
Qed.

Lemma Qltb_lt (a b : Q) : Qltb a b = true ↔ (a < b)%Q.
Proof. unfold Qltb, Qlt. apply Z.ltb_lt. Qed.

Lemma Qltb_ge (a b : Q) : Qltb a b = false ↔ (b <= a)%Q.
Proof. unfold Qltb, Qle. rewrite Z.ltb_ge. done. Qed.

Lemma py_max_bounds (x : Q) (l : list Q) :
  (x <= py_max x l)%Q ∧ Forall (λ y, (y <= py_max x l)%Q) l.
Proof.
  unfold py_max. revert x. induction l as [|y l IH]; intros x; simpl.
  - split; [apply Qle_refl|constructor].
  - destruct (Qltb x y) eqn:Hxy.
    + apply Qltb_lt in Hxy. destruct (IH y) as [Hy Hl]. split_and!.
      * eapply Qle_trans; [apply Qlt_le_weak, Hxy|exact Hy].
      * by constructor.
    + apply Qltb_ge in Hxy. destruct (IH x) as [Hx Hl]. split; [done|].
      constructor; [|done]. by eapply Qle_trans.
Qed.

Lemma py_min_bounds (x : Q) (l : list Q) :
  (py_min x l <= x)%Q ∧ Forall (λ y, (py_min x l <= y)%Q) l.
Proof.
  unfold py_min. revert x. induction l as [|y l IH]; intros x; simpl.
  - split; [apply Qle_refl|constructor].
  - destruct (Qltb y x) eqn:Hxy.
    + apply Qltb_lt in Hxy. destruct (IH y) as [Hy Hl]. split_and!.
      * eapply Qle_trans; [exact Hy|apply Qlt_le_weak, Hxy].
      * by constructor.
    + apply Qltb_ge in Hxy. destruct (IH x) as [Hx Hl]. split; [done|].
      constructor; [|done]. by eapply Qle_trans.
Qed.

(** [max] and [min] return one of the floats they are given. *)
Lemma py_max_elem (x : Q) (l : list Q) : py_max x l ∈ x :: l.
Proof.
  unfold py_max. revert x. induction l as [|y l IH]; intros x; simpl.
  - apply list_elem_of_here.
  - destruct (Qltb x y).
    + apply list_elem_of_further, IH.
    + specialize (IH x). apply elem_of_cons in IH as [->|Hin].
      * apply list_elem_of_here.
      * by do 2 apply list_elem_of_further.
Qed.

Lemma py_min_elem (x : Q) (l : list Q) : py_min x l ∈ x :: l.
Proof.
  unfold py_min. revert x. induction l as [|y l IH]; intros x; simpl.
  - apply list_elem_of_here.
  - destruct (Qltb y x).
    + apply list_elem_of_further, IH.
    + specialize (IH x). apply elem_of_cons in IH as [->|Hin].
      * apply list_elem_of_here.
      * by do 2 apply list_elem_of_further.
Qed.

(** X10 (statistics of the log).  On a non-empty log, [get_statistics]
    reports as many messages as the log has entries, split into the
    successful ones, which are the entries logged as delivered, and the
    failed ones, and a success rate between 0 and 100.  As soon as one
    message got through, the minimal and the maximal latency it reports are
    latencies of delivered messages of the log, and the latency of every
    delivered message lies between them.  This holds whatever the rounding
    of the float sum and quotient, which only the average depends on; of
    the average nothing more is stated than that it is reported, as a
    float. *)
Theorem network_statistics_are_consistent (float_add float_div : Q → Q → Q)
    (o : Oracle) (s : NetworkSimulator.Net) :
  let log := NetworkSimulator.communication_log (NetworkSimulator.self s) in
  let got_through := filter (λ e, log_success e = true) log in
  let stats := outcome (NetworkSimulatorStatistics.get_statistics float_add
                          float_div o s) in
  log ≠ [] →
  (∃ total successful failed rate,
     field "total_messages" stats = Some (V (SInt total)) ∧
     field "successful" stats = Some (V (SInt successful)) ∧
     field "failed" stats = Some (V (SInt failed)) ∧
     field "success_rate" stats = Some (V (SFloat rate)) ∧
     total = Z.of_nat (length log) ∧
     successful = Z.of_nat (length got_through) ∧
     (successful + failed = total)%Z ∧ (0 ≤ successful)%Z ∧ (0 ≤ failed)%Z ∧
     (0 <= rate)%Q ∧ (rate <= 100)%Q) ∧
  (Exists (λ e, log_success e = true) log →
   ∃ lo avg hi,
     field "min_latency_ms" stats = Some (V (SFloat lo)) ∧
     field "avg_latency_ms" stats = Some (V (SFloat avg)) ∧
     field "max_latency_ms" stats = Some (V (SFloat hi)) ∧
     lo ∈ log_latency_ms <$> got_through ∧
     hi ∈ log_latency_ms <$> got_through ∧
     (∀ e, e ∈ got_through →
           (lo <= log_latency_ms e)%Q ∧ (log_latency_ms e <= hi)%Q)).
Proof.
  intros log got_through stats Hne. subst stats got_through.
  unfold NetworkSimulatorStatistics.get_statistics. run. fold log.
  destruct log as [|e0 rest] eqn:Hlog; [done|]. rewrite <- Hlog. clear Hne.
  run. set (got_through := filter (λ e, log_success e = true) log).
  assert (Hlen : (length got_through ≤ length log)%nat) by apply length_filter.
  assert (Hpos : (0 < length log)%nat) by (rewrite Hlog; simpl; lia).
  split.
  - rewrite bool_decide_eq_true_2 by done.
    eexists _, _, _, _. split_and!; try reflexivity; try lia.
    all: by apply percent_bounds.
  - intros Hex.
    destruct got_through as [|e1 ok] eqn:Hok.
    { apply Exists_exists in Hex as (e & Hin & He).
      assert (e ∈ got_through) by (by apply list_elem_of_filter).
      rewrite Hok in *. by apply not_elem_of_nil in H. }
    cbn [fmap list_fmap].
    destruct (py_max_bounds (log_latency_ms e1) (log_latency_ms <$> ok))
      as [Hhi1 Hhi].
    destruct (py_min_bounds (log_latency_ms e1) (log_latency_ms <$> ok))
      as [Hlo1 Hlo].
    eexists _, _, _. split_and!; try reflexivity.
    + apply py_min_elem.
    + apply py_max_elem.
    + rewrite Forall_forall in Hhi, Hlo.
      intros e [->|Hin]%elem_of_cons; [done|].
      split; [apply Hlo|apply Hhi]; by apply list_elem_of_fmap_2.
Qed.

Lemma network_statistics_are_consistent_witness :
  let log := NetworkSimulator.communication_log
               (NetworkSimulator.self Scenario.worn_net) in
  let got_through := filter (λ e, log_success e = true) log in
  let stats := outcome (NetworkSimulatorStatistics.get_statistics Qplus Qdiv Demo.quiet
                          Scenario.worn_net) in
  (∃ total successful failed rate,
     field "total_messages" stats = Some (V (SInt total)) ∧
     field "successful" stats = Some (V (SInt successful)) ∧
     field "failed" stats = Some (V (SInt failed)) ∧
     field "success_rate" stats = Some (V (SFloat rate)) ∧
     total = Z.of_nat (length log) ∧
     successful = Z.of_nat (length got_through) ∧
     (successful + failed = total)%Z ∧ (0 ≤ successful)%Z ∧ (0 ≤ failed)%Z ∧
     (0 <= rate)%Q ∧ (rate <= 100)%Q) ∧
  (Exists (λ e, log_success e = true) log →
   ∃ lo avg hi,
     field "min_latency_ms" stats = Some (V (SFloat lo)) ∧
     field "avg_latency_ms" stats = Some (V (SFloat avg)) ∧
     field "max_latency_ms" stats = Some (V (SFloat hi)) ∧
     lo ∈ log_latency_ms <$> got_through ∧
     hi ∈ log_latency_ms <$> got_through ∧
     (∀ e, e ∈ got_through →
           (lo <= log_latency_ms e)%Q ∧ (log_latency_ms e <= hi)%Q)).
Proof.
  apply (network_statistics_are_consistent Qplus Qdiv Demo.quiet Scenario.worn_net).
  vm_compute. discriminate.
Defined.

(** ** Creating a partition *)

(** X11 (a partition cuts both ways).  For two registered nodes,
    [create_partition] returns, marks each node as unable to reach the
    other, puts both into state Isolated, records the partition as active
    with its starting instant, sets the latency of the link to infinity in
    both directions, and changes no balance. *)
Lemma create_partition_cuts_both_ways (a b : string) (r1 r2 : ref)
    (o : Oracle) (w : World) :
  nodes (partition w) !! a = Some r1 →
  nodes (partition w) !! b = Some r2 →
  let run := PartitionSimulator.create_partition a b o w in
  let w' := state_after run in
  outcome run = Returned tt ∧
  Node.can_reach (heap w' r1) !! b = Some false ∧
  Node.can_reach (heap w' r2) !! a = Some false ∧
  Node.state (heap w' r1) = ISOLATED ∧
  Node.state (heap w' r2) = ISOLATED ∧
  partition_active (partition w') = true ∧
  partition_start_time (partition w') = Some (clock o 0) ∧
  NetworkSimulator.latencies_dict (net w') !! (a, b) = Some Infinite ∧
  NetworkSimulator.latencies_dict (net w') !! (b, a) = Some Infinite ∧
  balances_kept w w'.
Proof.
  intros Ha Hb run w'. subst w' run.
  unfold PartitionSimulator.create_partition, PartitionSimulator.nodes_getitem,
    PartitionSimulator.can_reach_setitem, NetworkSimulator.simulate_partition,
    NetworkSimulator.latencies_setitem, NetworkSimulator.latencies_dict.
  run. simpl_state. rewrite Ha. run. simpl_state. rewrite Hb. run. simpl_state.
  assert (Hlook : ∀ (m : gmap string bool) x y,
            <[x:=false]> (<[y:=false]> m) !! y = Some false).
  { intros m x y. destruct (decide (x = y)) as [->|?].
    - apply lookup_insert_eq.
    - rewrite lookup_insert_ne by done. apply lookup_insert_eq. }
  destruct (decide (r1 = r2)) as [->|Hne];
    [ simpl_state
    | repeat first [ rewrite fn_lookup_insert
                   | rewrite fn_lookup_insert_ne by done
                   | progress simpl_state ] ];
    split_and!; try done; try apply lookup_insert_eq; try apply Hlook;
    try (apply lookup_insert_Infinite, lookup_insert_eq).
  all: intros r; simpl_state.
  all: repeat (match goal with
       | |- context [(<[?k := _]> _) ?r] =>
           destruct (decide (k = r)) as [<-|?];
           [rewrite fn_lookup_insert | rewrite fn_lookup_insert_ne by done];
           simpl_state
       end); done.
Qed.

Lemma create_partition_cuts_both_ways_witness :
  let run := PartitionSimulator.create_partition "DAKAR" "ZIGUINCHOR"
               Demo.quiet Demo.world0 in
  let w' := state_after run in
  outcome run = Returned tt ∧
  Node.can_reach (heap w' Demo.dakar) !! "ZIGUINCHOR" = Some false ∧
  Node.can_reach (heap w' Demo.ziguinchor) !! "DAKAR" = Some false ∧
  Node.state (heap w' Demo.dakar) = ISOLATED ∧
  Node.state (heap w' Demo.ziguinchor) = ISOLATED ∧
  partition_active (partition w') = true ∧
  partition_start_time (partition w') = Some (clock Demo.quiet 0) ∧
  NetworkSimulator.latencies_dict (net w') !! ("DAKAR", "ZIGUINCHOR")
    = Some Infinite ∧
  NetworkSimulator.latencies_dict (net w') !! ("ZIGUINCHOR", "DAKAR")
    = Some Infinite ∧
  balances_kept Demo.world0 w'.
Proof.
  apply (create_partition_cuts_both_ways "DAKAR" "ZIGUINCHOR" Demo.dakar
           Demo.ziguinchor Demo.quiet Demo.world0); vm_compute; reflexivity.
Defined.

(** X12 (partition with an unknown node).  When one of the two identifiers
    is not registered, [create_partition] raises [KeyError] for it, and by
    then the network has been changed already: the latency of the link is
    infinite in both directions, although no node and no flag of the
    simulator has been touched. *)
Lemma create_partition_unknown_node (a b : string) (o : Oracle) (w : World) :
  nodes (partition w) !! a = None ∨ nodes (partition w) !! b = None →
  let run := PartitionSimulator.create_partition a b o w in
  let w' := state_after run in
  (∃ k, outcome run = Raised (KeyError k) ∧
        nodes (partition w) !! k = None ∧ (k = a ∨ k = b)) ∧
  NetworkSimulator.latencies_dict (net w') !! (a, b) = Some Infinite ∧
  NetworkSimulator.latencies_dict (net w') !! (b, a) = Some Infinite ∧
  heap w' = heap w ∧
  partition w' = partition w.
Proof.
  intros Hmissing run w'. subst w' run.
  unfold PartitionSimulator.create_partition, PartitionSimulator.nodes_getitem,
    NetworkSimulator.simulate_partition,
    NetworkSimulator.latencies_setitem, NetworkSimulator.latencies_dict.
  run. simpl_state.
  destruct (nodes (partition w) !! a) as [r1|] eqn:Ha; run; simpl_state.
  - destruct Hmissing as [?|Hb]; [done|]. rewrite Hb. run. simpl_state.
    split_and!; try done; [by eauto| |apply lookup_insert_eq].
    apply lookup_insert_Infinite, lookup_insert_eq.
  - split_and!; try done; [by eauto| |apply lookup_insert_eq].
    apply lookup_insert_Infinite, lookup_insert_eq.
Qed.

Lemma create_partition_unknown_node_witness :
  let run := PartitionSimulator.create_partition "DAKAR" "THIES"
               Demo.quiet Demo.world0 in
  let w' := state_after run in
  (∃ k, outcome run = Raised (KeyError k) ∧
        nodes (partition Demo.world0) !! k = None ∧
        (k = "DAKAR" ∨ k = "THIES")) ∧
  NetworkSimulator.latencies_dict (net w') !! ("DAKAR", "THIES") = Some Infinite ∧
  NetworkSimulator.latencies_dict (net w') !! ("THIES", "DAKAR") = Some Infinite ∧
  heap w' = heap Demo.world0 ∧
  partition w' = partition Demo.world0.
Proof.
  apply (create_partition_unknown_node "DAKAR" "THIES" Demo.quiet Demo.world0).
  right. vm_compute. reflexivity.
Defined.

(** ** Transfers: ledgers, health and timeouts *)

Lemma transfer_success_postcondition_witness :
  let run := TransferService.transfer "user_001" "user_002" 3000 Demo.dakar
               [Demo.saint_louis; Demo.ziguinchor] "CP" Demo.quiet
               Demo.world0 in
  let d := match outcome run with Returned d => d | Raised _ => ∅ end in
  ∃ bf bt,
    Node.accounts (heap Demo.world0 Demo.dakar) !! "user_001" = Some bf ∧
    Node.accounts (heap Demo.world0 Demo.dakar) !! "user_002" = Some bt ∧
    Node.accounts (heap (state_after run) Demo.dakar) =
      <["user_002" := (bt + 3000)%Z]>
        (<["user_001" := (bf - 3000)%Z]>
           (Node.accounts (heap Demo.world0 Demo.dakar))) ∧
    d !! "transaction_id" = Some (V (SStr ("TX_" +:+ uuid4 Demo.quiet 0))) ∧
    d !! "new_balance_from" = Some (V (SInt (bf - 3000))) ∧
    d !! "new_balance_to" = Some (V (SInt (bt + 3000))).
Proof.
  apply (transfer_success_postcondition "user_001" "user_002" 3000 Demo.dakar
           [Demo.saint_louis; Demo.ziguinchor] "CP" Demo.quiet Demo.world0).
  - done.
  - apply (bool_decide_unpack _). vm_compute. exact I.
  - vm_compute. reflexivity.
  - vm_compute. reflexivity.
Defined.

#[export] Instance books_kept_preorder : PreOrder books_kept.
Proof.
  split; [by intros f | intros f1 f2 f3 (?&?&?) (?&?&?)].
  unfold books_kept. split_and!; congruence.
Qed.

Lemma on_node_books_kept {A} (node : ref) (m : M Node.t A) :
  preserves books_kept (in_world (on_node node m)).
Proof.
  intros o f. unfold in_world, on_node, zoom.
  by destruct (m o (heap (world f) node)) as [[r o1] n1].
Qed.

Lemma on_network_books_kept {A} (m : M NetworkSimulator.Net A) :
  preserves books_kept (in_world (on_network m)).
Proof.
  intros o f. unfold in_world, on_network, zoom.
  by destruct (m o (net (world f))) as [[r o1] n1].
Qed.

Lemma mark_prepared_books_kept :
  preserves books_kept (on_transaction Transaction.mark_prepared).
Proof. by intros o f. Qed.

#[export] Hint Resolve on_node_books_kept on_network_books_kept
  mark_prepared_books_kept : frame.

Lemma _pre_checks_books_kept master_node :
  preserves books_kept (TransferService._pre_checks master_node).
Proof. unfold TransferService._pre_checks. frame. Qed.

Lemma _prepare_loop_books_kept timeout start_time master_node participants votes :
  preserves books_kept
    (TransferService._prepare_loop timeout start_time master_node participants votes).
Proof.
  revert votes. induction participants as [|node rest IH]; intros votes; simpl.
  - frame.
  - unfold TransferService._prepare_vote, TransferService._can_node_prepare.
    frame.
Qed.

Lemma _prepare_phase_books_kept master_node replica_nodes :
  preserves books_kept (TransferService._prepare_phase master_node replica_nodes).
Proof.
  unfold TransferService._prepare_phase, TransferService._prepare_votes. frame.
  apply _prepare_loop_books_kept.
Qed.

Lemma _commit_loop_books_kept timeout start_time master_node from_balance
    to_balance replica_nodes :
  preserves books_kept
    (TransferService._commit_loop timeout start_time master_node from_balance
       to_balance replica_nodes).
Proof.
  induction replica_nodes as [|node rest IH]; simpl.
  - frame.
  - unfold TransferService._commit_on_replica. frame.
Qed.

Lemma _commit_phase_books_kept master_node replica_nodes :
  preserves books_kept (TransferService._commit_phase master_node replica_nodes).
Proof.
  unfold TransferService._commit_phase. frame.
  apply _commit_loop_books_kept.
Qed.

Lemma _abort_transaction_files reason o f f0 :
  books_kept f0 f →
  ∃ res o' f',
    TransferService._abort_transaction reason o f = (Returned res, o', f') ∧
    filed (Transaction.transaction_id (the_transaction f0))
      (transfer (world f0)) res (transfer (world f')).
Proof.
  intros (Ht & _ & Hid). rewrite <- Hid, <- Ht.
  unfold TransferService._abort_transaction, Transaction.mark_aborted.
  run. simpl_state. eexists _, _, _. split; [reflexivity|]. simpl_state.
  exists (Transaction.set_completed_at (Some (clock o 0))
            (Transaction.set_error_message (Some reason)
               (Transaction.set_status ABORTED (the_transaction f)))).
  simpl_state. split_and!; [done | done | by eexists | done |].
  right. split_and!; try done. by exists reason.
Qed.

Lemma transfer_except_files e o f f0 :
  books_kept f0 f →
  ∃ res o' f',
    TransferService.transfer_except e o f = (Returned res, o', f') ∧
    filed (Transaction.transaction_id (the_transaction f0))
      (transfer (world f0)) res (transfer (world f')).
Proof.
  intros Hk. unfold TransferService.transfer_except.
  destruct (is_TimeoutError e); by apply _abort_transaction_files.
Qed.

(** X14 (every transfer is filed).  [transfer] never raises: whatever
    happens in its three phases, it returns a result carrying the
    identifier of the transaction, and the transaction record, with its
    completion instant, has been filed under that identifier in exactly one
    ledger: in [committed_transactions] with status Committed when the
    result is a success, in [aborted_transactions] with status Aborted and
    the reported error otherwise.  The other ledgers are untouched. *)
Theorem transfer_files_its_outcome (from_user to_user : string) (amount : Z)
    (master_node : ref) (replica_nodes : list ref) (strategy : string)
    (o : Oracle) (w : World) :
  let run := TransferService.transfer from_user to_user amount master_node
               replica_nodes strategy o w in
  ∃ res,
    outcome run = Returned res ∧
    filed ("TX_" +:+ uuid4 o 0) (transfer w) res (transfer (state_after run)).
Proof.
  intros run. subst run. rewrite transfer_run. cbv zeta.
  set (entry := transfer_entry from_user to_user amount o w).
  change (transfer w) with (transfer (world entry.2)).
  change ("TX_" +:+ uuid4 o 0)
    with (Transaction.transaction_id (the_transaction entry.2)).
  unfold try_except, TransferService.transfer_try.
  rewrite run_bind.
  pose proof (_pre_checks_books_kept master_node entry.1 entry.2) as Hk1.
  destruct (TransferService._pre_checks master_node entry.1 entry.2)
    as [[[ok|e] o1] f1]; simpl in Hk1.
  2: { destruct (transfer_except_files e o1 f1 _ Hk1) as (res & o' & f' & -> & Hres).
       by exists res. }
  destruct ok; cbn [negb].
  2: { destruct (_abort_transaction_files "Pre-checks failed" o1 f1 _ Hk1)
         as (res & o' & f' & -> & Hres). by exists res. }
  rewrite run_bind.
  pose proof (_prepare_phase_books_kept master_node replica_nodes o1 f1) as Hk2.
  destruct (TransferService._prepare_phase master_node replica_nodes o1 f1)
    as [[[ok|e] o2] f2]; simpl in Hk2.
  all: assert (Hk12 : books_kept entry.2 f2) by (by etrans).
  2: { destruct (transfer_except_files e o2 f2 _ Hk12) as (res & o' & f' & -> & Hres).
       by exists res. }
  destruct ok; cbn [negb].
  2: { destruct (_abort_transaction_files "Prepare phase failed" o2 f2 _ Hk12)
         as (res & o' & f' & -> & Hres). by exists res. }
  rewrite run_bind.
  pose proof (_commit_phase_books_kept master_node replica_nodes o2 f2) as Hk3.
  destruct (TransferService._commit_phase master_node replica_nodes o2 f2)
    as [[[ok|e] o3] f3]; simpl in Hk3.
  all: assert (Hk13 : books_kept entry.2 f3) by (by etrans).
  2: { destruct (transfer_except_files e o3 f3 _ Hk13) as (res & o' & f' & -> & Hres).
       by exists res. }
  destruct ok; cbn [negb].
  2: { destruct (_abort_transaction_files "Commit phase failed" o3 f3 _ Hk13)
         as (res & o' & f' & -> & Hres). by exists res. }
  destruct Hk13 as (Ht & _ & Hid). rewrite <- Hid, <- Ht.
  unfold Transaction.mark_committed, Node.get_balance.
  run. simpl_state.
  eexists; split; [reflexivity|].
  exists (Transaction.set_completed_at (Some (clock o3 1))
            (Transaction.set_status COMMITTED (the_transaction f3))).
  simpl_state. split_and!; [by rewrite Hid | done | by eexists | done |].
  left. rewrite Hid. split_and!; done.
Qed.

#[export] Instance state_kept_preorder : PreOrder state_kept.
Proof.
  split; [by intros n | intros n1 n2 n3 H12 H23].
  unfold state_kept in *. congruence.
Qed.

#[export] Instance states_kept_preorder : PreOrder states_kept.
Proof.
  split; [by intros f r | intros f1 f2 f3 H12 H23 r].
  by rewrite H23, H12.
Qed.

Lemma on_node_states_kept {A} (node : ref) (m : M Node.t A) :
  preserves state_kept m → preserves states_kept (in_world (on_node node m)).
Proof.
  intros Hm o f. unfold in_world, on_node, zoom.
  specialize (Hm o (heap (world f) node)).
  destruct (m o (heap (world f) node)) as [[r o1] n1]. simpl in *.
  intros r'. simpl. destruct (decide (node = r')) as [<-|Hne].
  - by rewrite fn_lookup_insert.
  - by rewrite fn_lookup_insert_ne.
Qed.

Lemma get_balance_state_kept user_id from_cache :
  preserves state_kept (Node.get_balance user_id from_cache).
Proof.
  unfold Node.get_balance, Node._get_from_cache. frame.
  all: by apply preserves_modify.
Qed.

#[export] Hint Resolve on_node_states_kept get_balance_state_kept : frame.

Lemma _pre_checks_states_kept master_node :
  preserves states_kept (TransferService._pre_checks master_node).
Proof. unfold TransferService._pre_checks. frame. Qed.

(** A participant that is not in state Healthy votes NO, whether or not
    the PREPARE message reaches it. *)
Lemma unhealthy_node_votes_no (master_node node : ref) (o : Oracle) (f : Frame) :
  Node.state (heap (world f) node) ≠ HEALTHY →
  ∃ o' f',
    TransferService._prepare_vote master_node node o f
      = (Returned (Node.id (heap (world f) node), NO), o', f').
Proof.
  intros Hstate.
  unfold TransferService._prepare_vote, TransferService._can_node_prepare,
    Node.is_healthy.
  run.
  destruct (send_message_returns
              (Node.id (heap (world f) master_node))
              (Node.id (heap (world f) node)) "prepare"
              ({[ "transaction_id" :=
                    SStr (Transaction.transaction_id (the_transaction f)) ]}
               : gmap string scalar) o (net (world f)))
    as (resp & o1 & n1 & ->).
  destruct resp as [resp|]; run; simpl_state; [|by eauto].
  destruct (Qltb 3 _); run; simpl_state; [by eauto|].
  rewrite bool_decide_eq_false_2 by done. run. by eauto.
Qed.

Lemma _prepare_phase_unhealthy_master (master_node : ref)
    (replica_nodes : list ref) (o : Oracle) (f : Frame) :
  Node.state (heap (world f) master_node) ≠ HEALTHY →
  Node.id (heap (world f) master_node) ∉ participant_ids f replica_nodes →
  outcome (TransferService._prepare_phase master_node replica_nodes o f)
    ≠ Returned true.
Proof.
  intros Hstate Hnotin.
  unfold TransferService._prepare_phase, TransferService._prepare_votes.
  cbn [app TransferService._prepare_loop]. run.
  destruct (Qltb _ _); run; [done|].
  match goal with
  | |- context [TransferService._prepare_vote ?m ?n ?o1 ?f1] =>
      pose proof (_prepare_vote_ids_kept m n o1 f1) as Hids;
      destruct (unhealthy_node_votes_no m n o1 f1 Hstate) as (o2 & f2 & Hvote);
      rewrite Hvote in Hids |- *
  end.
  simpl in Hids. run.
  match goal with
  | |- context [TransferService._prepare_loop ?t ?s ?m ?l ?v ?o1 ?f1] =>
      destruct (TransferService._prepare_loop t s m l v o1 f1)
        as [[[final|e] o3] f3] eqn:Hloop
  end; [|done].
  apply (_prepare_loop_other_keys _ _ _ _ _ _ _ _ _ _
           (Node.id (heap (world f) master_node))) in Hloop.
  - rewrite lookup_insert_eq in Hloop.
    rewrite bool_decide_eq_false_2; [by run|].
    intros Hall. by specialize (Hall _ _ Hloop).
  - unfold participant_ids in *.
    erewrite list_fmap_ext; [exact Hnotin|]. intros i r _. apply Hids.
Qed.

(** X15 (no transfer while the master is unhealthy).  The master is the
    first participant of the prepare phase.  While its state is not
    Healthy, as after a partition between it and any one replica, and as
    long as no replica bears its identifier, every transfer, from whatever
    node it is requested, returns a failure and changes no balance. *)
Theorem no_transfer_while_master_unhealthy (from_user to_user : string)
    (amount : Z) (master_node : ref) (replica_nodes : list ref)
    (strategy : string) (o : Oracle) (w : World) :
  Node.state (heap w master_node) ≠ HEALTHY →
  Node.id (heap w master_node)
    ∉ ((λ r, Node.id (heap w r)) <$> replica_nodes) →
  let run := TransferService.transfer from_user to_user amount master_node
               replica_nodes strategy o w in
  ∃ res,
    outcome run = Returned res ∧
    res !! "success" = Some (V (SBool false)) ∧
    balances_kept w (state_after run).
Proof.
  intros Hstate Hnotin run. subst run. rewrite transfer_run. cbv zeta.
  set (entry := transfer_entry from_user to_user amount o w).
  unfold try_except, TransferService.transfer_try.
  rewrite run_bind.
  pose proof (_pre_checks_balances_kept master_node entry.1 entry.2) as Hk1.
  pose proof (_pre_checks_states_kept master_node entry.1 entry.2) as Hs1.
  pose proof (_pre_checks_ids_kept master_node entry.1 entry.2) as Hi1.
  destruct (TransferService._pre_checks master_node entry.1 entry.2)
    as [[[ok|e] o1] f1]; simpl in Hk1, Hs1, Hi1.
  2: { destruct (transfer_except_aborts_kept e o1 f1)
         as (res & o' & f' & -> & Hres & Hk).
       exists res. split_and!; [done..|].
       change (frame_balances_kept entry.2 f'). by etrans. }
  destruct ok; cbn [negb].
  2: { destruct (_abort_transaction_aborts "Pre-checks failed" o1 f1)
         as (res & o' & f' & -> & Hres & Hk).
       exists res. split_and!; [done..|].
       change (frame_balances_kept entry.2 f'). by etrans. }
  rewrite run_bind.
  pose proof (_prepare_phase_balances_kept master_node replica_nodes o1 f1) as Hk2.
  pose proof (_prepare_phase_unhealthy_master master_node replica_nodes o1 f1)
    as Hno.
  destruct (TransferService._prepare_phase master_node replica_nodes o1 f1)
    as [[[ok|e] o2] f2]; simpl in Hk2, Hno.
  2: { destruct (transfer_except_aborts_kept e o2 f2)
         as (res & o' & f' & -> & Hres & Hk).
       exists res. split_and!; [done..|].
       change (frame_balances_kept entry.2 f').
       etrans; [exact Hk1|]. by etrans. }
  destruct ok; cbn [negb].
  { exfalso. apply Hno; [by rewrite Hs1| |done].
    unfold participant_ids.
    erewrite list_fmap_ext; [rewrite Hi1; exact Hnotin|].
    intros i r _. apply Hi1. }
  destruct (_abort_transaction_aborts "Prepare phase failed" o2 f2)
    as (res & o' & f' & -> & Hres & Hk).
  exists res. split_and!; [done..|].
  change (frame_balances_kept entry.2 f').
  etrans; [exact Hk1|]. by etrans.
Qed.

Lemma no_transfer_while_master_unhealthy_witness :
  ∃ res,
    outcome (TransferService.transfer "user_001" "user_002" 2000 Demo.dakar
               [Demo.saint_louis; Demo.ziguinchor] "CP" Demo.quiet
               Demo.partitioned_world) = Returned res ∧
    res !! "success" = Some (V (SBool false)) ∧
    balances_kept Demo.partitioned_world
      (state_after
         (TransferService.transfer "user_001" "user_002" 2000 Demo.dakar
            [Demo.saint_louis; Demo.ziguinchor] "CP" Demo.quiet
            Demo.partitioned_world)).
Proof.
  apply (no_transfer_while_master_unhealthy "user_001" "user_002" 2000
           Demo.dakar [Demo.saint_louis; Demo.ziguinchor] "CP" Demo.quiet
           Demo.partitioned_world).
  - vm_compute. discriminate.
  - apply (bool_decide_unpack _). vm_compute. exact I.
Defined.

Lemma _pre_checks_reads_only (master_node : ref) (o : Oracle) (f : Frame) :
  ∃ ok f1,
    TransferService._pre_checks master_node o f = (Returned ok, o, f1) ∧
    net (world f1) = net (world f) ∧
    the_transaction f1 = the_transaction f.
Proof.
  unfold TransferService._pre_checks, Node.get_balance. run. simpl_state.
  destruct (Node.accounts (heap (world f) master_node)
              !! Transaction.from_user (the_transaction f)) as [bf|]; run;
    [|by eexists _, _].
  destruct (bool_decide (bf < Transaction.amount (the_transaction f))%Z);
    run; [by eexists _, _|]. simpl_state.
  destruct (Node.accounts (heap (world f) master_node)
              !! Transaction.to_user (the_transaction f)) as [bt|];
    run; by eexists _, _.
Qed.

(** X16 (timeout of the prepare phase).  When the pre-checks pass and more
    than five seconds separate the start of the prepare phase from the turn
    of its first participant, the transfer is aborted with the error
    "Timeout: Prepare phase timeout": no message has been sent and no
    balance has changed. *)
Theorem prepare_timeout_aborts (from_user to_user : string) (amount : Z)
    (master_node : ref) (replica_nodes : list ref) (strategy : string)
    (o : Oracle) (w : World) :
  let entry := transfer_entry from_user to_user amount o w in
  outcome (TransferService._pre_checks master_node entry.1 entry.2)
    = Returned true →
  Qltb (NetworkConfig.TIMEOUTS_transfer / 1000) (clock o 3 - clock o 2) = true →
  let run := TransferService.transfer from_user to_user amount master_node
               replica_nodes strategy o w in
  field "success" (outcome run) = Some (V (SBool false)) ∧
  field "error" (outcome run)
    = Some (V (SStr "Timeout: Prepare phase timeout")) ∧
  balances_kept w (state_after run) ∧
  net (state_after run) = net w.
Proof.
  intros entry Hchecks Hlate run. subst run.
  rewrite transfer_run. fold entry. cbv zeta.
  unfold try_except, TransferService.transfer_try.
  rewrite run_bind.
  pose proof (_pre_checks_balances_kept master_node entry.1 entry.2) as Hk1.
  destruct (_pre_checks_reads_only master_node entry.1 entry.2)
    as (ok & f1 & Hrun & Hnet & Htx).
  rewrite Hrun in Hchecks, Hk1 |- *. simpl in Hk1.
  injection Hchecks as ->. cbn [negb].
  unfold TransferService._prepare_phase, TransferService._prepare_votes.
  cbn [app TransferService._prepare_loop]. subst entry. unfold transfer_entry.
  run. simpl_state. cbn [Nat.add]. rewrite Hlate. run.
  unfold TransferService.transfer_except. cbn [is_TimeoutError exn_str].
  unfold TransferService._abort_transaction, Transaction.mark_aborted.
  run. simpl_state.
  split_and!; [done|done| |done].
  intros r. apply (Hk1 r).
Qed.

Lemma prepare_timeout_aborts_witness :
  let run := TransferService.transfer "user_001" "user_002" 3000 Demo.dakar
               [Demo.saint_louis; Demo.ziguinchor] "CP" Scenario.slow
               Demo.world0 in
  field "success" (outcome run) = Some (V (SBool false)) ∧
  field "error" (outcome run)
    = Some (V (SStr "Timeout: Prepare phase timeout")) ∧
  balances_kept Demo.world0 (state_after run) ∧
  net (state_after run) = net Demo.world0.
Proof.
  apply (prepare_timeout_aborts "user_001" "user_002" 3000 Demo.dakar
           [Demo.saint_louis; Demo.ziguinchor] "CP" Scenario.slow
           Demo.world0); vm_compute; reflexivity.
Defined.

(** X17 (timeout of the commit phase).  The commit phase applies the
    transfer on the master first.  When its deadline of five seconds has
    passed by the turn of the first replica, it stops replicating and still
    answers [True]: the master holds the new balances, every other node is
    exactly as before, and no message has been sent. *)
Theorem commit_timeout_skips_replicas (master_node : ref)
    (replica_nodes : list ref) (o : Oracle) (f : Frame) (bf bt : Z) :
  let transaction := the_transaction f in
  let accounts := Node.accounts (heap (world f) master_node) in
  accounts !! Transaction.from_user transaction = Some bf →
  accounts !! Transaction.to_user transaction = Some bt →
  Qltb (NetworkConfig.TIMEOUTS_transfer / 1000) (clock o 2 - clock o 0) = true →
  let run := TransferService._commit_phase master_node replica_nodes o f in
  let f' := state_after run in
  outcome run = Returned true ∧
  Node.accounts (heap (world f') master_node) =
    <[Transaction.to_user transaction := (bt + Transaction.amount transaction)%Z]>
      (<[Transaction.from_user transaction :=
           (bf - Transaction.amount transaction)%Z]> accounts) ∧
  (∀ r, r ≠ master_node → heap (world f') r = heap (world f) r) ∧
  net (world f') = net (world f).
Proof.
  intros transaction accounts Hfrom Hto Hlate run f'.
  subst f' run transaction accounts.
  unfold TransferService._commit_phase, Node.get_balance, Node.set_balance,
    Node._invalidate_cache, Node.add_transaction.
  run. simpl_state. rewrite Hfrom. run. simpl_state. rewrite Hto. run.
  simpl_state.
  destruct replica_nodes as [|node rest]; cbn [TransferService._commit_loop];
    run; simpl_state; rewrite ?Hlate; run; simpl_state.
  all: split_and!; try done.
  all: intros r Hne; by rewrite !fn_lookup_insert_ne.
Qed.

Lemma commit_timeout_skips_replicas_witness :
  let run := TransferService._commit_phase Demo.dakar
               [Demo.saint_louis; Demo.ziguinchor] Scenario.slow
               Demo.healthy_frame in
  let f' := state_after run in
  outcome run = Returned true ∧
  Node.accounts (heap (world f') Demo.dakar) =
    <["user_002" := (5000 + 2000)%Z]>
      (<["user_001" := (10000 - 2000)%Z]>
         (Node.accounts (heap (world Demo.healthy_frame) Demo.dakar))) ∧
  (∀ r, r ≠ Demo.dakar → heap (world f') r = heap (world Demo.healthy_frame) r) ∧
  net (world f') = net (world Demo.healthy_frame).
Proof.
  apply (commit_timeout_skips_replicas Demo.dakar
           [Demo.saint_louis; Demo.ziguinchor] Scenario.slow
           Demo.healthy_frame 10000 5000); vm_compute; reflexivity.
Defined.

(** ** Bill payments *)

(** X18 (insufficient balance).  A payment by a user who has no account on
    the master, or less than the amount, fails with the error
    "Insufficient balance" and a record marked Failed, before anything is
    touched: no balance and no history changes, no message is sent and the
    provider is not called. *)
Theorem pay_bill_insufficient_balance (user_id provider : string) (amount : Z)
    (master_node : ref) (replica_nodes : list ref) (strategy : string)
    (o : Oracle) (w : World) :
  match Node.accounts (heap w master_node) !! user_id with
  | Some balance => (balance < amount)%Z
  | None => True
  end →
  let run := PaymentService.pay_bill_traced user_id provider amount
               master_node replica_nodes strategy o w in
  (∃ d transaction,
     outcome run = Returned (d, transaction) ∧
     d !! "success" = Some (V (SBool false)) ∧
     d !! "error" = Some (V (SStr "Insufficient balance")) ∧
     Transaction.status transaction = FAILED) ∧
  balances_kept w (state_after run) ∧
  net (state_after run) = net w ∧
  random (oracle_after run) = random o ∧
  (∀ r, Node.transactions (heap (state_after run) r)
          = Node.transactions (heap w r)).
Proof.
  intros Hlow run. subst run.
  unfold PaymentService.pay_bill_traced, PaymentService.incr_payment_count,
    Transaction.new, Node.get_balance, PaymentService._fail_payment,
    PaymentService.incr_failed_count, Transaction.mark_failed.
  run. simpl_state.
  assert (Hcond : match Node.accounts (heap w master_node) !! user_id with
                  | Some balance => bool_decide (balance < amount)%Z
                  | None => true
                  end = true).
  { destruct (Node.accounts (heap w master_node) !! user_id); [|done].
    by apply bool_decide_eq_true_2. }
  rewrite Hcond. run. simpl_state.
  split_and!; try done.
  - eexists _, _. split_and!; reflexivity.
  - intros r. simpl_state.
    destruct (decide (master_node = r)) as [<-|Hne].
    + by simpl_state.
    + by rewrite fn_lookup_insert_ne.
  - intros r. simpl_state.
    destruct (decide (master_node = r)) as [<-|Hne].
    + by simpl_state.
    + by rewrite fn_lookup_insert_ne.
Qed.

Lemma pay_bill_insufficient_balance_witness :
  let run := PaymentService.pay_bill_traced "user_002" "SENELEC" 6000
               Demo.dakar [Demo.saint_louis; Demo.ziguinchor] "CP"
               Demo.quiet Demo.world0 in
  (∃ d transaction,
     outcome run = Returned (d, transaction) ∧
     d !! "success" = Some (V (SBool false)) ∧
     d !! "error" = Some (V (SStr "Insufficient balance")) ∧
     Transaction.status transaction = FAILED) ∧
  balances_kept Demo.world0 (state_after run) ∧
  net (state_after run) = net Demo.world0 ∧
  random (oracle_after run) = random Demo.quiet ∧
  (∀ r, Node.transactions (heap (state_after run) r)
          = Node.transactions (heap Demo.world0 r)).
Proof.
  apply (pay_bill_insufficient_balance "user_002" "SENELEC" 6000
           Demo.dakar [Demo.saint_louis; Demo.ziguinchor] "CP"
           Demo.quiet Demo.world0).
  vm_compute. reflexivity.
Defined.

(** X20 (small adaptive payment).  Outside strategy 'CP', a payment below
    5000 that the balance covers is accepted at once with status "pending":
    the master debits the user, the record is marked Committed and tagged
    [queued].  Nothing else happens: the provider is not called, no message
    is sent, no other node changes, and the payment enters no history, not
    even the one of the master. *)
Theorem adaptive_small_payment_debits_master_only (user_id provider : string)
    (amount balance : Z) (master_node : ref) (replica_nodes : list ref)
    (strategy : string) (o : Oracle) (w : World) :
  strategy ≠ "CP" →
  (amount < 5000)%Z →
  Node.accounts (heap w master_node) !! user_id = Some balance →
  (amount ≤ balance)%Z →
  let run := PaymentService.pay_bill_traced user_id provider amount
               master_node replica_nodes strategy o w in
  let w' := state_after run in
  (∃ d transaction,
     outcome run = Returned (d, transaction) ∧
     d !! "success" = Some (V (SBool true)) ∧
     d !! "status" = Some (V (SStr "pending")) ∧
     d !! "new_balance" = Some (V (SInt (balance - amount))) ∧
     Transaction.status transaction = COMMITTED ∧
     Transaction.metadata transaction !! "queued" = Some (SBool true)) ∧
  Node.accounts (heap w' master_node)
    = <[user_id := (balance - amount)%Z]> (Node.accounts (heap w master_node)) ∧
  (∀ r, r ≠ master_node → heap w' r = heap w r) ∧
  (∀ r, Node.transactions (heap w' r) = Node.transactions (heap w r)) ∧
  net w' = net w ∧
  random (oracle_after run) = random o.
Proof.
  intros Hstrategy Hsmall Hbal Hle run w'. subst w' run.
  unfold PaymentService.pay_bill_traced, PaymentService.incr_payment_count,
    PaymentService._pay_bill_adaptive, PaymentService.incr_success_count,
    Transaction.new, Transaction.mark_committed, Node.get_balance,
    Node.set_balance, Node._invalidate_cache.
  run. simpl_state. rewrite Hbal.
  rewrite bool_decide_eq_false_2 by lia.
  rewrite (bool_decide_eq_false_2 (strategy = "CP")) by done.
  run. simpl_state. rewrite bool_decide_eq_true_2 by done.
  run. simpl_state. rewrite Hbal. run. simpl_state.
  rewrite lookup_insert_eq.
  split_and!; try done.
  - eexists _, _. split_and!; reflexivity.
  - intros r Hne. by rewrite !fn_lookup_insert_ne.
  - intros r. destruct (decide (master_node = r)) as [<-|Hne].
    + by simpl_state.
    + by rewrite !fn_lookup_insert_ne.
Qed.

Lemma adaptive_small_payment_debits_master_only_witness :
  let run := PaymentService.pay_bill_traced "user_001" "Orange" 2000
               Demo.dakar [Demo.saint_louis; Demo.ziguinchor] "ADAPTIVE"
               Demo.quiet Demo.world0 in
  let w' := state_after run in
  (∃ d transaction,
     outcome run = Returned (d, transaction) ∧
     d !! "success" = Some (V (SBool true)) ∧
     d !! "status" = Some (V (SStr "pending")) ∧
     d !! "new_balance" = Some (V (SInt (10000 - 2000))) ∧
     Transaction.status transaction = COMMITTED ∧
     Transaction.metadata transaction !! "queued" = Some (SBool true)) ∧
  Node.accounts (heap w' Demo.dakar)
    = <["user_001" := (10000 - 2000)%Z]>
        (Node.accounts (heap Demo.world0 Demo.dakar)) ∧
  (∀ r, r ≠ Demo.dakar → heap w' r = heap Demo.world0 r) ∧
  (∀ r, Node.transactions (heap w' r)
          = Node.transactions (heap Demo.world0 r)) ∧
  net w' = net Demo.world0 ∧
  random (oracle_after run) = random Demo.quiet.
Proof.
  apply (adaptive_small_payment_debits_master_only "user_001" "Orange" 2000
           10000 Demo.dakar [Demo.saint_louis; Demo.ziguinchor] "ADAPTIVE"
           Demo.quiet Demo.world0); [done | lia | vm_compute; reflexivity | lia].
Defined.

Lemma _replicate_loop_books_kept master_node replica_nodes :
  preserves books_kept (PaymentService._replicate_loop master_node replica_nodes).
Proof.
  induction replica_nodes as [|node rest IH]; simpl.
  - frame.
  - frame.
Qed.

Lemma _fail_payment_counts reason start_time o f :
  ∃ res o' f',
    PaymentService._fail_payment reason start_time o f = (Returned res, o', f') ∧
    counted (payment (world f)) res (the_transaction f') (payment (world f')).
Proof.
  unfold PaymentService._fail_payment, PaymentService.incr_failed_count,
    Transaction.mark_failed.
  run. simpl_state. eexists _, _, _. split; [reflexivity|]. simpl_state.
  split; [done|]. right. split_and!; try done. by exists reason.
Qed.

Lemma _pay_bill_cp_strict_counts master_node replica_nodes start_time o f :
  counted_or_raised f
    (PaymentService._pay_bill_cp_strict master_node replica_nodes start_time o f).
Proof.
  unfold PaymentService._pay_bill_cp_strict, PaymentService._call_provider_api,
    Node.get_balance, Node.set_balance, Node._invalidate_cache,
    Node.add_transaction.
  run. simpl_state.
  destruct (Node.accounts (heap (world f) master_node)
              !! Transaction.from_user (the_transaction f)) as [b|];
    run; simpl_state; [|done].
  destruct (Qltb (5 # 100) (random o 0)); run; cbn [negb pr_success];
    run; simpl_state.
  - match goal with
    | |- context [PaymentService._replicate_loop ?m ?l ?o1 ?f1] =>
        pose proof (_replicate_loop_books_kept m l o1 f1) as Hk;
        destruct (PaymentService._replicate_loop m l o1 f1)
          as [[[[]|e] o2] f2]
    end; simpl in Hk; destruct Hk as (_ & Hpay & _); simpl in Hpay.
    + unfold Transaction.mark_committed, PaymentService.incr_success_count.
      run. simpl_state. rewrite Hpay. split; [done|]. left.
      split_and!; done.
    + exact Hpay.
  - match goal with
    | |- context [PaymentService._fail_payment ?r ?s ?o1 ?f1] =>
        destruct (_fail_payment_counts r s o1 f1) as (res & o' & f' & -> & Hc)
    end.
    exact Hc.
Qed.

Lemma _pay_bill_adaptive_counts master_node replica_nodes start_time o f :
  counted_or_raised f
    (PaymentService._pay_bill_adaptive master_node replica_nodes start_time o f).
Proof.
  unfold PaymentService._pay_bill_adaptive. run.
  destruct (bool_decide _); [|apply _pay_bill_cp_strict_counts].
  unfold Node.get_balance, Node.set_balance, Node._invalidate_cache,
    Transaction.mark_committed, PaymentService.incr_success_count.
  run. simpl_state.
  destruct (Node.accounts (heap (world f) master_node)
              !! Transaction.from_user (the_transaction f)) as [b|];
    run; simpl_state; [|done].
  split; [done|]. left. split_and!; done.
Qed.

(** X19 (every payment is counted once).  [pay_bill] never raises.  It
    counts the payment, and then counts it once more either as a success or
    as a failure, in agreement with the result it returns and with the
    status of the record (Committed, or Failed with the reported error).
    Hence, if successes and failures added up to the number of payments
    before the call, they do so after it, and the success rate that
    [get_statistics] reports is a percentage. *)
Theorem pay_bill_counts_every_payment (user_id provider : string) (amount : Z)
    (master_node : ref) (replica_nodes : list ref) (strategy : string)
    (o : Oracle) (w : World) :
  let run := PaymentService.pay_bill_traced user_id provider amount
               master_node replica_nodes strategy o w in
  let w' := state_after run in
  (∃ res tx,
     outcome run = Returned (res, tx) ∧ settled (payment w) res tx (payment w')) ∧
  payment_count (payment w') = S (payment_count (payment w)) ∧
  (payment_books_ok (payment w) →
   payment_books_ok (payment w') ∧
   ∃ rate,
     field "success_rate"
       (outcome (PaymentService.get_statistics (oracle_after run) w'))
       = Some (V (SFloat rate)) ∧
     (0 <= rate)%Q ∧ (rate <= 100)%Q).
Proof.
  intros run w'.
  assert (Hrun : ∃ res tx,
            outcome run = Returned (res, tx) ∧
            counted
              (mkPaymentService (S (payment_count (payment w)))
                 (success_count (payment w)) (failed_count (payment w)))
              res tx (payment w')).
  { subst w' run.
    unfold PaymentService.pay_bill_traced, PaymentService.incr_payment_count,
      Transaction.new, Node.get_balance.
    run. simpl_state.
    match goal with
    | |- context [counted ?p _ _ _] =>
        match goal with
        | |- context [_ ?o1 (mkFrame ?w1 ?t1)] =>
            set (o0 := o1); set (f1 := mkFrame w1 t1);
            change p with (payment (world f1))
        end
    end.
    match goal with
    | |- context [(if ?c then ?a else ?b) o0 f1] =>
        set (body := if c then a else b)
    end.
    assert (Hbody : counted_or_raised f1 (body o0 f1)).
    { subst body.
      destruct (match Node.accounts (heap w master_node) !! user_id with
                | Some balance => bool_decide (balance < amount)%Z
                | None => true
                end).
      - destruct (_fail_payment_counts "Insufficient balance" (clock o 1) o0 f1)
          as (res & o' & f' & -> & Hc). exact Hc.
      - destruct (bool_decide (strategy = "CP")).
        + apply _pay_bill_cp_strict_counts.
        + apply _pay_bill_adaptive_counts. }
    destruct (body o0 f1) as [[[res|e] o2] f2]; simpl in Hbody.
    - by eexists _, _.
    - destruct (_fail_payment_counts (exn_str e) (clock o 1) o2 f2)
        as (res & o' & f' & -> & Hc).
      eexists _, _. split; [reflexivity|]. rewrite Hbody in Hc. exact Hc. }
  destruct Hrun as (res & tx & Hout & Hcount & Hsettled).
  simpl in Hcount.
  split_and!.
  - by exists res, tx.
  - done.
  - unfold payment_books_ok. intros Hok.
    assert (Hok' : (success_count (payment w') + failed_count (payment w')
                    = payment_count (payment w'))%nat).
    { destruct Hsettled as [(_ & _ & Hs & Hf)|(_ & _ & _ & Hf & Hs)];
        simpl in Hs, Hf; lia. }
    split; [done|].
    unfold PaymentService.get_statistics. run.
    rewrite bool_decide_eq_true_2 by lia.
    eexists. split; [reflexivity|]. apply percent_bounds; lia.
Qed.

Lemma _replicate_loop_master_kept (master_node : ref) (replica_nodes : list ref) :
  master_node ∉ replica_nodes →
  preserves (node_accounts_kept master_node)
    (PaymentService._replicate_loop master_node replica_nodes).
Proof.
  induction replica_nodes as [|node rest IH]; intros Hnotin; simpl.
  - frame.
  - apply not_elem_of_cons in Hnotin as [Hne Hrest].
    frame.
Qed.

(** X21 (a successful payment debits the master by the amount).  Whatever
    the strategy, when [pay_bill] reports a success and the master is not
    also listed as a replica, the user had an account on the master that
    covered the amount, the master now holds exactly that balance minus the
    amount, and the result reports it as [new_balance]. *)
Theorem pay_bill_success_postcondition (user_id provider : string) (amount : Z)
    (master_node : ref) (replica_nodes : list ref) (strategy : string)
    (o : Oracle) (w : World) :
  master_node ∉ replica_nodes →
  let run := PaymentService.pay_bill user_id provider amount master_node
               replica_nodes strategy o w in
  field "success" (outcome run) = Some (V (SBool true)) →
  ∃ balance,
    Node.accounts (heap w master_node) !! user_id = Some balance ∧
    (amount ≤ balance)%Z ∧
    Node.accounts (heap (state_after run) master_node)
      = <[user_id := (balance - amount)%Z]> (Node.accounts (heap w master_node)) ∧
    field "new_balance" (outcome run) = Some (V (SInt (balance - amount))).
Proof.
  intros Hnotin run. subst run.
  unfold PaymentService.pay_bill, PaymentService.pay_bill_traced,
    PaymentService.incr_payment_count, Transaction.new.
  unfold Node.get_balance. run. simpl_state.
  destruct (Node.accounts (heap w master_node) !! user_id) as [b|] eqn:Hbal.
  2: { unfold PaymentService._fail_payment. run. done. }
  destruct (bool_decide_reflect (b < amount)%Z) as [Hlt|Hge].
  { unfold PaymentService._fail_payment. run. done. }
  assert (Hstrict : ∀ o0 f0,
    Node.accounts (heap (world f0) master_node) = Node.accounts (heap w master_node) →
    Transaction.from_user (the_transaction f0) = user_id →
    Transaction.amount (the_transaction f0) = amount →
    let body :=
      try_except
        (PaymentService._pay_bill_cp_strict master_node replica_nodes (clock o 1))
        (λ e, PaymentService._fail_payment (exn_str e) (clock o 1)) o0 f0 in
    field "success" (outcome body) = Some (V (SBool true)) →
    Node.accounts (heap (world (state_after body)) master_node)
      = <[user_id := (b - amount)%Z]> (Node.accounts (heap w master_node)) ∧
    field "new_balance" (outcome body) = Some (V (SInt (b - amount)))).
  { intros o0 f0 Hacc Huser Hamount body. subst body.
    unfold PaymentService._pay_bill_cp_strict, PaymentService._call_provider_api.
    unfold Node.get_balance, Node.set_balance, Node._invalidate_cache,
      Node.add_transaction.
    run. simpl_state. rewrite Hacc, Huser, Hamount, Hbal. run. simpl_state.
    destruct (Qltb (5 # 100) (random o0 0)); run; cbn [negb pr_success];
      run; simpl_state.
    2: { unfold PaymentService._fail_payment. run. done. }
    match goal with
    | |- context [PaymentService._replicate_loop ?m ?l ?o1 ?f1] =>
        pose proof (_replicate_loop_master_kept m l Hnotin o1 f1) as Hk;
        destruct (PaymentService._replicate_loop m l o1 f1)
          as [[[[]|e] o2] f2]
    end; unfold node_accounts_kept in Hk; simpl in Hk.
    2: { unfold PaymentService._fail_payment. run. done. }
    unfold Transaction.mark_committed, PaymentService.incr_success_count.
    run. simpl_state. rewrite Hk. rewrite fn_lookup_insert. simpl_state.
    rewrite Hacc, lookup_insert_eq. done. }
  destruct (bool_decide (strategy = "CP")).
  - match goal with
    | |- context [PaymentService._pay_bill_cp_strict ?m ?l ?s ?o0 ?f0] =>
        specialize (Hstrict o0 f0)
    end.
    simpl in Hstrict. rewrite fn_lookup_insert in Hstrict.
    specialize (Hstrict eq_refl eq_refl eq_refl).
    revert Hstrict. unfold try_except. run.
    destruct (PaymentService._pay_bill_cp_strict _ _ _ _ _)
      as [[[res|e] o2] f2]; simpl.
    + intros Hs Hres. destruct (Hs Hres) as [? ?]. exists b.
      split_and!; [done|lia|done..].
    + unfold PaymentService._fail_payment. run. done.
  - unfold PaymentService._pay_bill_adaptive. run. simpl_state.
    destruct (bool_decide (amount < 5000)%Z).
    + unfold Node.get_balance, Node.set_balance, Node._invalidate_cache,
        Transaction.mark_committed, PaymentService.incr_success_count.
      run. simpl_state. rewrite Hbal. run. simpl_state.
      rewrite lookup_insert_eq. intros _. exists b.
      split_and!; [done|lia|done..].
    + match goal with
      | |- context [PaymentService._pay_bill_cp_strict ?m ?l ?s ?o0 ?f0] =>
          specialize (Hstrict o0 f0)
      end.
      simpl in Hstrict. rewrite fn_lookup_insert in Hstrict.
      specialize (Hstrict eq_refl eq_refl eq_refl).
      revert Hstrict. unfold try_except. run.
      destruct (PaymentService._pay_bill_cp_strict _ _ _ _ _)
        as [[[res|e] o2] f2]; simpl.
      * intros Hs Hres. destruct (Hs Hres) as [? ?]. exists b.
        split_and!; [done|lia|done..].
      * unfold PaymentService._fail_payment. run. done.
Qed.

Lemma pay_bill_success_postcondition_witness :
  let run := PaymentService.pay_bill "user_001" "SENELEC" 6000 Demo.dakar
               [Demo.saint_louis; Demo.ziguinchor] "CP" Demo.quiet
               Demo.world0 in
  ∃ balance,
    Node.accounts (heap Demo.world0 Demo.dakar) !! "user_001" = Some balance ∧
    (6000 ≤ balance)%Z ∧
    Node.accounts (heap (state_after run) Demo.dakar)
      = <["user_001" := (balance - 6000)%Z]>
          (Node.accounts (heap Demo.world0 Demo.dakar)) ∧
    field "new_balance" (outcome run) = Some (V (SInt (balance - 6000))).
Proof.
  apply (pay_bill_success_postcondition "user_001" "SENELEC" 6000 Demo.dakar
           [Demo.saint_louis; Demo.ziguinchor] "CP" Demo.quiet Demo.world0).
  - apply (bool_decide_unpack _). vm_compute. exact I.
  - vm_compute. reflexivity.
Defined.

(** X22 (a failed replication keeps the debit).  In a strict payment that
    the provider has accepted, replication to a replica that received the
    message but has no account for the user raises; [pay_bill] then reports
    a failure and marks the record Failed, while the debit on the master
    stays. *)
Theorem failed_replication_keeps_the_debit (user_id provider : string)
    (amount balance : Z) (master_node node : ref) (rest : list ref)
    (o : Oracle) (w : World) :
  Node.accounts (heap w master_node) !! user_id = Some balance →
  (amount ≤ balance)%Z →
  Qltb (5 # 100) (random o 0) = true →
  never_lost o w →
  node ≠ master_node →
  Node.accounts (heap w node) !! user_id = None →
  let run := PaymentService.pay_bill_traced user_id provider amount
               master_node (node :: rest) "CP" o w in
  (∃ d transaction,
     outcome run = Returned (d, transaction) ∧
     d !! "success" = Some (V (SBool false)) ∧
     Transaction.status transaction = FAILED) ∧
  Node.accounts (heap (state_after run) master_node) !! user_id
    = Some (balance - amount)%Z ∧
  failed_count (payment (state_after run)) = S (failed_count (payment w)).
Proof.
  intros Hbal Hle Hprovider Hnet Hne Hmissing run. subst run.
  unfold PaymentService.pay_bill_traced, PaymentService.incr_payment_count,
    PaymentService._pay_bill_cp_strict, PaymentService._call_provider_api,
    Transaction.new.
  cbn [PaymentService._replicate_loop].
  unfold PaymentService._fail_payment, PaymentService.incr_failed_count,
    Transaction.mark_failed,
    NetworkSimulator.send_message, NetworkSimulator._get_latency,
    NetworkSimulator._is_packet_lost, NetworkSimulator._log_communication,
    Node.get_balance, Node.set_balance, Node._invalidate_cache,
    Node.add_transaction.
  run. simpl_state. rewrite Hbal.
  rewrite bool_decide_eq_false_2 by lia.
  rewrite bool_decide_eq_true_2 by done.
  run. simpl_state. rewrite Hbal. run. simpl_state. rewrite Hprovider. run.
  cbn [negb pr_success]. run. simpl_state.
  rewrite !(fn_lookup_insert_ne _ _ _ _ (not_eq_sym Hne)).
  destruct (bool_decide (Node.id (heap w master_node) = Node.id (heap w node)));
    run; simpl_state.
  - rewrite (Hnet 1%nat). run. simpl_state.
    rewrite !(fn_lookup_insert_ne _ _ _ _ (not_eq_sym Hne)).
    simpl_state. rewrite Hmissing. run. simpl_state.
    rewrite fn_lookup_insert_ne by done. rewrite fn_lookup_insert. simpl_state.
    split_and!; [|apply lookup_insert_eq|done].
    eexists _, _. split_and!; reflexivity.
  - rewrite (Hnet 2%nat).
    destruct (NetworkSimulator.scale_clamp _ _); run; simpl_state.
    all: rewrite !(fn_lookup_insert_ne _ _ _ _ (not_eq_sym Hne)).
    all: simpl_state; rewrite Hmissing; run; simpl_state.
    all: rewrite fn_lookup_insert_ne by done; rewrite fn_lookup_insert; simpl_state.
    all: split_and!; [|apply lookup_insert_eq|done].
    all: eexists _, _; split_and!; reflexivity.
Qed.

Lemma failed_replication_keeps_the_debit_witness :
  let run := PaymentService.pay_bill_traced "user_001" "SENELEC" 6000
               Demo.dakar [Demo.saint_louis; Demo.ziguinchor] "CP"
               Demo.quiet Scenario.sparse_world in
  (∃ d transaction,
     outcome run = Returned (d, transaction) ∧
     d !! "success" = Some (V (SBool false)) ∧
     Transaction.status transaction = FAILED) ∧
  Node.accounts (heap (state_after run) Demo.dakar) !! "user_001"
    = Some (10000 - 6000)%Z ∧
  failed_count (payment (state_after run))
    = S (failed_count (payment Scenario.sparse_world)).
Proof.
  apply (failed_replication_keeps_the_debit "user_001" "SENELEC" 6000 10000
           Demo.dakar Demo.saint_louis [Demo.ziguinchor] Demo.quiet
           Scenario.sparse_world).
  - vm_compute. reflexivity.
  - lia.
  - vm_compute. reflexivity.
  - intros k. vm_compute. reflexivity.
  - done.
  - vm_compute. reflexivity.
Defined.

(** ** Balance reads *)

Lemma send_message_cases {P} (from_node to_node message_type : string)
    (payload : P) (o : Oracle) (s : NetworkSimulator.Net) :
  ∃ o' s',
    NetworkSimulator.send_message from_node to_node message_type payload o s
    = (Returned
         (if Qltb (loss_draw from_node to_node o * 100)
                  (NetworkSimulator.packet_loss (NetworkSimulator.self s))
          then None
          else Some (mkResponse "success"
                       ((clock o 1 - clock o 0) * 1000)%Q payload)),
       o', s').
Proof.
  unfold NetworkSimulator.send_message, NetworkSimulator._get_latency,
    NetworkSimulator._is_packet_lost, NetworkSimulator._log_communication,
    loss_draw.
  run.
  destruct (bool_decide (from_node = to_node)); run; simpl_state;
    (destruct (Qltb _ _); run; [by eexists _, _|]).
  - by eexists _, _.
  - destruct (NetworkSimulator.scale_clamp _ _); run; by eexists _, _.
Qed.

(** X23 (a CP read answers from the master).  A balance read with a
    strategy other than 'AP' succeeds exactly when the node can reach the
    master, the query message is not lost and the master has an account for
    the user; it then returns the balance held by the master, tagged
    "guaranteed_accurate", whatever the node itself holds.  An unreachable
    master or a lost message gives "Service temporarily unavailable"; no
    message is sent to a master that cannot be reached.  No balance and no
    cache changes, and the cache counters are not touched. *)
Theorem cp_read_answers_from_master (user_id strategy : string)
    (node master_node : ref) (o : Oracle) (w : World) :
  strategy ≠ "AP" →
  let run := BalanceService.get_balance user_id node (Some master_node)
               strategy o w in
  let w' := state_after run in
  let reachable := Node.can_reach_master (heap w node) (heap w master_node) in
  let lost :=
    Qltb (loss_draw (Node.id (heap w node)) (Node.id (heap w master_node)) o * 100)
         (NetworkSimulator.packet_loss (NetworkSimulator.self (net w))) in
  (reachable && negb lost = true →
     match Node.accounts (heap w master_node) !! user_id with
     | Some b =>
         field "success" (outcome run) = Some (V (SBool true)) ∧
         field "balance" (outcome run) = Some (V (SInt b)) ∧
         field "source" (outcome run) = Some (V (SStr "master")) ∧
         field "freshness" (outcome run) = Some (V (SStr "guaranteed_accurate"))
     | None =>
         field "success" (outcome run) = Some (V (SBool false)) ∧
         field "error" (outcome run) = Some (V (SStr "Account not found"))
     end) ∧
  (reachable && negb lost = false →
     field "success" (outcome run) = Some (V (SBool false)) ∧
     field "error" (outcome run)
       = Some (V (SStr "Service temporarily unavailable"))) ∧
  (reachable = false → net w' = net w) ∧
  (∀ r, Node.accounts (heap w' r) = Node.accounts (heap w r) ∧
        Node.cache (heap w' r) = Node.cache (heap w r)) ∧
  cache_hits (balance w') = cache_hits (balance w) ∧
  cache_misses (balance w') = cache_misses (balance w).
Proof.
  intros Hcp run. subst run.
  unfold BalanceService.get_balance, BalanceService.incr_query_count,
    BalanceService._get_balance_cp.
  run. rewrite bool_decide_eq_false_2 by done. run. simpl_state.
  destruct (Node.can_reach_master (heap w node) (heap w master_node));
    cbn [negb andb]; run; simpl_state.
  2: { split_and!; done. }
  match goal with
  | |- context [NetworkSimulator.send_message ?a ?b ?c ?d ?o1 ?n1] =>
      destruct (send_message_cases a b c d o1 n1) as (o2 & n2 & ->)
  end.
  unfold loss_draw. simpl_state.
  destruct (Qltb _ _); cbn [negb]; run; simpl_state.
  { split_and!; done. }
  unfold Node.get_balance. run. simpl_state.
  destruct (Node.accounts (heap w master_node) !! user_id) as [b|];
    run; simpl_state.
  all: split_and!; try done.
  all: intros r; destruct (decide (master_node = r)) as [<-|Hne];
    [by simpl_state | by rewrite fn_lookup_insert_ne].
Qed.

Lemma cp_read_answers_from_master_witness :
  let run := BalanceService.get_balance "user_001" Demo.saint_louis
               (Some Demo.dakar) "CP" Demo.quiet Demo.stale_world in
  field "success" (outcome run) = Some (V (SBool true)) ∧
  field "balance" (outcome run) = Some (V (SInt 10000)) ∧
  field "source" (outcome run) = Some (V (SStr "master")) ∧
  field "freshness" (outcome run) = Some (V (SStr "guaranteed_accurate")).
Proof.
  apply (cp_read_answers_from_master "user_001" "CP" Demo.saint_louis
           Demo.dakar Demo.quiet Demo.stale_world); [done|].
  vm_compute. reflexivity.
Defined.

(** X24 (an AP read is local).  A balance read with strategy 'AP' sends no
    message and draws no random number; it touches no node but the one it is
    asked on, leaves the balances of that node alone, and writes no cache
    entry: every entry found in the cache afterwards was there before. *)
Theorem ap_read_is_local (user_id : string) (node : ref)
    (master_node : option ref) (o : Oracle) (w : World) :
  let run := BalanceService.get_balance user_id node master_node "AP" o w in
  let w' := state_after run in
  net w' = net w ∧
  (∀ r, r ≠ node → heap w' r = heap w r) ∧
  Node.accounts (heap w' node) = Node.accounts (heap w node) ∧
  (∀ key entry,
     Node.cache (heap w' node) !! key = Some entry →
     Node.cache (heap w node) !! key = Some entry) ∧
  random (oracle_after run) = random o.
Proof.
  intros run w'. subst w' run.
  unfold BalanceService.get_balance, BalanceService.incr_query_count,
    BalanceService._get_balance_ap, BalanceService.incr_cache_hits,
    BalanceService.incr_cache_misses, Node.get_balance, Node._get_from_cache,
    Node._set_cache.
  run. rewrite bool_decide_eq_true_2 by done. run. simpl_state.
  destruct (Node.cache (heap w node) !! ("balance:" +:+ user_id))
    as [[[b|txs] expiry]|] eqn:Hslot; run; simpl_state.
  1,2: destruct (Qltb (clock o 1) expiry); run; simpl_state.
  all: try (destruct (Node.accounts (heap w node) !! user_id) as [b'|] eqn:Hacc;
            run; simpl_state; rewrite ?Hacc; run; simpl_state).
  all: split_and!; try done.
  all: try (intros r Hne; by rewrite !fn_lookup_insert_ne).
  all: intros key entry; rewrite lookup_delete_Some; by intros [_ ?].
Qed.

(** X25 (the read counters stay consistent).  Every balance read counts
    one query and at most one cache hit or miss.  Hence, if hits and misses
    did not exceed the number of queries before the call, they do not after
    it, and the cache hit rate that [get_statistics] reports is a
    percentage. *)
Theorem balance_statistics_stay_consistent (user_id strategy : string)
    (node : ref) (master_node : option ref) (o : Oracle) (w : World) :
  balance_books_ok (balance w) →
  let run := BalanceService.get_balance user_id node master_node strategy o w in
  let w' := state_after run in
  query_count (balance w') = S (query_count (balance w)) ∧
  balance_books_ok (balance w') ∧
  ∃ rate,
    field "cache_hit_rate"
      (outcome (BalanceService.get_statistics (oracle_after run) w'))
      = Some (V (SFloat rate)) ∧
    (0 <= rate)%Q ∧ (rate <= 100)%Q.
Proof.
  intros Hok run w'.
  assert (Hcount : query_count (balance w') = S (query_count (balance w)) ∧
                   (cache_hits (balance w') + cache_misses (balance w')
                    ≤ S (cache_hits (balance w) + cache_misses (balance w)))%nat).
  { subst w' run.
    unfold BalanceService.get_balance, BalanceService.incr_query_count,
      BalanceService._get_balance_ap, BalanceService._get_balance_cp,
      BalanceService.incr_cache_hits,
      BalanceService.incr_cache_misses, Node.get_balance, Node._get_from_cache,
      Node._set_cache.
    run. destruct (bool_decide (strategy = "AP")); run; simpl_state.
    - destruct (Node.cache (heap w node) !! ("balance:" +:+ user_id))
        as [[[b|txs] expiry]|] eqn:Hslot; run; simpl_state.
      1,2: destruct (Qltb (clock o 1) expiry); run; simpl_state.
      all: try (destruct (Node.accounts (heap w node) !! user_id) as [b'|] eqn:Hacc;
                run; simpl_state; rewrite ?Hacc; run; simpl_state).
      all: split; [done|lia].
    - destruct master_node as [master_node|]; run; simpl_state; [|split; [done|lia]].
      destruct (Node.can_reach_master _ _); cbn [negb]; run; simpl_state;
        [|split; [done|lia]].
      destruct (NetworkSimulator.send_message _ _ _ _ _ _)
        as [[[[resp|]|e] o2] n2]; run; simpl_state.
      + destruct (Node.accounts (heap w master_node) !! user_id);
          run; simpl_state; (split; [done|lia]).
      + split; [done|lia].
      + split; [done|lia]. }
  destruct Hcount as [Hq Hhm]. unfold balance_books_ok in *.
  split_and!; [done|lia|].
  unfold BalanceService.get_statistics. run.
  rewrite bool_decide_eq_true_2 by lia.
  eexists. split; [apply lookup_insert_eq || reflexivity|].
  apply percent_bounds; lia.
Qed.

Lemma balance_statistics_stay_consistent_witness :
  let run := BalanceService.get_balance "user_001" Demo.saint_louis
               (Some Demo.dakar) "AP" Demo.quiet Demo.world0 in
  let w' := state_after run in
  query_count (balance w') = S (query_count (balance Demo.world0)) ∧
  balance_books_ok (balance w') ∧
  ∃ rate,
    field "cache_hit_rate"
      (outcome (BalanceService.get_statistics (oracle_after run) w'))
      = Some (V (SFloat rate)) ∧
    (0 <= rate)%Q ∧ (rate <= 100)%Q.
Proof.
  apply (balance_statistics_stay_consistent "user_001" "AP" Demo.saint_louis
           (Some Demo.dakar) Demo.quiet Demo.world0).
  vm_compute. lia.
Defined.

(** ** The history *)

(** X26 (count and limit).  A history read answers with a success; its
    [count] is the number of all entries found, while [transactions] holds
    the first [limit] of them only.  When the answer comes from the local
    replica, the entries found are those of the node in which the user is
    the sender or the recipient.  (The read raises only on a history slot
    that holds a number, which no method writes.) *)
Theorem get_history_counts_all_and_shows_limit (user_id : string) (node : ref)
    (limit : nat) (o : Oracle) (w : World) :
  match outcome (HistoryService.get_history user_id node limit o w) with
  | Returned d =>
      ∃ all,
        d !! "success" = Some (V (SBool true)) ∧
        d !! "transactions" = Some (VTxList (take limit all)) ∧
        d !! "count" = Some (V (SInt (Z.of_nat (length all)))) ∧
        (d !! "source" = Some (V (SStr "replica_local")) →
         all = filter (involves user_id) (Node.transactions (heap w node)))
  | Raised _ =>
      ∃ b expiry,
        Node.cache (heap w node) !! ("history:" +:+ user_id)
          = Some (CachedBalance b, expiry)
  end.
Proof.
  unfold HistoryService.get_history, Node.get_transactions, Node._get_from_cache,
    Node._set_cache.
  run. simpl_state.
  destruct (Node.cache (heap w node) !! ("history:" +:+ user_id))
    as [[[b|txs] expiry]|] eqn:Hslot; run; simpl_state.
  1,2: destruct (Qltb (clock o 1) expiry); run; simpl_state.
  - by exists b, expiry.
  - set (all := filter _ _).
    assert (Hall : all = filter (involves user_id) (Node.transactions (heap w node)))
      by done.
    clearbody all. destruct all as [|tx rest]; run; simpl_state.
    + exists []. rewrite take_nil. split_and!; done.
    + exists (tx :: rest). split_and!; done.
  - exists txs. split_and!; done.
  - set (all := filter _ _).
    assert (Hall : all = filter (involves user_id) (Node.transactions (heap w node)))
      by done.
    clearbody all. destruct all as [|tx rest]; run; simpl_state.
    + exists []. rewrite take_nil. split_and!; done.
    + exists (tx :: rest). split_and!; done.
  - set (all := filter _ _).
    assert (Hall : all = filter (involves user_id) (Node.transactions (heap w node)))
      by done.
    clearbody all. destruct all as [|tx rest]; run; simpl_state.
    + exists []. rewrite take_nil. split_and!; done.
    + exists (tx :: rest). split_and!; done.
Qed.

(** X27 (a cached history misses later writes).  A history read that found
    entries caches them for five minutes, and [add_transaction] does not
    drop that entry: a read of the same user before the expiry answers from
    the cache with the old entries and the old count, although the history
    of the node has gained one. *)
Theorem cached_history_misses_later_writes (user_id : string) (node : ref)
    (limit : nat) (tx : TxDict) (o : Oracle) (w : World) :
  Node.cache (heap w node) !! ("history:" +:+ user_id) = None →
  filter (involves user_id) (Node.transactions (heap w node)) ≠ [] →
  involves user_id tx →
  Qltb (clock o 5) (clock o 2 + NetworkConfig.CACHE_TTL_history) = true →
  let run :=
    (HistoryService.get_history user_id node limit;;
     on_node node (Node.add_transaction tx);;
     HistoryService.get_history user_id node limit) o w in
  let before := filter (involves user_id) (Node.transactions (heap w node)) in
  let after :=
    filter (involves user_id) (Node.transactions (heap (state_after run) node)) in
  field "source" (outcome run) = Some (V (SStr "cache")) ∧
  field "transactions" (outcome run) = Some (VTxList (take limit before)) ∧
  field "count" (outcome run) = Some (V (SInt (Z.of_nat (length before)))) ∧
  length after = S (length before).
Proof.
  intros Hslot Hsome Htx Hfresh run. subst run.
  unfold HistoryService.get_history, Node.get_transactions, Node._get_from_cache,
    Node._set_cache, Node.add_transaction.
  run. simpl_state. rewrite Hslot. run. simpl_state.
  change (filter _ (Node.transactions (heap w node)))
    with (filter (involves user_id) (Node.transactions (heap w node))).
  destruct (filter (involves user_id) (Node.transactions (heap w node)))
    as [|tx0 rest] eqn:Hold; [done|].
  run. simpl_state. rewrite lookup_insert_eq. run. simpl_state.
  rewrite Hfresh. run. simpl_state.
  split_and!; try done.
  rewrite filter_app, Hold, length_app.
  rewrite filter_cons_True by done. simpl. lia.
Qed.

Lemma cached_history_misses_later_writes_witness :
  let run :=
    (HistoryService.get_history "user_001" Demo.saint_louis 50;;
     on_node Demo.saint_louis (Node.add_transaction Scenario.fresh_transfer);;
     HistoryService.get_history "user_001" Demo.saint_louis 50)
      Demo.quiet Scenario.busy_world in
  let before :=
    filter (involves "user_001")
      (Node.transactions (heap Scenario.busy_world Demo.saint_louis)) in
  let after :=
    filter (involves "user_001")
      (Node.transactions (heap (state_after run) Demo.saint_louis)) in
  field "source" (outcome run) = Some (V (SStr "cache")) ∧
  field "transactions" (outcome run) = Some (VTxList (take 50 before)) ∧
  field "count" (outcome run) = Some (V (SInt (Z.of_nat (length before)))) ∧
  length after = S (length before).
Proof.
  apply (cached_history_misses_later_writes "user_001" Demo.saint_louis 50
           Scenario.fresh_transfer Demo.quiet Scenario.busy_world).
  - vm_compute. reflexivity.
  - vm_compute. discriminate.
  - left. reflexivity.
  - vm_compute. reflexivity.
Defined.

(** ** The adaptive strategy under partition *)

Lemma can_reach_master_ext (n1 n2 m1 m2 : Node.t) :
  Node.role n2 = Node.role n1 →
  Node.can_reach n2 = Node.can_reach n1 →
  Node.id m2 = Node.id m1 →
  Node.can_reach_master n2 m2 = Node.can_reach_master n1 m1.
Proof.
  unfold Node.can_reach_master, Node.is_master. by intros -> -> ->.
Qed.

(** X28 (graceful degradation).  When the calling node cannot reach the
    master, the adaptive strategy refuses a transfer and a pre-transfer
    balance check at once, naming the actions that remain available and
    touching nothing, while it still answers a balance display, for a user
    who has an account on the node, and a history read, both with
    [success = True] and tagged [partition_mode], and both from the calling
    node alone: no message is sent and no other node is touched.  The
    balance displayed is the one the node has cached for the user, if that
    entry has not expired when the cache is read, and the one of its own
    balance map otherwise.  The history listed is the first 50 entries, and
    the count the length, of the list the node has cached for the user, if
    that entry has not expired, and of the entries of its own history that
    the user takes part in otherwise. *)
Theorem adaptive_strategy_under_partition (from_user to_user user_id context : string)
    (amount balance : Z) (node master_node : ref) (replica_nodes : list ref)
    (o : Oracle) (w : World) :
  Node.can_reach_master (heap w node) (heap w master_node) = false →
  context ≠ "pre_transfer" →
  Node.accounts (heap w node) !! user_id = Some balance →
  (∀ txs expiry, Node.cache (heap w node) !! ("balance:" +:+ user_id)
                   ≠ Some (CachedHistory txs, expiry)) →
  (∀ b expiry, Node.cache (heap w node) !! ("history:" +:+ user_id)
                 ≠ Some (CachedBalance b, expiry)) →
  let local_balance :=
    match Node.cache (heap w node) !! ("balance:" +:+ user_id) with
    | Some (CachedBalance cached, expiry) =>
        if Qltb (clock o 1) expiry then cached else balance
    | _ => balance
    end in
  let stored := filter (involves user_id) (Node.transactions (heap w node)) in
  let local_history :=
    match Node.cache (heap w node) !! ("history:" +:+ user_id) with
    | Some (CachedHistory cached, expiry) =>
        if Qltb (clock o 1) expiry then cached else stored
    | _ => stored
    end in
  let moved := AdaptiveStrategy.execute_transfer from_user to_user amount node
                 master_node replica_nodes o w in
  let checked := AdaptiveStrategy.execute_balance_query user_id node
                   master_node "pre_transfer" o w in
  let shown := AdaptiveStrategy.execute_balance_query user_id node master_node
                 context o w in
  let listed := AdaptiveStrategy.execute_history_query user_id node
                  master_node o w in
  (field "success" (outcome moved) = Some (V (SBool false)) ∧
   field "available_actions" (outcome moved)
     = Some (VStrList ["consulter_solde"; "voir_historique"]) ∧
   oracle_after moved = o ∧ state_after moved = w) ∧
  (field "success" (outcome checked) = Some (V (SBool false)) ∧
   field "error" (outcome checked) = Some (V (SStr "Cannot verify balance")) ∧
   oracle_after checked = o ∧ state_after checked = w) ∧
  (field "success" (outcome shown) = Some (V (SBool true)) ∧
   field "partition_mode" (outcome shown) = Some (V (SBool true)) ∧
   field "balance" (outcome shown) = Some (V (SInt local_balance)) ∧
   net (state_after shown) = net w ∧
   (∀ r, r ≠ node → heap (state_after shown) r = heap w r)) ∧
  (field "success" (outcome listed) = Some (V (SBool true)) ∧
   field "partition_mode" (outcome listed) = Some (V (SBool true)) ∧
   field "transactions" (outcome listed)
     = Some (VTxList (take 50 local_history)) ∧
   field "count" (outcome listed)
     = Some (V (SInt (Z.of_nat (length local_history)))) ∧
   net (state_after listed) = net w ∧
   (∀ r, r ≠ node → heap (state_after listed) r = heap w r)).
Proof.
  intros Hcut Hctx Hacc Hbslot Hhslot local_balance stored local_history
    moved checked shown listed.
  assert (Hid : ∀ (h : ref → Node.t) n',
    Node.id n' = Node.id (h node) →
    Node.id ((<[node := n']> h) master_node) = Node.id (h master_node)).
  { intros h n' Hi. destruct (decide (node = master_node)) as [<-|Hne].
    - by rewrite fn_lookup_insert.
    - by rewrite fn_lookup_insert_ne. }
  split_and!.
  1-4: subst moved; unfold AdaptiveStrategy.execute_transfer;
    rewrite !run_bind; unfold get; rewrite Hcut; reflexivity.
  1-4: subst checked; unfold AdaptiveStrategy.execute_balance_query;
    rewrite bool_decide_eq_true_2 by done;
    rewrite !run_bind; unfold get; rewrite Hcut; reflexivity.
  1-5: subst shown local_balance;
    unfold AdaptiveStrategy.execute_balance_query, BalanceService.get_balance,
      BalanceService.incr_query_count,
      BalanceService._get_balance_ap, BalanceService.incr_cache_hits,
      BalanceService.incr_cache_misses, Node.get_balance, Node._get_from_cache;
    rewrite bool_decide_eq_false_2 by done;
    run; rewrite bool_decide_eq_true_2 by done; run; simpl_state;
    (destruct (Node.cache (heap w node) !! ("balance:" +:+ user_id))
       as [[[b|txs] expiry]|] eqn:Hslot; [| by destruct (Hbslot txs expiry) |]);
    run; simpl_state;
    try (destruct (Qltb (clock o 1) expiry); run; simpl_state);
    rewrite ?Hacc; run; simpl_state;
    match goal with
    | |- context [Node.can_reach_master ?X ?Y] =>
        rewrite (can_reach_master_ext (heap w node) X (heap w master_node) Y
                   eq_refl eq_refl)
          by (by rewrite ?Hid by (by rewrite ?fn_lookup_insert))
    end;
    rewrite Hcut; cbn [negb]; run; simpl_state;
    first [ done | by rewrite ?take_nil
          | by intros r Hr; rewrite ?fn_lookup_insert_ne by done ].
  all: subst listed local_history stored;
    unfold AdaptiveStrategy.execute_history_query, HistoryService.get_history,
      Node.get_transactions, Node._get_from_cache, Node._set_cache;
    run; simpl_state;
    (destruct (Node.cache (heap w node) !! ("history:" +:+ user_id))
       as [[[b|txs] expiry]|] eqn:Hslot; [by destruct (Hhslot b expiry) | |]);
    run; simpl_state;
    try (destruct (Qltb (clock o 1) expiry); run; simpl_state);
    try (destruct (filter _ _); run; simpl_state);
    match goal with
    | |- context [Node.can_reach_master ?X ?Y] =>
        rewrite (can_reach_master_ext (heap w node) X (heap w master_node) Y
                   eq_refl eq_refl)
          by (by rewrite ?Hid by (by rewrite ?fn_lookup_insert))
    end;
    rewrite Hcut; cbn [negb]; run; simpl_state;
    first [ done | by rewrite ?take_nil
          | by intros r Hr; rewrite ?fn_lookup_insert_ne by done ].
Qed.

Lemma adaptive_strategy_under_partition_witness :
  let moved := AdaptiveStrategy.execute_transfer "user_001" "user_002" 2000
                 Demo.ziguinchor Demo.dakar [Demo.saint_louis; Demo.ziguinchor]
                 Demo.quiet Demo.partitioned_world in
  let checked := AdaptiveStrategy.execute_balance_query "user_001"
                   Demo.ziguinchor Demo.dakar "pre_transfer" Demo.quiet
                   Demo.partitioned_world in
  let shown := AdaptiveStrategy.execute_balance_query "user_001"
                 Demo.ziguinchor Demo.dakar "display" Demo.quiet
                 Demo.partitioned_world in
  let listed := AdaptiveStrategy.execute_history_query "user_001"
                  Demo.ziguinchor Demo.dakar Demo.quiet
                  Demo.partitioned_world in
  (field "success" (outcome moved) = Some (V (SBool false)) ∧
   field "available_actions" (outcome moved)
     = Some (VStrList ["consulter_solde"; "voir_historique"]) ∧
   oracle_after moved = Demo.quiet ∧
   state_after moved = Demo.partitioned_world) ∧
  (field "success" (outcome checked) = Some (V (SBool false)) ∧
   field "error" (outcome checked) = Some (V (SStr "Cannot verify balance")) ∧
   oracle_after checked = Demo.quiet ∧
   state_after checked = Demo.partitioned_world) ∧
  (field "success" (outcome shown) = Some (V (SBool true)) ∧
   field "partition_mode" (outcome shown) = Some (V (SBool true)) ∧
   field "balance" (outcome shown) = Some (V (SInt 10000)) ∧
   net (state_after shown) = net Demo.partitioned_world ∧
   (∀ r, r ≠ Demo.ziguinchor →
         heap (state_after shown) r = heap Demo.partitioned_world r)) ∧
  (field "success" (outcome listed) = Some (V (SBool true)) ∧
   field "partition_mode" (outcome listed) = Some (V (SBool true)) ∧
   field "transactions" (outcome listed) = Some (VTxList []) ∧
   field "count" (outcome listed) = Some (V (SInt 0)) ∧
   net (state_after listed) = net Demo.partitioned_world ∧
   (∀ r, r ≠ Demo.ziguinchor →
         heap (state_after listed) r = heap Demo.partitioned_world r)).
Proof.
  apply (adaptive_strategy_under_partition "user_001" "user_002" "user_001"
           "display" 2000 10000 Demo.ziguinchor Demo.dakar
           [Demo.saint_louis; Demo.ziguinchor] Demo.quiet
           Demo.partitioned_world).
  - vm_compute. reflexivity.
  - done.
  - vm_compute. reflexivity.
  - intros txs expiry. vm_compute. discriminate.
  - intros b expiry. vm_compute. discriminate.
Defined.

(** ** The collector of metrics *)

Lemma _normalize_phase_cases (phase : string) :
  MetricsCollector._normalize_phase phase ∈ ["before"; "during"; "after"].
Proof.
  unfold MetricsCollector._normalize_phase.
  repeat case_match; set_solver.
Qed.

Lemma new_tables_exist (strategy_name : string) :
  tables_exist (MetricsCollector.new strategy_name).
Proof.
  intros operation phase Hop Hph.
  repeat (apply elem_of_cons in Hop as [->|Hop]);
    [..|by apply elem_of_nil in Hop];
    (repeat (apply elem_of_cons in Hph as [->|Hph]);
     [..|by apply elem_of_nil in Hph]);
    by eexists _, _.
Qed.

(** X29 (results are filed under the normalised phase).  On a collector
    that has its tables, recording a result of one of the four operations
    under any phase name does not raise: the result is appended to the list
    of the operation under the normalised phase ("before", "during" or
    "after"), every other list is as before, the tables are still there, and
    [get_availability] of that operation and phase is a percentage. *)
Theorem record_files_under_the_normal_phase (operation phase : string)
    (result : Result) (o : Oracle) (c : MetricsCollector.t) :
  tables_exist c →
  operation ∈ ["transfer"; "balance"; "history"; "payment"] →
  let normal := MetricsCollector._normalize_phase phase in
  let run := MetricsCollector.record operation result phase o c in
  let c' := state_after run in
  outcome run = Returned tt ∧
  tables_exist c' ∧
  (∃ results,
     outcome (MetricsCollector.metrics_getitem operation normal o c)
       = Returned results ∧
     outcome (MetricsCollector.metrics_getitem operation normal o c')
       = Returned (results ++ [result])%list) ∧
  (∀ operation' phase',
     (operation', phase') ≠ (operation, normal) →
     outcome (MetricsCollector.metrics_getitem operation' phase' o c')
       = outcome (MetricsCollector.metrics_getitem operation' phase' o c)) ∧
  ∃ rate,
    outcome (MetricsCollector.get_availability operation normal o c')
      = Returned rate ∧
    (0 <= rate)%Q ∧ (rate <= 100)%Q.
Proof.
  intros Hwf Hop normal run c'.
  pose proof (_normalize_phase_cases phase) as Hnormal. fold normal in Hnormal.
  destruct (Hwf operation normal Hop Hnormal) as (phases & results & Hphases & Hresults).
  assert (Hrun : run = (Returned tt, o,
            MetricsCollector.mk (MetricsCollector.strategy_name c)
              (<[operation := <[normal := (results ++ [result])%list]> phases]>
                 (MetricsCollector.metrics c)))).
  { subst run. unfold MetricsCollector.record, MetricsCollector.metrics_getitem.
    fold normal. run. rewrite Hphases, Hresults. run. by rewrite Hphases. }
  subst c'. rewrite Hrun. cbn [outcome state_after fst snd].
  split_and!.
  - done.
  - intros op' ph' Hop' Hph'.
    destruct (Hwf op' ph' Hop' Hph') as (phases' & results' & Hp' & Hr').
    cbn [MetricsCollector.metrics].
    destruct (decide (op' = operation)) as [->|Hne].
    + rewrite lookup_insert_eq. rewrite Hphases in Hp'. injection Hp' as <-.
      destruct (decide (ph' = normal)) as [->|Hne'].
      * eexists _, _. split; [done|]. apply lookup_insert_eq.
      * eexists _, _. split; [done|]. by rewrite lookup_insert_ne.
    + rewrite lookup_insert_ne by done. by eexists _, _.
  - exists results. unfold MetricsCollector.metrics_getitem. run.
    cbn [MetricsCollector.metrics].
    rewrite Hphases, Hresults, !lookup_insert_eq. split; reflexivity.
  - intros op' ph' Hne. unfold MetricsCollector.metrics_getitem. run.
    cbn [MetricsCollector.metrics].
    destruct (decide (op' = operation)) as [->|Hne1].
    + rewrite lookup_insert_eq, Hphases.
      rewrite lookup_insert_ne; [by destruct (phases !! ph')|]. congruence.
    + rewrite lookup_insert_ne by done.
      destruct (MetricsCollector.metrics c !! op') as [p|]; [|done].
      by destruct (p !! ph').
  - unfold MetricsCollector.get_availability, MetricsCollector.metrics_getitem.
    run. cbn [MetricsCollector.metrics]. rewrite !lookup_insert_eq.
    destruct (results ++ [result])%list as [|r0 rest] eqn:Hall.
    { by destruct results. }
    rewrite <- Hall. eexists. split; [reflexivity|].
    apply percent_bounds; [apply length_filter|].
    rewrite Hall. simpl. lia.
Qed.

Lemma record_files_under_the_normal_phase_witness :
  let c := MetricsCollector.new "Adaptive" in
  let result : Result := {[ "success" := V (SBool true) ]} in
  let run := MetricsCollector.record "transfer" result "during_partition"
               Demo.quiet c in
  let c' := state_after run in
  outcome run = Returned tt ∧
  tables_exist c' ∧
  (∃ results,
     outcome (MetricsCollector.metrics_getitem "transfer"
                (MetricsCollector._normalize_phase "during_partition")
                Demo.quiet c) = Returned results ∧
     outcome (MetricsCollector.metrics_getitem "transfer"
                (MetricsCollector._normalize_phase "during_partition")
                Demo.quiet c') = Returned (results ++ [result])%list) ∧
  (∀ operation' phase',
     (operation', phase')
       ≠ ("transfer", MetricsCollector._normalize_phase "during_partition") →
     outcome (MetricsCollector.metrics_getitem operation' phase' Demo.quiet c')
       = outcome (MetricsCollector.metrics_getitem operation' phase' Demo.quiet c)) ∧
  ∃ rate,
    outcome (MetricsCollector.get_availability "transfer"
               (MetricsCollector._normalize_phase "during_partition")
               Demo.quiet c') = Returned rate ∧
    (0 <= rate)%Q ∧ (rate <= 100)%Q.
Proof.
  apply (record_files_under_the_normal_phase "transfer" "during_partition"
           {[ "success" := V (SBool true) ]} Demo.quiet
           (MetricsCollector.new "Adaptive")).
  - apply new_tables_exist.
  - set_solver.
Defined.

(** ** The simulation of a day *)

Section simulate_lemmas.
Context {S : Type} (transaction_executor : nat → nat → M S Result).
Hypothesis Hanswers : answers transaction_executor.

Lemma sample_loop_counts (hour : nat) (indices : list nat) (hr : HourResult)
    (o : Oracle) (s : S) :
  ∃ hr' o' s',
    DailyLoadSimulator.sample_loop transaction_executor hour indices hr o s
      = (Returned hr', o', s') ∧
    hr_hour hr' = hr_hour hr ∧
    hr_expected_load hr' = hr_expected_load hr ∧
    hr_network_latency hr' = hr_network_latency hr ∧
    (∃ new, hr_transactions hr' = (hr_transactions hr ++ new)%list ∧
            length new = length indices ∧
            hr_success_count hr'
              = (hr_success_count hr
                 + length (filter (λ r, succeeded r = true) new))%nat ∧
            (hr_success_count hr' + hr_failure_count hr'
             = hr_success_count hr + hr_failure_count hr + length indices)%nat).
Proof.
  revert hr o s. induction indices as [|i rest IH]; intros hr o s; simpl.
  - eexists _, _, _. split; [reflexivity|]. split_and!; try done.
    exists []. rewrite app_nil_r. simpl. split_and!; [done|done|lia|lia].
  - rewrite run_bind.
    destruct (Hanswers hour i o s) as (res & o1 & s1 & -> & Hnum).
    destruct (succeeded res) eqn:Hok.
    + destruct (Hnum eq_refl) as [latency ->].
      match goal with
      | |- context [DailyLoadSimulator.sample_loop _ _ _ ?h ?o' ?s'] =>
          destruct (IH h o' s') as (hr' & o2 & s2 & -> & ? & ? & ? & new & Htx & Hlen & Hsc & Hsum)
      end.
      simpl in *. eexists _, _, _. split; [reflexivity|]. split_and!; try done.
      exists (res :: new). rewrite Htx, <- app_assoc. simpl.
      rewrite filter_cons_True by done. simpl. split_and!; [done|lia|lia|lia].
    + match goal with
      | |- context [DailyLoadSimulator.sample_loop _ _ _ ?h ?o' ?s'] =>
          destruct (IH h o' s') as (hr' & o2 & s2 & -> & ? & ? & ? & new & Htx & Hlen & Hsc & Hsum)
      end.
      simpl in *. eexists _, _, _. split; [reflexivity|]. split_and!; try done.
      exists (res :: new). rewrite Htx, <- app_assoc. simpl.
      rewrite filter_cons_False by (by rewrite Hok). split_and!; [done|lia|lia|lia].
Qed.

Lemma simulate_hour_reports (transactions_per_sample hour : nat)
    (o : Oracle) (s : S) :
  ∃ hr o' s',
    DailyLoadSimulator.simulate_hour transaction_executor
      transactions_per_sample hour o s = (Returned hr, o', s') ∧
    hour_report_ok transactions_per_sample hour hr.
Proof.
  unfold DailyLoadSimulator.simulate_hour. cbv zeta. rewrite run_bind.
  match goal with
  | |- context [DailyLoadSimulator.sample_loop _ ?h ?l ?hr0 ?o' ?s'] =>
      destruct (sample_loop_counts h l hr0 o' s')
        as (hr & o1 & s1 & -> & Hh & Hl & Hn & new & Htx & Hlen & Hsc & Hsum)
  end.
  simpl in *. rewrite length_seq in *.
  eexists _, _, _. split; [reflexivity|].
  unfold hour_report_ok. simpl. rewrite Htx.
  split_and!; try done; try lia.
  rewrite Hsum.
  destruct (bool_decide_reflect (0 < transactions_per_sample)%nat).
  - split; [done|]. apply percent_bounds; lia.
  - split; [done|lia].
Qed.

Lemma hours_loop_reports (transactions_per_sample : nat) (hours : list nat)
    (hourly_metrics : list HourResult) (o : Oracle) (s : S) :
  ∃ reports o' s',
    DailyLoadSimulator.hours_loop transaction_executor transactions_per_sample
      hours hourly_metrics o s
      = (Returned (hourly_metrics ++ reports)%list, o', s') ∧
    Forall2 (hour_report_ok transactions_per_sample) hours reports.
Proof.
  revert hourly_metrics o s.
  induction hours as [|hour rest IH]; intros hourly_metrics o s; simpl.
  - exists [], o, s. rewrite app_nil_r. split; [done|constructor].
  - rewrite run_bind.
    destruct (simulate_hour_reports transactions_per_sample hour o s)
      as (hr & o1 & s1 & -> & Hhr).
    destruct (IH (hourly_metrics ++ [hr])%list o1 s1)
      as (reports & o2 & s2 & -> & Hall).
    exists (hr :: reports), o2, s2. rewrite <- app_assoc.
    split; [done|by constructor].
Qed.
End simulate_lemmas.

(** X30 (a report for every hour).  With an executor that always returns
    a result, with a numeric latency whenever it reports a success,
    [simulate_24h] returns 24 reports, the one at position [h] being that of
    hour [h]: it carries the load and the latency of the load profile for
    that hour, the results of exactly [transactions_per_sample]
    transactions, a success count equal to the number of successful results
    among them, a failure count that completes it, and a success rate that
    is a percentage. *)
Theorem simulate_24h_reports_every_hour {S}
    (transaction_executor : nat → nat → M S Result)
    (transactions_per_sample : nat) (o : Oracle) (s : S) :
  answers transaction_executor →
  ∃ hourly_metrics,
    outcome (DailyLoadSimulator.simulate_24h transaction_executor
               transactions_per_sample o s) = Returned hourly_metrics ∧
    length hourly_metrics = 24%nat ∧
    ∀ hour hr,
      hourly_metrics !! hour = Some hr →
      hour_report_ok transactions_per_sample hour hr.
Proof.
  intros Hanswers. unfold DailyLoadSimulator.simulate_24h.
  destruct (hours_loop_reports transaction_executor Hanswers
              transactions_per_sample (seq 0 24) [] o s)
    as (reports & o' & s' & -> & Hall).
  exists reports. split; [done|].
  pose proof (Forall2_length _ _ _ Hall) as Hlen. rewrite length_seq in Hlen.
  split; [done|].
  intros hour hr Hhr.
  destruct (Forall2_lookup_r _ _ _ _ _ Hall Hhr) as (h & Hh & Hok).
  apply lookup_seq in Hh as [-> _]. done.
Qed.

Lemma steady_answers : answers Scenario.steady.
Proof.
  intros hour i o s. eexists _, _, _. split; [reflexivity|].
  intros _. by eexists.
Qed.

Lemma simulate_24h_reports_every_hour_witness :
  ∃ hourly_metrics,
    outcome (DailyLoadSimulator.simulate_24h Scenario.steady 5 Demo.quiet tt)
      = Returned hourly_metrics ∧
    length hourly_metrics = 24%nat ∧
    ∀ hour hr,
      hourly_metrics !! hour = Some hr → hour_report_ok 5 hour hr.
Proof.
  apply (simulate_24h_reports_every_hour Scenario.steady 5 Demo.quiet tt).
  apply steady_answers.
Defined.

